(** * IMD-Care ward management: discharge workflow, roster aggregation and
      stay classification

    A shallow embedding of
      - [src/utils/stayCalculator] ([calculateStayDuration], [isLongStay]),
      - [src/stores/useDischargeStore.ts] ([fetchActivePatients],
        [processDischarge]),
      - [src/stores/usePatientStore.ts] ([fetchPatients]),
      - [src/components/Discharge/DischargeForm.tsx] ([validateForm],
        [handleSubmit]),
    together with the properties of the specification that concern them.

    Conventions.  A JS number that is an id or a timestamp is a [Z]; a JS
    [NaN] produced by date arithmetic is [None].  [undefined] and [null] of
    an optional field are [None].  Asynchronous store actions are functions
    of an explicit [World] (backend tables, the scripted outcomes of the
    coming backend calls, the log of requests issued, the zustand states);
    a rejected promise is the [Err] result. *)

From Stdlib Require Import ZArith List String Ascii Bool Lia Permutation Sorted.
Import ListNotations.
Local Open Scope string_scope.
Local Open Scope list_scope.
Local Open Scope Z_scope.

Set Implicit Arguments.

(* ================================================================== *)
(** * JavaScript prelude *)

Module Js.

(** Truthiness of a string: only the empty string is falsy. *)
Definition truthy_string (s : string) : bool :=
  negb (String.eqb s "").

(** Truthiness of an optional string ([undefined]/[null] are falsy). *)
Definition truthy (o : option string) : bool :=
  match o with
  | Some s => truthy_string s
  | None => false
  end.

(** [a || b] on optional strings. *)
Definition or (a b : option string) : option string :=
  if truthy a then a else b.

(** [a || 'literal'] on an optional string. *)
Definition or_default (a : option string) (d : string) : string :=
  match a with
  | Some s => if truthy_string s then s else d
  | None => d
  end.

(** [n || 0] on an optional number. *)
Definition or_zero (n : option Z) : Z :=
  match n with
  | Some k => if k =? 0 then 0 else k
  | None => 0
  end.

(** [a || b] on numbers: [a] unless it is zero. *)
Definition or_number (a b : Z) : Z :=
  if a =? 0 then b else a.

(** [Math.round(a / b)] for integers [a] and [b > 0]: the integer nearest
    to the quotient, a half going up.  (The quotient is taken in double
    precision; for time values and [b = 86400000] that rounds as the
    exact quotient does.) *)
Definition round_div (a b : Z) : Z := (2 * a + b) / (2 * b).

(** Truthiness of an optional boolean flag. *)
Definition truthy_flag (b : option bool) : bool :=
  match b with
  | Some true => true
  | _ => false
  end.

(** [xs || []]. *)
Definition or_empty {A} (xs : option (list A)) : list A :=
  match xs with
  | Some l => l
  | None => []
  end.

(** A value that can be thrown: an [Error] instance with its message, or
    any other object (what the data-access client hands back in the
    [error] field of a response). *)
Inductive Thrown :=
| ErrorObj (message : string)
| OtherObj (description : string).

(** [e instanceof Error ? e.message : fallback]. *)
Definition message_or (e : Thrown) (fallback : string) : string :=
  match e with
  | ErrorObj m => m
  | OtherObj _ => fallback
  end.

(** [xs.find(p)]. *)
Definition find {A} (p : A -> bool) (xs : list A) : option A :=
  List.find p xs.

(** [xs.sort(cmp)], for a comparator whose result is a number or [NaN]
    ([None]).  The built-in sort is stable, and [x] is put after [y]
    exactly when [cmp x y > 0]; on a consistent comparator that fixes
    the result, which this insertion sort computes. *)
Section Sort.
Variable A : Type.
Variable cmp : A -> A -> option Z.

Definition after (x y : A) : bool :=
  match cmp x y with
  | Some c => 0 <? c
  | None => false
  end.

Fixpoint insert (x : A) (l : list A) : list A :=
  match l with
  | [] => [x]
  | y :: l' => if after x y then y :: insert x l' else x :: l
  end.

Definition sort (l : list A) : list A :=
  fold_right insert [] l.
End Sort.

End Js.

(** The built-ins of the JS runtime that the code calls and whose result
    depends on the host: [new Date(s).getTime()] ([None] for an invalid
    date), [Date.prototype.toISOString], [String.prototype.trim], and the
    time zone of the host, as the language specification has it:
    [LocalTZA t true] is the offset of local time from UTC, in
    milliseconds, at the instant [t]; [LocalTZA t false] is the offset
    by which the local time value [t] is read (where the clocks skip or
    repeat [t], the offset before the change). *)
Class JsRuntime := {
  getTime : string -> option Z;
  toISOString : Z -> string;
  trim : string -> string;
  LocalTZA : Z -> bool -> Z
}.

(* ================================================================== *)
(** * Date objects

    The time value of a [Date] is a [Z], in milliseconds since the epoch.
    The definitions are those of the language specification (Date
    objects); a getter reads a field of the local time of its date, a
    setter rebuilds a local time from the fields and reads it back as an
    instant.  Time values stay far inside the range [TimeClip] lets
    through. *)
Module JsDate.
Section WithRuntime.
Context {rt : JsRuntime}.

Definition msPerDay : Z := 86400000.
Definition msPerHour : Z := 3600000.
Definition msPerMinute : Z := 60000.
Definition msPerSecond : Z := 1000.

Definition LocalTime (t : Z) : Z := t + LocalTZA t true.

Definition UTC (t : Z) : Z := t - LocalTZA t false.

Definition Day (t : Z) : Z := t / msPerDay.

Definition TimeWithinDay (t : Z) : Z := t mod msPerDay.

Definition HourFromTime (t : Z) : Z := (t / msPerHour) mod 24.

Definition MinFromTime (t : Z) : Z := (t / msPerMinute) mod 60.

Definition SecFromTime (t : Z) : Z := (t / msPerSecond) mod 60.

Definition msFromTime (t : Z) : Z := t mod msPerSecond.

Definition MakeTime (hour min sec ms : Z) : Z :=
  hour * msPerHour + min * msPerMinute + sec * msPerSecond + ms.

Definition MakeDate (day time : Z) : Z := day * msPerDay + time.

Definition getHours (t : Z) : Z := HourFromTime (LocalTime t).

Definition getMinutes (t : Z) : Z := MinFromTime (LocalTime t).

Definition getSeconds (t : Z) : Z := SecFromTime (LocalTime t).

Definition getMilliseconds (t : Z) : Z := msFromTime (LocalTime t).

(** Number of the local calendar day of [t].  [getFullYear], [getMonth]
    and [getDate] are the year, the month and the day of the month of
    that day. *)
Definition localDay (t : Z) : Z := Day (LocalTime t).

(** [date.setHours(hour)]: the minutes, seconds and milliseconds are
    kept. *)
Definition setHours (hour : Z) (t : Z) : Z :=
  let local := LocalTime t in
  UTC (MakeDate (Day local)
                (MakeTime hour (MinFromTime local) (SecFromTime local)
                          (msFromTime local))).

(** [date.setHours(hour, min, sec, ms)]. *)
Definition setHoursTo (hour min sec ms : Z) (t : Z) : Z :=
  UTC (MakeDate (Day (LocalTime t)) (MakeTime hour min sec ms)).

(** [date.setDate(date.getDate() - k)].  [setDate(dt)] makes the day
    [MakeDay(year, month, dt)] of the date's own year and month, which
    is [dt - 1] days after the first of that month; for
    [dt = getDate() - k] that is the day of the date less [k].  The time
    within the day is kept. *)
Definition setDateBack (k : Z) (t : Z) : Z :=
  let local := LocalTime t in
  UTC (MakeDate (Day local - k) (TimeWithinDay local)).

(** The clocks of the zone show the local time value [tl]: read as a
    local time, it is the local time of the instant it names.  (The
    local times skipped when the clocks are put forward are not shown.) *)
Definition onClock (tl : Z) : Prop := LocalTime (UTC tl) = tl.

(** A zone whose offset from UTC is always [c]. *)
Definition fixedOffset (c : Z) : Prop := forall t isUTC, LocalTZA t isUTC = c.
End WithRuntime.
End JsDate.

(* ================================================================== *)
(** * date-fns *)

(** [differenceInDays] of the date-fns package, which the stay calculator
    imports, with the functions of the package it calls.  The package is
    a dependency, not part of the repository; the definitions follow its
    published source step by step. *)
Module DateFns.
Section WithRuntime.
Context {rt : JsRuntime}.

Definition MILLISECONDS_IN_DAY : Z := 86400000.

(** [startOfDay]: [date.setHours(0, 0, 0, 0)]. *)
Definition startOfDay (date : Z) : Z := JsDate.setHoursTo 0 0 0 0 date.

(** [getTimezoneOffsetInMilliseconds]: the date less [Date.UTC] of its
    local fields, which is its local time value. *)
Definition getTimezoneOffsetInMilliseconds (date : Z) : Z :=
  let utcDate := JsDate.LocalTime date in
  date - utcDate.

Definition differenceInCalendarDays (dateLeft dateRight : Z) : Z :=
  let startOfDayLeft := startOfDay dateLeft in
  let startOfDayRight := startOfDay dateRight in
  let timestampLeft :=
    startOfDayLeft - getTimezoneOffsetInMilliseconds startOfDayLeft in
  let timestampRight :=
    startOfDayRight - getTimezoneOffsetInMilliseconds startOfDayRight in
  Js.round_div (timestampLeft - timestampRight) MILLISECONDS_IN_DAY.

(** [compareLocalAsc]: the first difference that is not zero among the
    local fields, from the year down to the milliseconds, reduced to its
    sign.  The differences of year, month and day of the month are
    taken together as the difference of the local calendar days: they
    are all zero exactly when it is, and the first of them that is not
    has its sign. *)
Definition compareLocalAsc (dateLeft dateRight : Z) : Z :=
  let diff :=
    Js.or_number
      (JsDate.localDay dateLeft - JsDate.localDay dateRight)
      (Js.or_number
         (JsDate.getHours dateLeft - JsDate.getHours dateRight)
         (Js.or_number
            (JsDate.getMinutes dateLeft - JsDate.getMinutes dateRight)
            (Js.or_number
               (JsDate.getSeconds dateLeft - JsDate.getSeconds dateRight)
               (JsDate.getMilliseconds dateLeft
                - JsDate.getMilliseconds dateRight)))) in
  if diff <? 0 then -1
  else if 0 <? diff then 1
  else diff.

Definition differenceInDays (dateLeft dateRight : Z) : Z :=
  let sign := compareLocalAsc dateLeft dateRight in
  let difference := Z.abs (differenceInCalendarDays dateLeft dateRight) in
  (* dateLeft.setDate(dateLeft.getDate() - sign * difference) *)
  let dateLeft' := JsDate.setDateBack (sign * difference) dateLeft in
  let isLastDayNotFull :=
    if compareLocalAsc dateLeft' dateRight =? - sign then 1 else 0 in
  sign * (difference - isLastDayNotFull).
End WithRuntime.
End DateFns.

(* ================================================================== *)
(** * src/utils/stayCalculator

    (the module the components import [calculateStayDuration] and
    [isLongStay] from) *)

Module StayCalculator.
Section WithRuntime.
Context {rt : JsRuntime}.

Definition LONG_STAY_THRESHOLD : Z := 6.

(** [now] is the instant [new Date()] yields when the function runs. *)
Definition calculateStayDuration (now : Z) (admissionDate : string)
  : option Z :=
  match getTime admissionDate with
  | Some admissionDateTime =>
      Some (DateFns.differenceInDays now admissionDateTime)
  | None => None
  end.

Definition isLongStay (now : Z) (admissionDate : string) : bool :=
  match calculateStayDuration now admissionDate with
  | Some stayDuration => LONG_STAY_THRESHOLD <=? stayDuration
  | None => false
  end.
End WithRuntime.
End StayCalculator.

(* ================================================================== *)
(** * Data model *)

(** ** Enumerations ([src/types/admission.ts], [src/types/patient.ts]) *)

Inductive AdmissionStatus := active | discharged | transferred.
Inductive ShiftType :=
  morning | evening | night | weekend_morning | weekend_night.
Inductive SafetyType := emergency | observation | short_stay.
Inductive DischargeType := regular | against_medical_advice | transfer.
Inductive Role := doctor | nurse | administrator.
Inductive Gender := male | female.

Definition AdmissionStatus_eqb (a b : AdmissionStatus) : bool :=
  match a, b with
  | active, active | discharged, discharged | transferred, transferred => true
  | _, _ => false
  end.

(** ** Rows of the backend tables *)

Module User.
Record t := {
  id : Z;
  name : string;
  medical_code : string;
  role : Role;
  department : string
}.
End User.

Module PatientRow.
Record t := {
  id : Z;
  mrn : string;
  name : string;
  date_of_birth : string;
  gender : Gender
}.
End PatientRow.

Module AdmissionRow.
Record t := {
  id : Z;
  patient_id : Z;
  admitting_doctor_id : Z;
  discharge_doctor_id : option Z;
  status : AdmissionStatus;
  department : string;
  admission_date : string;
  discharge_date : option string;
  diagnosis : string;
  visit_number : Z;
  safety_type : option SafetyType;
  shift_type : ShiftType;
  is_weekend : bool;
  discharge_type : option DischargeType;
  follow_up_required : bool;
  follow_up_date : option string;
  discharge_note : option string
}.
End AdmissionRow.

Module ConsultationRow.
Record t := {
  id : Z;
  patient_id : Z;
  mrn : string;
  patient_name : string;
  created_at : string;
  consultation_specialty : string;
  reason : string;
  doctor_id : option Z;
  doctor_name : option string;
  status : string;
  completion_note : option string;
  completed_by : option Z;
  completed_at : option string
}.
End ConsultationRow.

(** The argument of [useMedicalNotesStore.getState().addNote]. *)
Module NoteInsert.
Record t := {
  patient_id : Z;
  doctor_id : Z;
  note_type : string;
  content : string
}.
End NoteInsert.

(** ** Payloads of the two status updates of [processDischarge] *)

Module AdmissionUpdate.
Record t := {
  status : AdmissionStatus;
  discharge_date : string;
  discharge_type : DischargeType;
  follow_up_required : bool;
  follow_up_date : option string;
  discharge_note : string;
  discharge_doctor_id : Z
}.
End AdmissionUpdate.

Module ConsultationUpdate.
Record t := {
  status : string;
  completion_note : string;
  completed_by : Z;
  completed_at : string
}.
End ConsultationUpdate.

(** ** Rows as the select queries return them (embedded relations are
       arrays, as the code indexes them) *)

(** An admission with its embedded [patient] and doctors. *)
Module AdmissionResult.
Record t := {
  row : AdmissionRow.t;
  patient : list PatientRow.t;
  admitting_doctor : option (list User.t);
  discharge_doctor : option (list User.t)
}.
End AdmissionResult.

(** A patient with its embedded [admissions]. *)
Module PatientResult.
Record t := {
  row : PatientRow.t;
  admissions : option (list AdmissionResult.t)
}.
End PatientResult.

(** ** View models *)

(** [ActivePatient] of [useDischargeStore.ts]. *)
Module ActivePatient.
Record t := {
  id : Z;
  patient_id : Z;
  mrn : string;
  name : string;
  admission_date : string;
  department : string;
  doctor_name : string;
  diagnosis : string;
  status : AdmissionStatus;
  admitting_doctor_id : Z;
  shift_type : ShiftType;
  is_weekend : bool;
  isConsultation : option bool;
  consultation_id : option Z
}.
End ActivePatient.

(** An element of [Patient.admissions] ([src/types/patient.ts]). *)
Module AdmissionView.
Record t := {
  id : Z;
  patient_id : Z;
  admitting_doctor_id : Z;
  admission_date : string;
  discharge_date : option string;
  department : string;
  diagnosis : string;
  status : AdmissionStatus;
  visit_number : Z;
  safety_type : option SafetyType;
  shift_type : ShiftType;
  is_weekend : bool;
  admitting_doctor : option User.t;
  discharge_doctor : option User.t
}.
End AdmissionView.

(** [Patient] of [src/types/patient.ts]. *)
Module Patient.
Record t := {
  id : Z;
  mrn : string;
  name : string;
  date_of_birth : string;
  gender : Gender;
  admissions : list AdmissionView.t;
  department : option string;
  diagnosis : option string;
  admission_date : option string;
  doctor_name : option string
}.
End Patient.

(** [FormData] of [DischargeForm.tsx]. *)
Module FormData.
Record t := {
  discharge_date : string;
  discharge_type : DischargeType;
  follow_up_required : bool;
  follow_up_date : string;
  discharge_note : string
}.
End FormData.

(** [DischargeData]: the form data with an optional follow-up date and the
    target status (the fields [handleSubmit] builds and [processDischarge]
    reads). *)
Module DischargeData.
Record t := {
  discharge_date : string;
  discharge_type : DischargeType;
  follow_up_required : bool;
  follow_up_date : option string;
  discharge_note : string;
  status : AdmissionStatus
}.
End DischargeData.

(** A store object: its value and the reference under which it was
    allocated.  The stores never mutate an object they hold (every action
    builds new ones), so identity is all the reference has to carry. *)
Record Obj (A : Type) := mkObj { ref : nat; val : A }.
Arguments mkObj {A} _ _.

(* ================================================================== *)
(** * The backend

    The relational tables behind the data-access client, with the
    queries and writes the stores issue.  A write is atomic per request:
    it is applied as a whole or, when the backend answers with an error,
    not at all. *)

(** The filter on the embedded [admissions] that [fetchPatients] builds:
    [status.eq.S], [discharge_date.gte.T], [and(..)], [or(..)]. *)
Inductive AdmissionFilter :=
| status_eq (s : AdmissionStatus)
| discharge_date_gte (t : Z)
| filter_and (f g : AdmissionFilter)
| filter_or (f g : AdmissionFilter).

(** The patients query: [.not('admissions','is',null)] and
    [.or(.., { foreignTable: 'admissions' })]. *)
Module PatientQuery.
Record t := {
  admissions_not_null : bool;
  admissions_filter : option AdmissionFilter
}.
End PatientQuery.

Module Db.
Record t := {
  users : list User.t;
  patients : list PatientRow.t;
  admissions : list AdmissionRow.t;
  consultations : list ConsultationRow.t;
  medical_notes : list NoteInsert.t
}.

Section WithRuntime.
Context {rt : JsRuntime}.

(** Embedding of the referenced patient and doctors into one
    admission row. *)
Definition join_admission (d : t) (a : AdmissionRow.t)
  : AdmissionResult.t :=
  {| AdmissionResult.row := a;
     AdmissionResult.patient :=
       filter (fun p => PatientRow.id p =? AdmissionRow.patient_id a)
              (patients d);
     AdmissionResult.admitting_doctor :=
       Some (filter
               (fun u => User.id u =? AdmissionRow.admitting_doctor_id a)
               (users d));
     AdmissionResult.discharge_doctor :=
       Some (match AdmissionRow.discharge_doctor_id a with
             | Some k => filter (fun u => User.id u =? k) (users d)
             | None => []
             end) |}.

(** [from('admissions').select(..).eq('status', 'active')]. *)
Definition select_active_admissions (d : t) : list AdmissionResult.t :=
  map (join_admission d)
      (filter (fun a => AdmissionStatus_eqb (AdmissionRow.status a) active)
              (admissions d)).

(** [from('consultations').select(..).eq('status', 'active')]. *)
Definition select_active_consultations (d : t) : list ConsultationRow.t :=
  filter (fun c => String.eqb (ConsultationRow.status c) "active")
         (consultations d).

(** Does an admission row pass a filter?  A [null] discharge date
    passes no comparison. *)
Fixpoint passes (f : AdmissionFilter) (a : AdmissionRow.t) : bool :=
  match f with
  | status_eq s => AdmissionStatus_eqb (AdmissionRow.status a) s
  | discharge_date_gte t =>
      match AdmissionRow.discharge_date a with
      | Some s =>
          match getTime s with
          | Some u => t <=? u
          | None => false
          end
      | None => false
      end
  | filter_and f g => passes f a && passes g a
  | filter_or f g => passes f a || passes g a
  end.

Definition passes_opt (f : option AdmissionFilter) (a : AdmissionRow.t)
  : bool :=
  match f with
  | Some f => passes f a
  | None => true
  end.

(** The admissions embedded into patient [p] under query [q]. *)
Definition embedded_admissions (q : PatientQuery.t) (d : t)
           (p : PatientRow.t) : list AdmissionRow.t :=
  filter (fun a => (AdmissionRow.patient_id a =? PatientRow.id p)
                   && passes_opt (PatientQuery.admissions_filter q) a)
         (admissions d).

Definition nonempty {A} (l : list A) : bool :=
  match l with
  | [] => false
  | _ :: _ => true
  end.

(** A patient is returned unless the query asks for a non-null
    embedding and none of its admissions passes the filter. *)
Definition returned (q : PatientQuery.t) (d : t) (p : PatientRow.t)
  : bool :=
  negb (PatientQuery.admissions_not_null q)
  || nonempty (embedded_admissions q d p).

(** [from('patients').select(.. admissions(..) ..)] under [q]. *)
Definition select_patients (q : PatientQuery.t) (d : t)
  : list PatientResult.t :=
  map (fun p =>
         {| PatientResult.row := p;
            PatientResult.admissions :=
              Some (map (join_admission d) (embedded_admissions q d p)) |})
      (filter (returned q d) (patients d)).
End WithRuntime.

Definition apply_admission_update (u : AdmissionUpdate.t)
           (a : AdmissionRow.t) : AdmissionRow.t :=
  {| AdmissionRow.id := AdmissionRow.id a;
     AdmissionRow.patient_id := AdmissionRow.patient_id a;
     AdmissionRow.admitting_doctor_id := AdmissionRow.admitting_doctor_id a;
     AdmissionRow.discharge_doctor_id :=
       Some (AdmissionUpdate.discharge_doctor_id u);
     AdmissionRow.status := AdmissionUpdate.status u;
     AdmissionRow.department := AdmissionRow.department a;
     AdmissionRow.admission_date := AdmissionRow.admission_date a;
     AdmissionRow.discharge_date := Some (AdmissionUpdate.discharge_date u);
     AdmissionRow.diagnosis := AdmissionRow.diagnosis a;
     AdmissionRow.visit_number := AdmissionRow.visit_number a;
     AdmissionRow.safety_type := AdmissionRow.safety_type a;
     AdmissionRow.shift_type := AdmissionRow.shift_type a;
     AdmissionRow.is_weekend := AdmissionRow.is_weekend a;
     AdmissionRow.discharge_type := Some (AdmissionUpdate.discharge_type u);
     AdmissionRow.follow_up_required :=
       AdmissionUpdate.follow_up_required u;
     AdmissionRow.follow_up_date := AdmissionUpdate.follow_up_date u;
     AdmissionRow.discharge_note := Some (AdmissionUpdate.discharge_note u) |}.

Definition apply_consultation_update (u : ConsultationUpdate.t)
           (c : ConsultationRow.t) : ConsultationRow.t :=
  {| ConsultationRow.id := ConsultationRow.id c;
     ConsultationRow.patient_id := ConsultationRow.patient_id c;
     ConsultationRow.mrn := ConsultationRow.mrn c;
     ConsultationRow.patient_name := ConsultationRow.patient_name c;
     ConsultationRow.created_at := ConsultationRow.created_at c;
     ConsultationRow.consultation_specialty :=
       ConsultationRow.consultation_specialty c;
     ConsultationRow.reason := ConsultationRow.reason c;
     ConsultationRow.doctor_id := ConsultationRow.doctor_id c;
     ConsultationRow.doctor_name := ConsultationRow.doctor_name c;
     ConsultationRow.status := ConsultationUpdate.status u;
     ConsultationRow.completion_note :=
       Some (ConsultationUpdate.completion_note u);
     ConsultationRow.completed_by := Some (ConsultationUpdate.completed_by u);
     ConsultationRow.completed_at :=
       Some (ConsultationUpdate.completed_at u) |}.

Definition with_admissions (l : list AdmissionRow.t) (d : t) : t :=
  {| users := users d; patients := patients d; admissions := l;
     consultations := consultations d; medical_notes := medical_notes d |}.

Definition with_consultations (l : list ConsultationRow.t) (d : t) : t :=
  {| users := users d; patients := patients d; admissions := admissions d;
     consultations := l; medical_notes := medical_notes d |}.

Definition with_medical_notes (l : list NoteInsert.t) (d : t) : t :=
  {| users := users d; patients := patients d; admissions := admissions d;
     consultations := consultations d; medical_notes := l |}.

(** [from('admissions').update(u).eq('id', id)]. *)
Definition update_admission (id : Z) (u : AdmissionUpdate.t) (d : t) : t :=
  with_admissions
    (map (fun a => if AdmissionRow.id a =? id
                   then apply_admission_update u a else a)
         (admissions d)) d.

(** [from('consultations').update(u).eq('id', id)]; an [undefined] id
    matches no row. *)
Definition update_consultation (id : option Z) (u : ConsultationUpdate.t)
           (d : t) : t :=
  with_consultations
    (map (fun c => match id with
                   | Some k => if ConsultationRow.id c =? k
                               then apply_consultation_update u c else c
                   | None => c
                   end)
         (consultations d)) d.

Definition insert_note (n : NoteInsert.t) (d : t) : t :=
  with_medical_notes (medical_notes d ++ [n]) d.
End Db.

(* ================================================================== *)
(** * Store states and the world the actions run in *)

Module DischargeStore.
Record t := {
  activePatients : list (Obj ActivePatient.t);
  loading : bool;
  error : option string;
  selectedPatient : option (Obj ActivePatient.t)
}.

Definition with_activePatients l (s : t) : t :=
  {| activePatients := l; loading := loading s; error := error s;
     selectedPatient := selectedPatient s |}.
Definition with_loading b (s : t) : t :=
  {| activePatients := activePatients s; loading := b; error := error s;
     selectedPatient := selectedPatient s |}.
Definition with_error e (s : t) : t :=
  {| activePatients := activePatients s; loading := loading s; error := e;
     selectedPatient := selectedPatient s |}.
Definition with_selectedPatient p (s : t) : t :=
  {| activePatients := activePatients s; loading := loading s;
     error := error s; selectedPatient := p |}.
End DischargeStore.

Module PatientStore.
Record t := {
  patients : list (Obj Patient.t);
  selectedPatient : option (Obj Patient.t);
  loading : bool;
  error : option string
}.

Definition with_patients l (s : t) : t :=
  {| patients := l; selectedPatient := selectedPatient s;
     loading := loading s; error := error s |}.
Definition with_selectedPatient p (s : t) : t :=
  {| patients := patients s; selectedPatient := p;
     loading := loading s; error := error s |}.
Definition with_loading b (s : t) : t :=
  {| patients := patients s; selectedPatient := selectedPatient s;
     loading := b; error := error s |}.
Definition with_error e (s : t) : t :=
  {| patients := patients s; selectedPatient := selectedPatient s;
     loading := loading s; error := e |}.
End PatientStore.

(** A request sent to the backend. *)
Inductive Request :=
| SelectActiveAdmissions
| SelectActiveConsultations
| SelectPatients (q : PatientQuery.t)
| UpdateAdmission (id : Z) (u : AdmissionUpdate.t)
| UpdateConsultation (id : option Z) (u : ConsultationUpdate.t)
| InsertNote (n : NoteInsert.t).

Record World := {
  db : Db.t;
  (** outcome of the coming requests, in order: [None] succeeds,
      [Some e] is answered with error [e]; past the end all succeed *)
  script : list (option Js.Thrown);
  (** requests issued so far, oldest first *)
  log : list Request;
  (** the instant [new Date()] yields *)
  clock : Z;
  (** next free object reference *)
  next_ref : nat;
  (** [useUserStore.getState().currentUser] *)
  currentUser : option User.t;
  dischargeStore : DischargeStore.t;
  patientStore : PatientStore.t
}.

Definition with_db (d : Db.t) (w : World) : World :=
  {| db := d; script := script w; log := log w; clock := clock w;
     next_ref := next_ref w; currentUser := currentUser w;
     dischargeStore := dischargeStore w; patientStore := patientStore w |}.

Definition with_script (s : list (option Js.Thrown)) (w : World) : World :=
  {| db := db w; script := s; log := log w; clock := clock w;
     next_ref := next_ref w; currentUser := currentUser w;
     dischargeStore := dischargeStore w; patientStore := patientStore w |}.

Definition with_log (l : list Request) (w : World) : World :=
  {| db := db w; script := script w; log := l; clock := clock w;
     next_ref := next_ref w; currentUser := currentUser w;
     dischargeStore := dischargeStore w; patientStore := patientStore w |}.

Definition with_next_ref (n : nat) (w : World) : World :=
  {| db := db w; script := script w; log := log w; clock := clock w;
     next_ref := n; currentUser := currentUser w;
     dischargeStore := dischargeStore w; patientStore := patientStore w |}.

Definition with_dischargeStore (s : DischargeStore.t) (w : World) : World :=
  {| db := db w; script := script w; log := log w; clock := clock w;
     next_ref := next_ref w; currentUser := currentUser w;
     dischargeStore := s; patientStore := patientStore w |}.

Definition with_patientStore (s : PatientStore.t) (w : World) : World :=
  {| db := db w; script := script w; log := log w; clock := clock w;
     next_ref := next_ref w; currentUser := currentUser w;
     dischargeStore := dischargeStore w; patientStore := s |}.

(** ** The monad of store actions: state and exceptions *)

Inductive Result (A : Type) :=
| Ok (a : A)
| Err (e : Js.Thrown).
Arguments Ok {A} _.
Arguments Err {A} _.

Definition M (A : Type) : Type := World -> Result A * World.

Definition ret {A} (a : A) : M A := fun w => (Ok a, w).

Definition bind {A B} (m : M A) (k : A -> M B) : M B :=
  fun w =>
    match m w with
    | (Ok a, w') => k a w'
    | (Err e, w') => (Err e, w')
    end.

Definition throw {A} (e : Js.Thrown) : M A := fun w => (Err e, w).

(** [try { m } catch (e) { h e }]. *)
Definition try_catch {A} (m : M A) (h : Js.Thrown -> M A) : M A :=
  fun w =>
    match m w with
    | (Ok a, w') => (Ok a, w')
    | (Err e, w') => h e w'
    end.

Definition gets {A} (f : World -> A) : M A := fun w => (Ok (f w), w).

Definition modify (f : World -> World) : M unit := fun w => (Ok tt, f w).

Declare Scope action_scope.
Delimit Scope action_scope with action.
Notation "x <- m ;; k" := (bind m (fun x => k))
  (at level 61, m at next level, right associativity) : action_scope.
Notation "m ;; k" := (bind m (fun _ => k))
  (at level 61, right associativity) : action_scope.
Local Open Scope action_scope.

(** [if (error) throw error]. *)
Definition throw_if (error : option Js.Thrown) : M unit :=
  match error with
  | Some e => throw e
  | None => ret tt
  end.

(** zustand's [set] on either store. *)
Definition set_discharge (f : DischargeStore.t -> DischargeStore.t) : M unit :=
  modify (fun w => with_dischargeStore (f (dischargeStore w)) w).

Definition set_patient (f : PatientStore.t -> PatientStore.t) : M unit :=
  modify (fun w => with_patientStore (f (patientStore w)) w).

(** Allocation of the objects an [Array.map] builds, in array order. *)
Fixpoint alloc_from {A} (n : nat) (l : list A) : list (Obj A) :=
  match l with
  | [] => []
  | x :: l' => mkObj n x :: alloc_from (S n) l'
  end.

Definition new_objects {A} (l : list A) : M (list (Obj A)) :=
  fun w => (Ok (alloc_from (next_ref w) l),
            with_next_ref (next_ref w + List.length l)%nat w).

(** One request: it is logged and the next scripted outcome consumed. *)
Definition request (r : Request) : M (option Js.Thrown) :=
  fun w =>
    let w1 := with_log (log w ++ [r]) w in
    match script w with
    | [] => (Ok None, w1)
    | o :: rest => (Ok o, with_script rest w1)
    end.

(** The [{ data, error }] a select resolves to. *)
Record Response (A : Type) := mkResponse {
  data : option A;
  error : option Js.Thrown
}.
Arguments mkResponse {A} _ _.

Definition select {A} (r : Request) (rows : Db.t -> A) : M (Response A) :=
  e <- request r ;;
  d <- gets db ;;
  ret (match e with
       | Some _ => mkResponse None e
       | None => mkResponse (Some (rows d)) None
       end).

(** An update or insert: resolves to its [error]. *)
Definition write (r : Request) (effect : Db.t -> Db.t) : M (option Js.Thrown) :=
  e <- request r ;;
  match e with
  | Some _ => ret e
  | None => modify (fun w => with_db (effect (db w)) w) ;; ret None
  end.

(** Modelled from the spec: [useMedicalNotesStore.addNote], whose file
    (src/stores/useMedicalNotesStore.ts) is not among the sources.  The
    spec lists it as the storage write "insert note", "returning the
    written row or a backend error".  Whether a backend error is thrown on
    to the caller or only kept in the notes store (as the sibling
    [useLongStayNotesStore.addNote] does) is not fixed by the sources;
    [addNote_rethrows] leaves it open. *)
Class MedicalNotesStore := {
  addNote_rethrows : bool
}.

(** [formErrors] of the discharge form. *)
Module FormErrors.
Record t := {
  discharge_date : option string;
  follow_up_date : option string;
  discharge_note : option string
}.

Definition empty : t :=
  {| discharge_date := None; follow_up_date := None;
     discharge_note := None |}.

Definition with_discharge_note (m : option string) (e : t) : t :=
  {| discharge_date := discharge_date e;
     follow_up_date := follow_up_date e;
     discharge_note := m |}.

(** [Object.keys(errors).length === 0]. *)
Definition no_keys (e : t) : bool :=
  match discharge_date e, follow_up_date e, discharge_note e with
  | None, None, None => true
  | _, _, _ => false
  end.
End FormErrors.

(** What [handleSubmit] leaves behind on the form. *)
Inductive SubmitOutcome :=
| NotSubmitted (formErrors : FormErrors.t)
| WentBack
| SubmitFailed (formErrors : FormErrors.t).

Section Actions.
Context {rt : JsRuntime} {notes : MedicalNotesStore}.

(** Modelled from the spec: [useMedicalNotesStore.addNote] is not among
    the sources; it is the storage write "insert note", whose backend
    error is thrown on or kept according to [addNote_rethrows]. *)
Definition addNote (n : NoteInsert.t) : M unit :=
  e <- write (InsertNote n) (Db.insert_note n) ;;
  match e with
  | Some err => if addNote_rethrows then throw err else ret tt
  | None => ret tt
  end.

(* ---------------------------------------------------------------- *)
(** ** src/stores/useDischargeStore.ts *)

(** The callback of [admissionsData.map]. *)
Definition admissionPatient (admission : AdmissionResult.t)
  : ActivePatient.t :=
  let r := AdmissionResult.row admission in
  {| ActivePatient.id := AdmissionRow.id r;
     ActivePatient.patient_id := AdmissionRow.patient_id r;
     ActivePatient.mrn :=
       Js.or_default
         (option_map PatientRow.mrn
                     (hd_error (AdmissionResult.patient admission))) "";
     ActivePatient.name :=
       Js.or_default
         (option_map PatientRow.name
                     (hd_error (AdmissionResult.patient admission))) "";
     ActivePatient.admission_date := AdmissionRow.admission_date r;
     ActivePatient.department := AdmissionRow.department r;
     ActivePatient.doctor_name :=
       Js.or_default
         (match AdmissionResult.admitting_doctor admission with
          | Some l => option_map User.name (hd_error l)
          | None => None
          end) "Not assigned";
     ActivePatient.diagnosis := AdmissionRow.diagnosis r;
     ActivePatient.status := AdmissionRow.status r;
     ActivePatient.admitting_doctor_id := AdmissionRow.admitting_doctor_id r;
     ActivePatient.shift_type := AdmissionRow.shift_type r;
     ActivePatient.is_weekend := AdmissionRow.is_weekend r;
     ActivePatient.isConsultation := None;
     ActivePatient.consultation_id := None |}.

(** The callback of [consultationsData.map]. *)
Definition consultationPatient (consultation : ConsultationRow.t)
  : ActivePatient.t :=
  {| ActivePatient.id := ConsultationRow.id consultation;
     ActivePatient.patient_id := ConsultationRow.patient_id consultation;
     ActivePatient.mrn := ConsultationRow.mrn consultation;
     ActivePatient.name := ConsultationRow.patient_name consultation;
     ActivePatient.admission_date := ConsultationRow.created_at consultation;
     ActivePatient.department :=
       ConsultationRow.consultation_specialty consultation;
     ActivePatient.doctor_name :=
       Js.or_default (ConsultationRow.doctor_name consultation)
                     "Pending Assignment";
     ActivePatient.diagnosis := ConsultationRow.reason consultation;
     ActivePatient.status := active;
     ActivePatient.admitting_doctor_id :=
       Js.or_zero (ConsultationRow.doctor_id consultation);
     ActivePatient.shift_type := morning;
     ActivePatient.is_weekend := false;
     ActivePatient.isConsultation := Some true;
     ActivePatient.consultation_id :=
       Some (ConsultationRow.id consultation) |}.

(** [p => p.id === selectedPatient.id]. *)
Definition same_id (selectedPatient p : Obj ActivePatient.t) : bool :=
  ActivePatient.id (val p) =? ActivePatient.id (val selectedPatient).

Definition fetchActivePatients : M unit :=
  set_discharge (fun s => DischargeStore.with_loading true
                            (DischargeStore.with_error None s)) ;;
  try_catch
    (admissions <- select SelectActiveAdmissions
                          Db.select_active_admissions ;;
     throw_if (error admissions) ;;
     consultations <- select SelectActiveConsultations
                             Db.select_active_consultations ;;
     throw_if (error consultations) ;;
     admissionPatients <-
       new_objects (map admissionPatient (Js.or_empty (data admissions))) ;;
     consultationPatients <-
       new_objects (map consultationPatient
                        (Js.or_empty (data consultations))) ;;
     let allPatients := admissionPatients ++ consultationPatients in
     selectedPatient <-
       gets (fun w => DischargeStore.selectedPatient (dischargeStore w)) ;;
     match selectedPatient with
     | Some selected =>
         match Js.find (same_id selected) allPatients with
         | None =>
             set_discharge (DischargeStore.with_selectedPatient None)
         | Some updatedPatient =>
             set_discharge
               (DischargeStore.with_selectedPatient (Some updatedPatient))
         end
     | None => ret tt
     end ;;
     set_discharge (fun s => DischargeStore.with_activePatients allPatients
                               (DischargeStore.with_loading false s)))
    (fun e =>
       set_discharge
         (fun s => DischargeStore.with_error
                     (Some (Js.message_or e "An error occurred"))
                     (DischargeStore.with_loading false s))).

Definition setSelectedPatient (patient : option (Obj ActivePatient.t))
  : M unit :=
  set_discharge (DischargeStore.with_selectedPatient patient).

(** The object passed to [from('admissions').update]. *)
Definition admissionUpdate (d : DischargeData.t) (currentUser : User.t)
  : AdmissionUpdate.t :=
  {| AdmissionUpdate.status := discharged;
     AdmissionUpdate.discharge_date := DischargeData.discharge_date d;
     AdmissionUpdate.discharge_type := DischargeData.discharge_type d;
     AdmissionUpdate.follow_up_required :=
       DischargeData.follow_up_required d;
     AdmissionUpdate.follow_up_date :=
       Js.or (DischargeData.follow_up_date d) None;
     AdmissionUpdate.discharge_note := DischargeData.discharge_note d;
     AdmissionUpdate.discharge_doctor_id := User.id currentUser |}.

(** The object passed to [from('consultations').update]. *)
Definition consultationUpdate (d : DischargeData.t) (currentUser : User.t)
           (now : Z) : ConsultationUpdate.t :=
  {| ConsultationUpdate.status := "completed";
     ConsultationUpdate.completion_note := DischargeData.discharge_note d;
     ConsultationUpdate.completed_by := User.id currentUser;
     ConsultationUpdate.completed_at := toISOString now |}.

Definition noteOf (selectedPatient : ActivePatient.t) (currentUser : User.t)
           (note_type : string) (d : DischargeData.t) : NoteInsert.t :=
  {| NoteInsert.patient_id := ActivePatient.patient_id selectedPatient;
     NoteInsert.doctor_id := User.id currentUser;
     NoteInsert.note_type := note_type;
     NoteInsert.content := DischargeData.discharge_note d |}.

Definition processDischarge (d : DischargeData.t) : M unit :=
  set_discharge (fun s => DischargeStore.with_loading true
                            (DischargeStore.with_error None s)) ;;
  try_catch
    (selectedPatient <-
       gets (fun w => DischargeStore.selectedPatient (dischargeStore w)) ;;
     user <- gets currentUser ;;
     match selectedPatient with
     | None => throw (Js.ErrorObj "No patient selected")
     | Some selected =>
         match user with
         | None => throw (Js.ErrorObj "No user logged in")
         | Some currentUser =>
             (if Js.truthy_flag (ActivePatient.isConsultation (val selected))
              then
                now <- gets clock ;;
                consultationError <-
                  (let u := consultationUpdate d currentUser now in
                   let id := ActivePatient.consultation_id (val selected) in
                   write (UpdateConsultation id u)
                         (Db.update_consultation id u)) ;;
                throw_if consultationError ;;
                addNote (noteOf (val selected) currentUser
                                "Consultation Note" d)
              else
                updateError <-
                  (let u := admissionUpdate d currentUser in
                   let id := ActivePatient.id (val selected) in
                   write (UpdateAdmission id u)
                         (Db.update_admission id u)) ;;
                throw_if updateError ;;
                addNote (noteOf (val selected) currentUser
                                "Discharge Summary" d)) ;;
             fetchActivePatients ;;
             set_discharge
               (fun s => DischargeStore.with_selectedPatient None
                           (DischargeStore.with_loading false s))
         end
     end)
    (fun e =>
       set_discharge
         (fun s => DischargeStore.with_error
                     (Some (Js.message_or e "An error occurred"))
                     (DischargeStore.with_loading false s)) ;;
       throw e).
End Actions.

Section PatientActions.
Context {rt : JsRuntime}.

(* ---------------------------------------------------------------- *)
(** ** src/stores/usePatientStore.ts *)

Definition HOUR : Z := 3600000.

(** [status.eq.active,and(status.eq.discharged,discharge_date.gte.CUTOFF)] *)
Definition visibleFilter (cutoffTime : Z) : AdmissionFilter :=
  filter_or (status_eq active)
            (filter_and (status_eq discharged)
                        (discharge_date_gte cutoffTime)).

(** The query [fetchPatients] builds, [now] being the instant of
    [new Date()]:
    [cutoffTime.setHours(cutoffTime.getHours() - 18)]. *)
Definition patientsQuery (includeAllDischarged : bool) (now : Z)
  : PatientQuery.t :=
  if negb includeAllDischarged then
    let cutoffTime := JsDate.setHours (JsDate.getHours now - 18) now in
    {| PatientQuery.admissions_not_null := true;
       PatientQuery.admissions_filter := Some (visibleFilter cutoffTime) |}
  else
    {| PatientQuery.admissions_not_null := false;
       PatientQuery.admissions_filter := None |}.

(** The comparator of the admissions sort:
    [new Date(b.admission_date).getTime() -
     new Date(a.admission_date).getTime()]. *)
Definition byAdmissionDateDesc (a b : AdmissionResult.t) : option Z :=
  match getTime (AdmissionRow.admission_date (AdmissionResult.row b)),
        getTime (AdmissionRow.admission_date (AdmissionResult.row a)) with
  | Some tb, Some ta => Some (tb - ta)
  | _, _ => None
  end.

(** [xs?.[0]]. *)
Definition first_of {A} (xs : option (list A)) : option A :=
  match xs with
  | Some l => hd_error l
  | None => None
  end.

(** The callback of the admissions [map]. *)
Definition admissionView (admission : AdmissionResult.t) : AdmissionView.t :=
  let r := AdmissionResult.row admission in
  {| AdmissionView.id := AdmissionRow.id r;
     AdmissionView.patient_id := AdmissionRow.patient_id r;
     AdmissionView.admitting_doctor_id := AdmissionRow.admitting_doctor_id r;
     AdmissionView.admission_date := AdmissionRow.admission_date r;
     AdmissionView.discharge_date := AdmissionRow.discharge_date r;
     AdmissionView.department := AdmissionRow.department r;
     AdmissionView.diagnosis := AdmissionRow.diagnosis r;
     AdmissionView.status := AdmissionRow.status r;
     AdmissionView.visit_number := AdmissionRow.visit_number r;
     AdmissionView.safety_type := AdmissionRow.safety_type r;
     AdmissionView.shift_type := AdmissionRow.shift_type r;
     AdmissionView.is_weekend := AdmissionRow.is_weekend r;
     AdmissionView.admitting_doctor :=
       first_of (AdmissionResult.admitting_doctor admission);
     AdmissionView.discharge_doctor :=
       first_of (AdmissionResult.discharge_doctor admission) |}.

Definition is_active (a : AdmissionView.t) : bool :=
  AdmissionStatus_eqb (AdmissionView.status a) active.

(** [a?.admitting_doctor?.name]. *)
Definition doctorName (a : option AdmissionView.t) : option string :=
  match a with
  | Some a => option_map User.name (AdmissionView.admitting_doctor a)
  | None => None
  end.

(** The callback of [data.map]: one patient with its details. *)
Definition patientWithDetails (patient : PatientResult.t) : Patient.t :=
  let admissions :=
    map admissionView
        (Js.sort byAdmissionDateDesc
                 (Js.or_empty (PatientResult.admissions patient))) in
  let activeAdmission := Js.find is_active admissions in
  let latestAdmission := hd_error admissions in
  {| Patient.id := PatientRow.id (PatientResult.row patient);
     Patient.mrn := PatientRow.mrn (PatientResult.row patient);
     Patient.name := PatientRow.name (PatientResult.row patient);
     Patient.date_of_birth :=
       PatientRow.date_of_birth (PatientResult.row patient);
     Patient.gender := PatientRow.gender (PatientResult.row patient);
     Patient.admissions := admissions;
     Patient.department :=
       Js.or (option_map AdmissionView.department activeAdmission)
             (option_map AdmissionView.department latestAdmission);
     Patient.diagnosis :=
       Js.or (option_map AdmissionView.diagnosis activeAdmission)
             (option_map AdmissionView.diagnosis latestAdmission);
     Patient.admission_date :=
       Js.or (option_map AdmissionView.admission_date activeAdmission)
             (option_map AdmissionView.admission_date latestAdmission);
     Patient.doctor_name :=
       Js.or (doctorName activeAdmission) (doctorName latestAdmission) |}.

(** [p => p.id === selectedPatient.id]. *)
Definition same_patient_id (selectedPatient p : Obj Patient.t) : bool :=
  Patient.id (val p) =? Patient.id (val selectedPatient).

Definition fetchPatients (includeAllDischarged : bool) : M unit :=
  set_patient (fun s => PatientStore.with_loading true
                          (PatientStore.with_error None s)) ;;
  try_catch
    (now <- gets clock ;;
     let query := patientsQuery includeAllDischarged now in
     response <- select (SelectPatients query) (Db.select_patients query) ;;
     throw_if (error response) ;;
     patientsWithDetails <-
       new_objects (map patientWithDetails (Js.or_empty (data response))) ;;
     set_patient (PatientStore.with_patients patientsWithDetails) ;;
     selectedPatient <-
       gets (fun w => PatientStore.selectedPatient (patientStore w)) ;;
     match selectedPatient with
     | Some selected =>
         match Js.find (same_patient_id selected) patientsWithDetails with
         | Some updatedPatient =>
             set_patient
               (PatientStore.with_selectedPatient (Some updatedPatient))
         | None => ret tt
         end
     | None => ret tt
     end ;;
     set_patient (PatientStore.with_loading false))
    (fun e =>
       set_patient
         (fun s => PatientStore.with_error
                     (Some (Js.message_or e "Failed to fetch patients"))
                     (PatientStore.with_loading false s))).
End PatientActions.

Section Form.
Context {rt : JsRuntime} {notes : MedicalNotesStore}.

(* ---------------------------------------------------------------- *)
(** ** src/components/Discharge/DischargeForm.tsx *)

(** [new Date(a) <= new Date(b)]; false as soon as one is invalid. *)
Definition date_le (a b : string) : bool :=
  match getTime a, getTime b with
  | Some x, Some y => x <=? y
  | _, _ => false
  end.

(** The [errors] object [validateForm] fills. *)
Definition validationErrors (formData : FormData.t) : FormErrors.t :=
  let required := FormData.follow_up_required formData in
  {| FormErrors.discharge_date :=
       if negb (Js.truthy_string (FormData.discharge_date formData))
       then Some "Discharge date is required" else None;
     FormErrors.follow_up_date :=
       if required && date_le (FormData.follow_up_date formData)
                              (FormData.discharge_date formData)
       then Some "Follow-up date must be after discharge date"
       else if required
               && negb (Js.truthy_string (FormData.follow_up_date formData))
       then Some "Follow-up date is required when follow-up is enabled"
       else None;
     FormErrors.discharge_note :=
       if negb (Js.truthy_string (trim (FormData.discharge_note formData)))
       then Some "Discharge note is required" else None |}.

Definition validateForm (formData : FormData.t) : bool :=
  FormErrors.no_keys (validationErrors formData).

(** [{ ...formData, follow_up_date: .., status: 'discharged' }]. *)
Definition dischargeDataOf (formData : FormData.t) : DischargeData.t :=
  {| DischargeData.discharge_date := FormData.discharge_date formData;
     DischargeData.discharge_type := FormData.discharge_type formData;
     DischargeData.follow_up_required :=
       FormData.follow_up_required formData;
     DischargeData.follow_up_date :=
       if FormData.follow_up_required formData
       then Some (FormData.follow_up_date formData) else None;
     DischargeData.discharge_note := FormData.discharge_note formData;
     DischargeData.status := discharged |}.

Definition handleSubmit (formData : FormData.t) (w : World)
  : SubmitOutcome * World :=
  match currentUser w with
  | None =>
      (NotSubmitted
         (FormErrors.with_discharge_note
            (Some "You must be logged in to process a discharge")
            FormErrors.empty), w)
  | Some _ =>
      match DischargeStore.selectedPatient (dischargeStore w) with
      | None =>
          (NotSubmitted
             (FormErrors.with_discharge_note
                (Some "Please select a patient") FormErrors.empty), w)
      | Some _ =>
          if negb (validateForm formData)
          then (NotSubmitted (validationErrors formData), w)
          else
            match processDischarge (dischargeDataOf formData) w with
            | (Ok _, w') => (WentBack, w')
            | (Err err, w') =>
                (SubmitFailed
                   (FormErrors.with_discharge_note
                      (Some (Js.message_or
                               err "Error processing discharge"))
                      (validationErrors formData)), w')
            end
      end
  end.
End Form.

(* ================================================================== *)
(** * A concrete runtime

    The built-ins on the inputs the examples use: ISO 8601 dates
    ([YYYY-MM-DD], [YYYY-MM-DDTHH:MM:SSZ], [YYYY-MM-DDTHH:MM:SS.sssZ], all
    UTC), ASCII white space, local time equal to UTC. *)

Module IsoRuntime.

Definition digit (c : ascii) : option Z :=
  let n := Z.of_nat (nat_of_ascii c) in
  if (48 <=? n) && (n <=? 57) then Some (n - 48) else None.

Fixpoint number_from (acc : Z) (s : string) : option Z :=
  match s with
  | EmptyString => Some acc
  | String c s' =>
      match digit c with
      | Some d => number_from (10 * acc + d) s'
      | None => None
      end
  end.

(** The decimal number written by the [len] characters at [pos]. *)
Definition field (pos len : nat) (s : string) : option Z :=
  let f := String.substring pos len s in
  if Nat.eqb (String.length f) len then number_from 0 f else None.

Definition literal (pos : nat) (lit s : string) : bool :=
  String.eqb (String.substring pos (String.length lit) s) lit.

(** Days from 1970-01-01 to the civil date [y-m-d]. *)
Definition days_from_civil (y m d : Z) : Z :=
  let y' := if m <=? 2 then y - 1 else y in
  let era := y' / 400 in
  let yoe := y' - era * 400 in
  let mp := if 2 <? m then m - 3 else m + 9 in
  let doy := (153 * mp + 2) / 5 + d - 1 in
  let doe := yoe * 365 + yoe / 4 - yoe / 100 + doy in
  era * 146097 + doe - 719468.

Definition date_part (s : string) : option Z :=
  match field 0 4 s, field 5 2 s, field 8 2 s with
  | Some y, Some m, Some d =>
      if literal 4 "-" s && literal 7 "-" s
         && (1 <=? m) && (m <=? 12) && (1 <=? d) && (d <=? 31)
      then Some (days_from_civil y m d * 86400000) else None
  | _, _, _ => None
  end.

Definition time_part (s : string) : option Z :=
  match field 11 2 s, field 14 2 s, field 17 2 s with
  | Some h, Some mi, Some sec =>
      if literal 10 "T" s && literal 13 ":" s && literal 16 ":" s
         && (h <=? 23) && (mi <=? 59) && (sec <=? 59)
      then Some ((h * 60 + mi) * 60000 + sec * 1000) else None
  | _, _, _ => None
  end.

Definition add_opt (a b : option Z) : option Z :=
  match a, b with
  | Some x, Some y => Some (x + y)
  | _, _ => None
  end.

Definition getTime (s : string) : option Z :=
  match String.length s with
  | 10%nat => date_part s
  | 20%nat =>
      if literal 19 "Z" s then add_opt (date_part s) (time_part s) else None
  | 24%nat =>
      if literal 19 "." s && literal 23 "Z" s
      then add_opt (add_opt (date_part s) (time_part s)) (field 20 3 s)
      else None
  | _ => None
  end.

(** [n] written with [width] decimal digits. *)
Fixpoint padded (width : nat) (n : Z) : string :=
  match width with
  | O => EmptyString
  | S w =>
      String.append (padded w (n / 10))
                    (String (ascii_of_nat (48 + Z.to_nat (n mod 10)))
                            EmptyString)
  end.

Definition toISOString (t : Z) : string :=
  let z := t / 86400000 + 719468 in
  let ms := t mod 86400000 in
  let era := z / 146097 in
  let doe := z - era * 146097 in
  let yoe := (doe - doe / 1460 + doe / 36524 - doe / 146096) / 365 in
  let doy := doe - (365 * yoe + yoe / 4 - yoe / 100) in
  let mp := (5 * doy + 2) / 153 in
  let d := doy - (153 * mp + 2) / 5 + 1 in
  let m := if mp <? 10 then mp + 3 else mp - 9 in
  let y := yoe + era * 400 + (if m <=? 2 then 1 else 0) in
  String.concat ""
    [ padded 4 y; "-"; padded 2 m; "-"; padded 2 d; "T";
      padded 2 (ms / 3600000); ":"; padded 2 (ms / 60000 mod 60); ":";
      padded 2 (ms / 1000 mod 60); "."; padded 3 (ms mod 1000); "Z" ].

Definition is_space (c : ascii) : bool :=
  let n := nat_of_ascii c in
  (Nat.leb 9 n && Nat.leb n 13) || Nat.eqb n 32.

Fixpoint trim_start (s : string) : string :=
  match s with
  | EmptyString => EmptyString
  | String c s' => if is_space c then trim_start s' else s
  end.

(** [s] without its trailing white space. *)
Fixpoint trim_end (s : string) : string :=
  match s with
  | EmptyString => EmptyString
  | String c s' =>
      match trim_end s' with
      | EmptyString => if is_space c then EmptyString
                       else String c EmptyString
      | r => String c r
      end
  end.

Definition trim (s : string) : string := trim_end (trim_start s).

Definition runtime : JsRuntime :=
  Build_JsRuntime getTime toISOString trim (fun _ _ => 0).

End IsoRuntime.

(** ** A zone that changes its clocks

    Eastern time around 10 March 2024: five hours behind UTC until
    07:00 UTC of that day, when the clocks go from 02:00 to 03:00, and
    four hours behind from then on.  Dates are parsed and printed as by
    [IsoRuntime]. *)

Module EasternRuntime.

(** 2024-03-10T07:00:00.000Z *)
Definition springForward : Z := 1710054000000.

Definition LocalTZA (t : Z) (isUTC : bool) : Z :=
  if isUTC then
    if t <? springForward then -5 * 3600000 else -4 * 3600000
  else
    (* local times before 03:00 of that day, the skipped hour included,
       are read with the offset before the change *)
    if t <? springForward - 4 * 3600000 then -5 * 3600000
    else -4 * 3600000.

Definition runtime : JsRuntime :=
  Build_JsRuntime IsoRuntime.getTime IsoRuntime.toISOString IsoRuntime.trim
                  LocalTZA.

End EasternRuntime.


(* ================================================================== *)
(** * Vocabulary of the statements *)

Section Vocabulary.
Context {rt : JsRuntime}.

(** The roster [fetchActivePatients] builds from tables [d] when the
    next free reference is [n]: the active admissions, then the active
    consultations. *)
Definition rosterAdmissions (d : Db.t) : list ActivePatient.t :=
  map admissionPatient (Db.select_active_admissions d).

Definition rosterConsultations (d : Db.t) : list ActivePatient.t :=
  map consultationPatient (Db.select_active_consultations d).

Definition freshRoster (d : Db.t) (n : nat) : list (Obj ActivePatient.t) :=
  alloc_from n (rosterAdmissions d)
  ++ alloc_from (n + List.length (rosterAdmissions d))%nat
                (rosterConsultations d).

(** The patient list [fetchPatients] builds under query [q]. *)
Definition freshPatients (q : PatientQuery.t) (d : Db.t) (n : nat)
  : list (Obj Patient.t) :=
  alloc_from n (map patientWithDetails (Db.select_patients q d)).

(** Instant of an admission's date, when it is a valid date. *)
Definition admittedAt (a : AdmissionView.t) : option Z :=
  getTime (AdmissionView.admission_date a).

(** [a] was not admitted before [b]. *)
Definition notBefore (a b : AdmissionView.t) : Prop :=
  match admittedAt a, admittedAt b with
  | Some ta, Some tb => tb <= ta
  | _, _ => False
  end.

(** The cutoff of the default patient list at instant [now]: the
    instant at which the local clocks showed the time they show at
    [now], less 18 hours. *)
Definition cutoffAt (now : Z) : Z :=
  JsDate.UTC (JsDate.LocalTime now - 18 * HOUR).

(** An admission is visible in the default patient list at instant
    [now]: it is active, or discharged with a discharge date that is
    not before the cutoff. *)
Definition visibleAt (now : Z) (a : AdmissionRow.t) : Prop :=
  AdmissionRow.status a = active
  \/ (AdmissionRow.status a = discharged
      /\ exists s t, AdmissionRow.discharge_date a = Some s
                     /\ getTime s = Some t /\ cutoffAt now <= t).

(** As the specification words the window: the admission is active, or
    discharged with a discharge date within the 18 hours that end at
    [now]. *)
Definition inTrailingWindow (now : Z) (a : AdmissionRow.t) : Prop :=
  AdmissionRow.status a = active
  \/ (AdmissionRow.status a = discharged
      /\ exists s t, AdmissionRow.discharge_date a = Some s
                     /\ getTime s = Some t
                     /\ now - 18 * HOUR <= t <= now).

(** A request that changes the status of an admission or of a
    consultation. *)
Definition is_status_update (r : Request) : bool :=
  match r with
  | UpdateAdmission _ _ | UpdateConsultation _ _ => true
  | _ => false
  end.

Definition is_note_insert (r : Request) : bool :=
  match r with
  | InsertNote _ => true
  | _ => false
  end.

(** The tables once the status change of entry [selected] is applied:
    the consultation completed, or the admission discharged. *)
Definition status_update (d : DischargeData.t)
           (selected : Obj ActivePatient.t) (user : User.t) (now : Z)
           (t : Db.t) : Db.t :=
  if Js.truthy_flag (ActivePatient.isConsultation (val selected))
  then Db.update_consultation
         (ActivePatient.consultation_id (val selected))
         (consultationUpdate d user now) t
  else Db.update_admission
         (ActivePatient.id (val selected)) (admissionUpdate d user) t.

(** The status change of entry [selected] shows in tables [t]: every
    row the entry addresses is in the new state. *)
Definition status_changed (selected : Obj ActivePatient.t) (t : Db.t)
  : Prop :=
  if Js.truthy_flag (ActivePatient.isConsultation (val selected))
  then forall c, In c (Db.consultations t) ->
                 ActivePatient.consultation_id (val selected)
                 = Some (ConsultationRow.id c) ->
                 ConsultationRow.status c = "completed"
  else forall a, In a (Db.admissions t) ->
                 AdmissionRow.id a = ActivePatient.id (val selected) ->
                 AdmissionRow.status a = discharged.

(** The derived fields of [v] as the specification words them: those
    of the first active admission if there is one, else those of the
    admission at index 0. *)
Definition derivedFromCurrent (v : Patient.t) : Prop :=
  exists current,
    (Js.find is_active (Patient.admissions v) = Some current
     \/ (Js.find is_active (Patient.admissions v) = None
         /\ hd_error (Patient.admissions v) = Some current))
    /\ Patient.admission_date v
       = Some (AdmissionView.admission_date current)
    /\ Patient.department v = Some (AdmissionView.department current)
    /\ Patient.diagnosis v = Some (AdmissionView.diagnosis current)
    /\ Patient.doctor_name v
       = option_map User.name (AdmissionView.admitting_doctor current).

(** [preferred] when it is a non-empty string, else [fallback]. *)
Definition nonEmptyOr (preferred fallback : string) : string :=
  if Js.truthy_string preferred then preferred else fallback.

(** The world a successful [fetchActivePatients] leaves. *)
Definition refreshed (w : World) (s : list (option Js.Thrown)) : World :=
  let roster := freshRoster (db w) (next_ref w) in
  {| db := db w;
     script := s;
     log := log w ++ [SelectActiveAdmissions; SelectActiveConsultations];
     clock := clock w;
     next_ref := (next_ref w + List.length (rosterAdmissions (db w))
                  + List.length (rosterConsultations (db w)))%nat;
     currentUser := currentUser w;
     dischargeStore :=
       {| DischargeStore.activePatients := roster;
          DischargeStore.loading := false;
          DischargeStore.error := None;
          DischargeStore.selectedPatient :=
            match DischargeStore.selectedPatient (dischargeStore w) with
            | Some selected => Js.find (same_id selected) roster
            | None => None
            end |};
     patientStore := patientStore w |}.

(** The admission date of [a] is a valid date. *)
Definition validDate (a : AdmissionResult.t) : Prop :=
  getTime (AdmissionRow.admission_date (AdmissionResult.row a)) <> None.

(** The world a successful [fetchPatients] leaves. *)
Definition reloaded (includeAllDischarged : bool) (w : World)
           (s : list (option Js.Thrown)) : World :=
  let q := patientsQuery includeAllDischarged (clock w) in
  let fresh := freshPatients q (db w) (next_ref w) in
  {| db := db w;
     script := s;
     log := log w ++ [SelectPatients q];
     clock := clock w;
     next_ref :=
       (next_ref w
        + List.length (map patientWithDetails (Db.select_patients q (db w))))%nat;
     currentUser := currentUser w;
     dischargeStore := dischargeStore w;
     patientStore :=
       {| PatientStore.patients := fresh;
          PatientStore.selectedPatient :=
            match PatientStore.selectedPatient (patientStore w) with
            | Some selected =>
                match Js.find (same_patient_id selected) fresh with
                | Some updatedPatient => Some updatedPatient
                | None => Some selected
                end
            | None => None
            end;
          PatientStore.loading := false;
          PatientStore.error := None |} |}.
End Vocabulary.

(** The admission update and the note the discharge of an admission is
    to produce from the form, in the words of the specification. *)
Definition dischargeUpdateOf (formData : FormData.t) (user : User.t)
  : AdmissionUpdate.t :=
  {| AdmissionUpdate.status := discharged;
     AdmissionUpdate.discharge_date := FormData.discharge_date formData;
     AdmissionUpdate.discharge_type := FormData.discharge_type formData;
     AdmissionUpdate.follow_up_required :=
       FormData.follow_up_required formData;
     AdmissionUpdate.follow_up_date :=
       if FormData.follow_up_required formData
       then Some (FormData.follow_up_date formData) else None;
     AdmissionUpdate.discharge_note := FormData.discharge_note formData;
     AdmissionUpdate.discharge_doctor_id := User.id user |}.

Definition dischargeSummaryOf (formData : FormData.t)
           (selected : ActivePatient.t) (user : User.t) : NoteInsert.t :=
  {| NoteInsert.patient_id := ActivePatient.patient_id selected;
     NoteInsert.doctor_id := User.id user;
     NoteInsert.note_type := "Discharge Summary";
     NoteInsert.content := FormData.discharge_note formData |}.

(* ================================================================== *)
(** * A ward to run the actions on *)

Module Sample.

Definition notesStore : MedicalNotesStore :=
  {| addNote_rethrows := true |}.

Definition drRahman : User.t :=
  {| User.id := 3; User.name := "Dr. Rahman"; User.medical_code := "MC003";
     User.role := doctor; User.department := "Neurology" |}.

Definition patientA100 : PatientRow.t :=
  {| PatientRow.id := 1; PatientRow.mrn := "A100";
     PatientRow.name := "Amal Nasser";
     PatientRow.date_of_birth := "1980-05-17";
     PatientRow.gender := female |}.

Definition patientB200 : PatientRow.t :=
  {| PatientRow.id := 2; PatientRow.mrn := "B200";
     PatientRow.name := "Basil Haddad";
     PatientRow.date_of_birth := "1975-11-02";
     PatientRow.gender := male |}.

Definition patientC300 : PatientRow.t :=
  {| PatientRow.id := 3; PatientRow.mrn := "C300";
     PatientRow.name := "Carla Mansour";
     PatientRow.date_of_birth := "1990-03-09";
     PatientRow.gender := female |}.

Definition admission (id patient_id : Z) (status : AdmissionStatus)
           (department admission_date : string)
           (discharge_date : option string) (diagnosis : string)
  : AdmissionRow.t :=
  {| AdmissionRow.id := id;
     AdmissionRow.patient_id := patient_id;
     AdmissionRow.admitting_doctor_id := 3;
     AdmissionRow.discharge_doctor_id := None;
     AdmissionRow.status := status;
     AdmissionRow.department := department;
     AdmissionRow.admission_date := admission_date;
     AdmissionRow.discharge_date := discharge_date;
     AdmissionRow.diagnosis := diagnosis;
     AdmissionRow.visit_number := 1;
     AdmissionRow.safety_type := None;
     AdmissionRow.shift_type := morning;
     AdmissionRow.is_weekend := false;
     AdmissionRow.discharge_type := None;
     AdmissionRow.follow_up_required := false;
     AdmissionRow.follow_up_date := None;
     AdmissionRow.discharge_note := None |}.

(** A100 is in the ward since 1 January. *)
Definition admission10 : AdmissionRow.t :=
  admission 10 1 active "Neurology" "2024-01-01T08:00:00.000Z" None "Stroke".

(** B200 came back on 5 January and left on the 10th, while an earlier
    stay of his, recorded without a diagnosis, was never closed. *)
Definition admission11 : AdmissionRow.t :=
  admission 11 2 discharged "Cardiology" "2024-01-05T10:00:00.000Z"
            (Some "2024-01-10") "Pneumonia".

Definition admission12 : AdmissionRow.t :=
  admission 12 2 active "Cardiology" "2023-12-20T10:00:00.000Z" None "".

(** C300 left in November. *)
Definition admission13 : AdmissionRow.t :=
  admission 13 3 discharged "Neurology" "2023-11-01T09:00:00.000Z"
            (Some "2023-11-04") "Migraine".

Definition consultation (id patient_id : Z) (mrn patient_name : string)
  : ConsultationRow.t :=
  {| ConsultationRow.id := id;
     ConsultationRow.patient_id := patient_id;
     ConsultationRow.mrn := mrn;
     ConsultationRow.patient_name := patient_name;
     ConsultationRow.created_at := "2024-01-09T15:30:00.000Z";
     ConsultationRow.consultation_specialty := "Cardiology";
     ConsultationRow.reason := "Chest pain";
     ConsultationRow.doctor_id := None;
     ConsultationRow.doctor_name := None;
     ConsultationRow.status := "active";
     ConsultationRow.completion_note := None;
     ConsultationRow.completed_by := None;
     ConsultationRow.completed_at := None |}.

(** The consultations table numbers its rows on its own: consultation
    10 sits next to admission 10. *)
Definition consultation10 : ConsultationRow.t :=
  consultation 10 3 "C300" "Carla Mansour".

Definition consultation55 : ConsultationRow.t :=
  consultation 55 2 "B200" "Basil Haddad".

Definition tables : Db.t :=
  {| Db.users := [drRahman];
     Db.patients := [patientA100; patientB200; patientC300];
     Db.admissions := [admission10; admission11; admission12; admission13];
     Db.consultations := [consultation10; consultation55];
     Db.medical_notes := [] |}.

(** 2024-01-10T09:00:00.000Z *)
Definition morningOf10Jan : Z := 1704877200000.

Definition roster : list (Obj ActivePatient.t) :=
  freshRoster tables 0.

(** The ward at 9 o'clock with the roster loaded (objects 0 to 3),
    [selected] picked and the backend about to answer as [outcomes] say.
    Objects 4 to 7 are older ones: an entry of an earlier roster and the
    three patients of an earlier full patient list. *)
Definition ward (selected : option (Obj ActivePatient.t))
           (user : option User.t) (outcomes : list (option Js.Thrown))
  : World :=
  {| db := tables;
     script := outcomes;
     log := [];
     clock := morningOf10Jan;
     next_ref := 8;
     currentUser := user;
     dischargeStore :=
       {| DischargeStore.activePatients := roster;
          DischargeStore.loading := false;
          DischargeStore.error := None;
          DischargeStore.selectedPatient := selected |};
     patientStore :=
       {| PatientStore.patients := [];
          PatientStore.selectedPatient := None;
          PatientStore.loading := false;
          PatientStore.error := None |} |}.

(** The roster entries of admission 10 and of consultation 10. *)
Definition entryAdmission10 : Obj ActivePatient.t :=
  mkObj 0 (admissionPatient
             (Db.join_admission tables admission10)).

Definition entryConsultation10 : Obj ActivePatient.t :=
  mkObj 2 (consultationPatient consultation10).

(** An entry of a consultation that has been completed since. *)
Definition entryConsultation77 : Obj ActivePatient.t :=
  mkObj 4 (consultationPatient (consultation 77 1 "A100" "Amal Nasser")).

Definition form : FormData.t :=
  {| FormData.discharge_date := "2024-01-10";
     FormData.discharge_type := regular;
     FormData.follow_up_required := true;
     FormData.follow_up_date := "2024-01-20";
     FormData.discharge_note := "stable" |}.

Definition unreachable : Js.Thrown := Js.OtherObj "connection refused".

(** C300 as the patient list shows her when every discharged patient
    is included. *)
Definition viewC300 : Obj Patient.t :=
  mkObj 7 (patientWithDetails (rt := IsoRuntime.runtime)
             {| PatientResult.row := patientC300;
                PatientResult.admissions :=
                  Some [Db.join_admission tables admission13] |}).

Definition viewA100 : Obj Patient.t :=
  mkObj 5 (patientWithDetails (rt := IsoRuntime.runtime)
             {| PatientResult.row := patientA100;
                PatientResult.admissions :=
                  Some [Db.join_admission tables admission10] |}).

(** The patients page with [selected] open. *)
Definition patientsPage (selected : Obj Patient.t) : World :=
  {| db := tables;
     script := [None];
     log := [];
     clock := morningOf10Jan;
     next_ref := 8;
     currentUser := Some drRahman;
     dischargeStore :=
       {| DischargeStore.activePatients := [];
          DischargeStore.loading := false;
          DischargeStore.error := None;
          DischargeStore.selectedPatient := None |};
     patientStore :=
       {| PatientStore.patients := [];
          PatientStore.selectedPatient := Some selected;
          PatientStore.loading := false;
          PatientStore.error := None |} |}.

(** B200 with both his admissions, as the patients query returns him. *)
Definition resultB200 : PatientResult.t :=
  {| PatientResult.row := patientB200;
     PatientResult.admissions :=
       Some [Db.join_admission tables admission12;
             Db.join_admission tables admission11]
  |}.

End Sample.

(** The sample tables with one more patient: E500, whose discharge was
    entered for 10 January 2025, a year ahead of the clock. *)
Module Ahead.

Definition patientE500 : PatientRow.t :=
  {| PatientRow.id := 5; PatientRow.mrn := "E500";
     PatientRow.name := "Elias Saad";
     PatientRow.date_of_birth := "1959-07-21";
     PatientRow.gender := male |}.

Definition admission14 : AdmissionRow.t :=
  Sample.admission 14 5 discharged "Neurology" "2024-01-02T09:00:00.000Z"
                   (Some "2025-01-10") "Epilepsy".

Definition tables : Db.t :=
  {| Db.users := Db.users Sample.tables;
     Db.patients := Db.patients Sample.tables ++ [patientE500];
     Db.admissions := Db.admissions Sample.tables ++ [admission14];
     Db.consultations := Db.consultations Sample.tables;
     Db.medical_notes := Db.medical_notes Sample.tables |}.

(** The patients page over these tables, at 9 o'clock on 10 January
    2024. *)
Definition patientsPage : World :=
  with_db tables (Sample.patientsPage Sample.viewA100).

End Ahead.



(* ================================================================== *)
(** * Vocabulary of the further statements *)

Section WorkflowVocabulary.
Context {rt : JsRuntime}.

(** The status request [processDischarge] sends for entry [selected]. *)
Definition statusRequest (d : DischargeData.t)
           (selected : Obj ActivePatient.t) (user : User.t) (now : Z)
  : Request :=
  if Js.truthy_flag (ActivePatient.isConsultation (val selected))
  then UpdateConsultation (ActivePatient.consultation_id (val selected))
                          (consultationUpdate d user now)
  else UpdateAdmission (ActivePatient.id (val selected))
                       (admissionUpdate d user).

(** The note [processDischarge] appends for entry [selected]. *)
Definition noteFor (d : DischargeData.t) (selected : Obj ActivePatient.t)
           (user : User.t) : NoteInsert.t :=
  noteOf (val selected) user
         (if Js.truthy_flag (ActivePatient.isConsultation (val selected))
          then "Consultation Note" else "Discharge Summary") d.

(** The world once the status update and the note insert of
    [processDischarge] have both been accepted, [s] being the outcomes
    still to come. *)
Definition afterWrites (d : DischargeData.t)
           (selected : Obj ActivePatient.t) (user : User.t) (w : World)
           (s : list (option Js.Thrown)) : World :=
  {| db := Db.insert_note (noteFor d selected user)
                          (status_update d selected user (clock w) (db w));
     script := s;
     log := log w ++ [statusRequest d selected user (clock w);
                      InsertNote (noteFor d selected user)];
     clock := clock w;
     next_ref := next_ref w;
     currentUser := currentUser w;
     dischargeStore :=
       DischargeStore.with_loading true
         (DischargeStore.with_error None (dischargeStore w));
     patientStore := patientStore w |}.

(** [set({ selectedPatient: null, loading: false })]. *)
Definition cleared (w : World) : World :=
  with_dischargeStore
    (DischargeStore.with_selectedPatient None
       (DischargeStore.with_loading false (dischargeStore w))) w.
End WorkflowVocabulary.

(* ================================================================== *)
(** * src/components/Reports/LongStayReports.tsx *)

(** String built-ins the search boxes call: [String.prototype.toLowerCase]
    and [String.prototype.includes] ([includes s q]: [q] occurs in
    [s]). *)
Class JsStrings := {
  toLowerCase : string -> string;
  includes : string -> string -> bool
}.

(** ['duration' | 'date']. *)
Inductive SortBy := by_duration | by_date.

(** [LongStayFilters]. *)
Module LongStayFilters.
Record t := {
  specialty : string;
  minDuration : Z;
  sortBy : SortBy;
  searchQuery : string
}.
End LongStayFilters.

Module LongStayReports.
Section WithRuntime.
Context {rt : JsRuntime} {str : JsStrings}.

(** The initial state of [filters]. *)
Definition initialFilters : LongStayFilters.t :=
  {| LongStayFilters.specialty := "All Specialties";
     LongStayFilters.minDuration := StayCalculator.LONG_STAY_THRESHOLD;
     LongStayFilters.sortBy := by_duration;
     LongStayFilters.searchQuery := "" |}.

(** [a >= b] for a number [a] that may be [NaN]. *)
Definition ge_number (a : option Z) (b : Z) : bool :=
  match a with
  | Some x => b <=? x
  | None => false
  end.

(** [b - a] on numbers that may be [NaN]. *)
Definition minus (b a : option Z) : option Z :=
  match b, a with
  | Some y, Some x => Some (y - x)
  | _, _ => None
  end.

Definition matchesSearch (searchQuery : string) (patient : Patient.t)
  : bool :=
  String.eqb searchQuery ""
  || includes (toLowerCase (Patient.name patient)) (toLowerCase searchQuery)
  || includes (toLowerCase (Patient.mrn patient)) (toLowerCase searchQuery).

(** The callback of [patients.filter].  [now] is the instant of the
    render: every [new Date()] of one render reads the same instant. *)
Definition keeps (now : Z) (filters : LongStayFilters.t)
           (patient : Patient.t) : bool :=
  match hd_error (Patient.admissions patient) with
  | None => false
  | Some admission =>
      let stayDuration :=
        StayCalculator.calculateStayDuration
          now (AdmissionView.admission_date admission) in
      let matchesSpecialty :=
        String.eqb (LongStayFilters.specialty filters) "All Specialties"
        || String.eqb (AdmissionView.department admission)
                      (LongStayFilters.specialty filters) in
      let matchesDuration :=
        ge_number stayDuration (LongStayFilters.minDuration filters) in
      matchesSpecialty && matchesDuration
      && matchesSearch (LongStayFilters.searchQuery filters) patient
  end.

(** The comparator of [.sort]. *)
Definition comparePatients (now : Z) (filters : LongStayFilters.t)
           (a b : Patient.t) : option Z :=
  match hd_error (Patient.admissions a), hd_error (Patient.admissions b) with
  | Some admissionA, Some admissionB =>
      match LongStayFilters.sortBy filters with
      | by_duration =>
          let durationA :=
            StayCalculator.calculateStayDuration
              now (AdmissionView.admission_date admissionA) in
          let durationB :=
            StayCalculator.calculateStayDuration
              now (AdmissionView.admission_date admissionB) in
          minus durationB durationA
      | by_date =>
          minus (getTime (AdmissionView.admission_date admissionB))
                (getTime (AdmissionView.admission_date admissionA))
      end
  | _, _ => Some 0
  end.

Definition longStayPatients (now : Z) (filters : LongStayFilters.t)
           (patients : list Patient.t) : list Patient.t :=
  Js.sort (comparePatients now filters) (filter (keeps now filters) patients).

(** Stay duration of a patient's first admission. *)
Definition stayOf (now : Z) (patient : Patient.t) : option Z :=
  match hd_error (Patient.admissions patient) with
  | Some admission =>
      StayCalculator.calculateStayDuration
        now (AdmissionView.admission_date admission)
  | None => None
  end.

(** Instant of a patient's first admission. *)
Definition admittedOf (patient : Patient.t) : option Z :=
  match hd_error (Patient.admissions patient) with
  | Some admission => getTime (AdmissionView.admission_date admission)
  | None => None
  end.

(** [a] may stand before [b]: both values are numbers and [a]'s is not
    the smaller. *)
Definition notSmaller (f : Patient.t -> option Z) (a b : Patient.t) : Prop :=
  match f a, f b with
  | Some x, Some y => y <= x
  | _, _ => False
  end.
End WithRuntime.
End LongStayReports.

(* ================================================================== *)
(** * src/utils/reportExport.ts *)

Module ReportExport.
Section WithRuntime.
Context {rt : JsRuntime}.

(** [Math.ceil(a / b)] for integers [a] and [b > 0].  (The quotient is
    taken in double precision; for [|a| < 2^53] and
    [b = 86400000] its ceiling is that of the exact quotient.) *)
Definition ceil_div (a b : Z) : Z := - ((- a) / b).

(** The [stayDuration] of a row of [exportLongStayReport]:
    [Math.ceil((new Date().getTime() -
                new Date(admission.admission_date).getTime())
               / (1000 * 60 * 60 * 24))]. *)
Definition stayDuration (now : Z) (admission_date : string) : option Z :=
  match getTime admission_date with
  | Some t => Some (ceil_div (now - t) (1000 * 60 * 60 * 24))
  | None => None
  end.
End WithRuntime.
End ReportExport.

(* ================================================================== *)
(** * DashboardStats *)

Definition ShiftType_eqb (a b : ShiftType) : bool :=
  match a, b with
  | morning, morning | evening, evening | night, night
  | weekend_morning, weekend_morning | weekend_night, weekend_night => true
  | _, _ => false
  end.

(** The [counts] object of [getShiftCounts]: one number per shift type,
    read and written as [counts[shift]]. *)
Module ShiftCounts.
Definition t : Type := ShiftType -> Z.

Definition zero : t := fun _ => 0.

(** [counts[shift]++]. *)
Definition increment (shift : ShiftType) (counts : t) : t :=
  fun s => if ShiftType_eqb shift s then counts s + 1 else counts s.

Definition total (counts : t) : Z :=
  counts morning + counts evening + counts night
  + counts weekend_morning + counts weekend_night.
End ShiftCounts.

Module DashboardStats.

Definition totalPatients (patients : list Patient.t) : Z :=
  Z.of_nat (List.length patients).

(** [patient.admissions?.[0]?.status === 'active']. *)
Definition firstIsActive (patient : Patient.t) : bool :=
  match hd_error (Patient.admissions patient) with
  | Some admission => is_active admission
  | None => false
  end.

Definition activePatients (patients : list Patient.t) : Z :=
  Z.of_nat (List.length (filter firstIsActive patients)).

(** The body of the [forEach] of [getShiftCounts].  A shift type is a
    non-empty string, so the test of [activeAdmission.shift_type] always
    passes. *)
Definition countShift (counts : ShiftCounts.t) (patient : Patient.t)
  : ShiftCounts.t :=
  match Js.find is_active (Patient.admissions patient) with
  | Some activeAdmission =>
      if is_active activeAdmission
      then ShiftCounts.increment (AdmissionView.shift_type activeAdmission)
                                 counts
      else counts
  | None => counts
  end.

Definition getShiftCounts (patients : list Patient.t) : ShiftCounts.t :=
  fold_left countShift patients ShiftCounts.zero.

(** The shift of the patient's first active admission, if any. *)
Definition activeShift (patient : Patient.t) : option ShiftType :=
  option_map AdmissionView.shift_type
             (Js.find is_active (Patient.admissions patient)).

Definition onShift (shift : ShiftType) (patient : Patient.t) : bool :=
  match activeShift patient with
  | Some s => ShiftType_eqb s shift
  | None => false
  end.

Definition hasActive (patient : Patient.t) : bool :=
  existsb is_active (Patient.admissions patient).
End DashboardStats.

(* ================================================================== *)
(** * src/pages/Specialties.tsx *)

Module Specialties.

Definition specialties : list string :=
  [ "Internal Medicine"; "Pulmonology"; "Neurology"; "Gastroenterology";
    "Rheumatology"; "Endocrinology"; "Hematology"; "Infectious Disease";
    "Thrombosis Medicine"; "Immunology & Allergy" ].

(** [admission.department === specialty && admission.status === 'active'] *)
Definition activeIn (specialty : string) (admission : AdmissionView.t)
  : bool :=
  String.eqb (AdmissionView.department admission) specialty
  && is_active admission.

(** The two filters of [getSpecialtyData]; [consultations] is the list
    the consultation store holds. *)
Definition getSpecialtyData (patients : list Patient.t)
           (consultations : list ConsultationRow.t) (specialty : string)
  : list Patient.t * list ConsultationRow.t :=
  (filter (fun patient =>
             existsb (activeIn specialty) (Patient.admissions patient))
          patients,
   filter (fun consultation =>
             String.eqb (ConsultationRow.consultation_specialty consultation)
                        specialty
             && String.eqb (ConsultationRow.status consultation) "active")
          consultations).

Definition filteredSpecialties (filterSpecialty : string) : list string :=
  filter (fun specialty =>
            String.eqb filterSpecialty "all"
            || String.eqb specialty filterSpecialty)
         specialties.
End Specialties.

(* ================================================================== *)
(** * The patient store's mutations and the long-stay notes store

    These actions send requests the discharge workflow does not know.
    They run in a [Session]: the [World] of the actions above, the
    requests of the new kinds sent so far, the [long_stay_notes] table and
    the state of the long-stay notes store.  The outcomes of all requests
    come from the one [script] of the world. *)

(** The row [addPatient] inserts into [patients]. *)
Module NewPatient.
Record t := {
  mrn : string;
  name : string;
  date_of_birth : string;
  gender : Gender
}.
End NewPatient.

(** The row [addPatient] inserts into [admissions]. *)
Module NewAdmission.
Record t := {
  patient_id : Z;
  admitting_doctor_id : Z;
  admission_date : string;
  department : string;
  diagnosis : string;
  status : AdmissionStatus;
  safety_type : option SafetyType;
  shift_type : ShiftType;
  is_weekend : bool;
  visit_number : Z
}.
End NewAdmission.

(** The fields [addPatient] reads from [patientData.admission]. *)
Module AdmissionData.
Record t := {
  admitting_doctor_id : Z;
  admission_date : string;
  department : string;
  diagnosis : string;
  safety_type : option SafetyType;
  shift_type : ShiftType;
  is_weekend : bool
}.
End AdmissionData.

(** The fields [addPatient] reads from [patientData]. *)
Module PatientData.
Record t := {
  mrn : string;
  name : string;
  date_of_birth : string;
  gender : Gender;
  admission : AdmissionData.t
}.
End PatientData.

(** [Partial<Patient>]: for each key, [None] when the key is absent. *)
Module PatientUpdates.
Record t := {
  id : option Z;
  mrn : option string;
  name : option string;
  date_of_birth : option string;
  gender : option Gender;
  admissions : option (list AdmissionView.t);
  department : option (option string);
  diagnosis : option (option string);
  admission_date : option (option string);
  doctor_name : option (option string)
}.

(** [key in updates ? updates[key] : old]. *)
Definition over {A} (u : option A) (old : A) : A :=
  match u with
  | Some v => v
  | None => old
  end.

(** [{ ...p, ...updates }]. *)
Definition patch (updates : t) (p : Patient.t) : Patient.t :=
  {| Patient.id := over (id updates) (Patient.id p);
     Patient.mrn := over (mrn updates) (Patient.mrn p);
     Patient.name := over (name updates) (Patient.name p);
     Patient.date_of_birth :=
       over (date_of_birth updates) (Patient.date_of_birth p);
     Patient.gender := over (gender updates) (Patient.gender p);
     Patient.admissions := over (admissions updates) (Patient.admissions p);
     Patient.department := over (department updates) (Patient.department p);
     Patient.diagnosis := over (diagnosis updates) (Patient.diagnosis p);
     Patient.admission_date :=
       over (admission_date updates) (Patient.admission_date p);
     Patient.doctor_name :=
       over (doctor_name updates) (Patient.doctor_name p) |}.
End PatientUpdates.

(** A row of [long_stay_notes]. *)
Module LongStayNoteRow.
Record t := {
  id : Z;
  patient_id : Z;
  content : string;
  created_by : Z;
  created_at : string;
  updated_at : string
}.
End LongStayNoteRow.

(** [created_by: { name }]. *)
Module Author.
Record t := { name : string }.
End Author.

(** A note row as the select returns it, its author embedded. *)
Module LongStayNoteResult.
Record t := {
  row : LongStayNoteRow.t;
  created_by : option (list Author.t)
}.
End LongStayNoteResult.

(** [LongStayNote] ([src/types/longStayNote.ts]). *)
Module LongStayNote.
Record t := {
  id : Z;
  patient_id : Z;
  content : string;
  created_at : string;
  updated_at : string;
  created_by : Author.t
}.
End LongStayNote.

(** [Record<number, LongStayNote[]>]: the keys set so far with their
    values. *)
Module NotesByPatient.
Definition t : Type := list (Z * list LongStayNote.t).

(** [notes[patientId]]. *)
Fixpoint lookup (patientId : Z) (notes : t) : option (list LongStayNote.t) :=
  match notes with
  | [] => None
  | (k, v) :: rest => if k =? patientId then Some v else lookup patientId rest
  end.

(** [{ ...notes, [patientId]: value }]. *)
Fixpoint assign (patientId : Z) (value : list LongStayNote.t) (notes : t)
  : t :=
  match notes with
  | [] => [(patientId, value)]
  | (k, v) :: rest =>
      if k =? patientId then (k, value) :: rest
      else (k, v) :: assign patientId value rest
  end.
End NotesByPatient.

Module LongStayNotesStore.
Record t := {
  notes : NotesByPatient.t;
  loading : bool;
  error : option string
}.

Definition with_notes n (s : t) : t :=
  {| notes := n; loading := loading s; error := error s |}.
Definition with_loading b (s : t) : t :=
  {| notes := notes s; loading := b; error := error s |}.
Definition with_error e (s : t) : t :=
  {| notes := notes s; loading := loading s; error := e |}.
End LongStayNotesStore.

(** The row [useLongStayNotesStore.addNote] inserts. *)
Module NewLongStayNote.
Record t := {
  patient_id : Z;
  content : string;
  created_by : Z
}.
End NewLongStayNote.

(** The requests of the new kinds. *)
Inductive Mutation :=
| InsertPatient (p : NewPatient.t)
| InsertAdmission (a : NewAdmission.t)
| UpdatePatient (id : Z) (updates : PatientUpdates.t)
| DeletePatient (id : Z)
| SelectLongStayNotes (patientId : Z)
| InsertLongStayNote (n : NewLongStayNote.t).

Record Session := {
  world : World;
  (** requests of the new kinds sent so far, oldest first *)
  sent : list Mutation;
  long_stay_notes : list LongStayNoteRow.t;
  longStayNotesStore : LongStayNotesStore.t
}.

Definition with_world (w : World) (x : Session) : Session :=
  {| world := w; sent := sent x; long_stay_notes := long_stay_notes x;
     longStayNotesStore := longStayNotesStore x |}.

Definition with_sent (l : list Mutation) (x : Session) : Session :=
  {| world := world x; sent := l; long_stay_notes := long_stay_notes x;
     longStayNotesStore := longStayNotesStore x |}.

Definition with_long_stay_notes (l : list LongStayNoteRow.t) (x : Session)
  : Session :=
  {| world := world x; sent := sent x; long_stay_notes := l;
     longStayNotesStore := longStayNotesStore x |}.

Definition with_longStayNotesStore (s : LongStayNotesStore.t) (x : Session)
  : Session :=
  {| world := world x; sent := sent x; long_stay_notes := long_stay_notes x;
     longStayNotesStore := s |}.

(** What the sources do not fix about the backend: the id a table gives
    to a new row (from the ids it holds), and what an accepted update or
    delete of a patient does to the tables. *)
Class Backend := {
  new_id : list Z -> Z;
  update_patient : Z -> PatientUpdates.t -> Db.t -> Db.t;
  delete_patient : Z -> Db.t -> Db.t
}.

(** ** The monad of the session's actions *)

Definition Act (A : Type) : Type := Session -> Result A * Session.

Definition sret {A} (a : A) : Act A := fun x => (Ok a, x).

Definition sbind {A B} (m : Act A) (k : A -> Act B) : Act B :=
  fun x =>
    match m x with
    | (Ok a, x') => k a x'
    | (Err e, x') => (Err e, x')
    end.

Definition sthrow {A} (e : Js.Thrown) : Act A := fun x => (Err e, x).

Definition stry {A} (m : Act A) (h : Js.Thrown -> Act A) : Act A :=
  fun x =>
    match m x with
    | (Ok a, x') => (Ok a, x')
    | (Err e, x') => h e x'
    end.

(** An action of the world, run in the session. *)
Definition lift {A} (m : M A) : Act A :=
  fun x =>
    match m (world x) with
    | (r, w') => (r, with_world w' x)
    end.

Definition sgets {A} (f : Session -> A) : Act A := fun x => (Ok (f x), x).

Definition smodify (f : Session -> Session) : Act unit :=
  fun x => (Ok tt, f x).

Declare Scope session_scope.
Delimit Scope session_scope with session.
Notation "x <- m ;; k" := (sbind m (fun x => k))
  (at level 61, m at next level, right associativity) : session_scope.
Notation "m ;; k" := (sbind m (fun _ => k))
  (at level 61, right associativity) : session_scope.

Definition sthrow_if (error : option Js.Thrown) : Act unit :=
  match error with
  | Some e => sthrow e
  | None => sret tt
  end.

(** One request of a new kind: it is recorded and the next scripted
    outcome consumed. *)
Definition send (r : Mutation) : Act (option Js.Thrown) :=
  fun x =>
    let x1 := with_sent (sent x ++ [r]) x in
    match script (world x) with
    | [] => (Ok None, x1)
    | o :: rest => (Ok o, with_world (with_script rest (world x)) x1)
    end.

Section SessionActions.
Context {rt : JsRuntime} {be : Backend}.
Local Open Scope session_scope.

(** zustand's [set] of the patient store, in the session. *)
Definition sset_patient (f : PatientStore.t -> PatientStore.t) : Act unit :=
  lift (set_patient f).

Definition smodify_db (f : Db.t -> Db.t) : Act unit :=
  smodify (fun x => with_world (with_db (f (db (world x))) (world x)) x).

(* ---------------------------------------------------------------- *)
(** ** src/stores/usePatientStore.ts, continued *)

(** The patient row an accepted insert adds, and its effect. *)
Definition insertedPatient (p : NewPatient.t) (d : Db.t) : PatientRow.t :=
  {| PatientRow.id := new_id (map PatientRow.id (Db.patients d));
     PatientRow.mrn := NewPatient.mrn p;
     PatientRow.name := NewPatient.name p;
     PatientRow.date_of_birth := NewPatient.date_of_birth p;
     PatientRow.gender := NewPatient.gender p |}.

Definition with_patients (l : list PatientRow.t) (d : Db.t) : Db.t :=
  {| Db.users := Db.users d; Db.patients := l;
     Db.admissions := Db.admissions d;
     Db.consultations := Db.consultations d;
     Db.medical_notes := Db.medical_notes d |}.

(** The admission row an accepted insert adds: the columns not given
    take their defaults. *)
Definition insertedAdmission (a : NewAdmission.t) (d : Db.t)
  : AdmissionRow.t :=
  {| AdmissionRow.id := new_id (map AdmissionRow.id (Db.admissions d));
     AdmissionRow.patient_id := NewAdmission.patient_id a;
     AdmissionRow.admitting_doctor_id := NewAdmission.admitting_doctor_id a;
     AdmissionRow.discharge_doctor_id := None;
     AdmissionRow.status := NewAdmission.status a;
     AdmissionRow.department := NewAdmission.department a;
     AdmissionRow.admission_date := NewAdmission.admission_date a;
     AdmissionRow.discharge_date := None;
     AdmissionRow.diagnosis := NewAdmission.diagnosis a;
     AdmissionRow.visit_number := NewAdmission.visit_number a;
     AdmissionRow.safety_type := NewAdmission.safety_type a;
     AdmissionRow.shift_type := NewAdmission.shift_type a;
     AdmissionRow.is_weekend := NewAdmission.is_weekend a;
     AdmissionRow.discharge_type := None;
     AdmissionRow.follow_up_required := false;
     AdmissionRow.follow_up_date := None;
     AdmissionRow.discharge_note := None |}.

(** [from('patients').insert(p).select().single()]: the row inserted, or
    the error. *)
Definition insert_patient (p : NewPatient.t)
  : Act (Response PatientRow.t) :=
  e <- send (InsertPatient p) ;;
  match e with
  | Some _ => sret (mkResponse None e)
  | None =>
      d <- sgets (fun x => db (world x)) ;;
      let row := insertedPatient p d in
      smodify_db (with_patients (Db.patients d ++ [row])) ;;
      sret (mkResponse (Some row) None)
  end.

(** [from('admissions').insert(a).select(..).single()]. *)
Definition insert_admission (a : NewAdmission.t)
  : Act (Response AdmissionRow.t) :=
  e <- send (InsertAdmission a) ;;
  match e with
  | Some _ => sret (mkResponse None e)
  | None =>
      d <- sgets (fun x => db (world x)) ;;
      let row := insertedAdmission a d in
      smodify_db (Db.with_admissions (Db.admissions d ++ [row])) ;;
      sret (mkResponse (Some row) None)
  end.

(** The admission [addPatient] inserts for the patient row [patientResult]. *)
Definition newAdmissionOf (patientData : PatientData.t)
           (patientResult : PatientRow.t) : NewAdmission.t :=
  let admission := PatientData.admission patientData in
  {| NewAdmission.patient_id := PatientRow.id patientResult;
     NewAdmission.admitting_doctor_id :=
       AdmissionData.admitting_doctor_id admission;
     NewAdmission.admission_date := AdmissionData.admission_date admission;
     NewAdmission.department := AdmissionData.department admission;
     NewAdmission.diagnosis := AdmissionData.diagnosis admission;
     NewAdmission.status := active;
     NewAdmission.safety_type := AdmissionData.safety_type admission;
     NewAdmission.shift_type := AdmissionData.shift_type admission;
     NewAdmission.is_weekend := AdmissionData.is_weekend admission;
     NewAdmission.visit_number := 1 |}.

Definition newPatientOf (patientData : PatientData.t) : NewPatient.t :=
  {| NewPatient.mrn := PatientData.mrn patientData;
     NewPatient.name := PatientData.name patientData;
     NewPatient.date_of_birth := PatientData.date_of_birth patientData;
     NewPatient.gender := PatientData.gender patientData |}.

Definition addPatient (patientData : PatientData.t) : Act unit :=
  sset_patient (fun s => PatientStore.with_loading true
                           (PatientStore.with_error None s)) ;;
  stry
    (patient <- insert_patient (newPatientOf patientData) ;;
     sthrow_if (error patient) ;;
     match data patient with
     | None =>
         (* [patientResult.id] of [null]: a TypeError *)
         sthrow (Js.ErrorObj "Cannot read properties of null")
     | Some patientResult =>
         admission <-
           insert_admission (newAdmissionOf patientData patientResult) ;;
         sthrow_if (error admission) ;;
         lift (fetchPatients false) ;;
         sset_patient (PatientStore.with_loading false)
     end)
    (fun e =>
       sset_patient
         (fun s => PatientStore.with_error
                     (Some (Js.message_or e "Failed to add patient"))
                     (PatientStore.with_loading false s)) ;;
       sthrow e).

(** [state.patients.map(p => p.id === id ? { ...p, ...updates } : p)]:
    a patched patient is a new object, the others are kept. *)
Fixpoint patchAll (id : Z) (updates : PatientUpdates.t) (n : nat)
         (patients : list (Obj Patient.t)) : list (Obj Patient.t) * nat :=
  match patients with
  | [] => ([], n)
  | p :: rest =>
      if Patient.id (val p) =? id then
        let (rest', n') := patchAll id updates (S n) rest in
        (mkObj n (PatientUpdates.patch updates (val p)) :: rest', n')
      else
        let (rest', n') := patchAll id updates n rest in
        (p :: rest', n')
  end.

Definition updatePatient (id : Z) (updates : PatientUpdates.t) : Act unit :=
  sset_patient (fun s => PatientStore.with_loading true
                           (PatientStore.with_error None s)) ;;
  stry
    (e <- send (UpdatePatient id updates) ;;
     sthrow_if e ;;
     smodify_db (update_patient id updates) ;;
     smodify
       (fun x =>
          let w := world x in
          let state := patientStore w in
          let (patients, n) :=
            patchAll id updates (next_ref w) (PatientStore.patients state) in
          let (selectedPatient, n') :=
            match PatientStore.selectedPatient state with
            | Some selected =>
                if Patient.id (val selected) =? id
                then (Some (mkObj n (PatientUpdates.patch updates
                                                          (val selected))),
                      S n)
                else (Some selected, n)
            | None => (None, n)
            end in
          with_world
            (with_next_ref n'
               (with_patientStore
                  {| PatientStore.patients := patients;
                     PatientStore.selectedPatient := selectedPatient;
                     PatientStore.loading := false;
                     PatientStore.error := PatientStore.error state |} w))
            x))
    (fun e =>
       sset_patient
         (fun s => PatientStore.with_error
                     (Some (Js.message_or e "Failed to update patient"))
                     (PatientStore.with_loading false s)) ;;
       sthrow e).

Definition deletePatient (id : Z) : Act unit :=
  sset_patient (fun s => PatientStore.with_loading true
                           (PatientStore.with_error None s)) ;;
  stry
    (e <- send (DeletePatient id) ;;
     sthrow_if e ;;
     smodify_db (delete_patient id) ;;
     sset_patient
       (fun state =>
          {| PatientStore.patients :=
               filter (fun p => negb (Patient.id (val p) =? id))
                      (PatientStore.patients state);
             PatientStore.selectedPatient :=
               match PatientStore.selectedPatient state with
               | Some selected =>
                   if Patient.id (val selected) =? id then None
                   else Some selected
               | None => None
               end;
             PatientStore.loading := false;
             PatientStore.error := PatientStore.error state |}))
    (fun e =>
       sset_patient
         (fun s => PatientStore.with_error
                     (Some (Js.message_or e "Failed to delete patient"))
                     (PatientStore.with_loading false s)) ;;
       sthrow e).

(** [setSelectedPatient] of the patient store. *)
Definition selectPatient (patient : option (Obj Patient.t)) : Act unit :=
  sset_patient (PatientStore.with_selectedPatient patient).
End SessionActions.

Module LongStayNotes.
Section Actions.
Context {rt : JsRuntime} {be : Backend}.
Local Open Scope session_scope.

(* ---------------------------------------------------------------- *)
(** ** src/stores/useLongStayNotesStore.ts *)

Definition sset_notes (f : LongStayNotesStore.t -> LongStayNotesStore.t)
  : Act unit :=
  smodify (fun x => with_longStayNotesStore (f (longStayNotesStore x)) x).

(** Embedding of the author into a note row:
    [created_by:users!long_stay_notes_created_by_fkey (name)]. *)
Definition join_note (d : Db.t) (n : LongStayNoteRow.t)
  : LongStayNoteResult.t :=
  {| LongStayNoteResult.row := n;
     LongStayNoteResult.created_by :=
       Some (map (fun u => {| Author.name := User.name u |})
                 (filter (fun u => User.id u =? LongStayNoteRow.created_by n)
                         (Db.users d))) |}.

(** The comparator of [.order('created_at', { ascending: false })]. *)
Definition byCreatedAtDesc (a b : LongStayNoteRow.t) : option Z :=
  match getTime (LongStayNoteRow.created_at b),
        getTime (LongStayNoteRow.created_at a) with
  | Some tb, Some ta => Some (tb - ta)
  | _, _ => None
  end.

(** [from('long_stay_notes').select(..).eq('patient_id', patientId)
      .order('created_at', { ascending: false })]. *)
Definition select_notes (patientId : Z) (x : Session)
  : list LongStayNoteResult.t :=
  map (join_note (db (world x)))
      (Js.sort byCreatedAtDesc
               (filter (fun n => LongStayNoteRow.patient_id n =? patientId)
                       (long_stay_notes x))).

(** The note row an accepted insert adds: the table gives the id, and
    both timestamps default to the current instant. *)
Definition insertedNote (n : NewLongStayNote.t) (x : Session)
  : LongStayNoteRow.t :=
  {| LongStayNoteRow.id :=
       new_id (map LongStayNoteRow.id (long_stay_notes x));
     LongStayNoteRow.patient_id := NewLongStayNote.patient_id n;
     LongStayNoteRow.content := NewLongStayNote.content n;
     LongStayNoteRow.created_by := NewLongStayNote.created_by n;
     LongStayNoteRow.created_at := toISOString (clock (world x));
     LongStayNoteRow.updated_at := toISOString (clock (world x)) |}.

(** The callback of [data.map] in [fetchNotes], and the [formattedNote]
    of [addNote]. *)
Definition formattedNote (note : LongStayNoteResult.t) : LongStayNote.t :=
  let r := LongStayNoteResult.row note in
  {| LongStayNote.id := LongStayNoteRow.id r;
     LongStayNote.patient_id := LongStayNoteRow.patient_id r;
     LongStayNote.content := LongStayNoteRow.content r;
     LongStayNote.created_at := LongStayNoteRow.created_at r;
     LongStayNote.updated_at := LongStayNoteRow.updated_at r;
     LongStayNote.created_by :=
       {| Author.name :=
            Js.or_default
              (match LongStayNoteResult.created_by note with
               | Some l => option_map Author.name (hd_error l)
               | None => None
               end) "Unknown" |} |}.

Definition fetchNotes (patientId : Z) : Act unit :=
  sset_notes (fun s => LongStayNotesStore.with_loading true
                         (LongStayNotesStore.with_error None s)) ;;
  stry
    (e <- send (SelectLongStayNotes patientId) ;;
     rows <- sgets (select_notes patientId) ;;
     let response :=
       match e with
       | Some _ => mkResponse None e
       | None => mkResponse (Some rows) None
       end in
     sthrow_if (error response) ;;
     let formattedNotes := map formattedNote (Js.or_empty (data response)) in
     sset_notes
       (fun state =>
          {| LongStayNotesStore.notes :=
               NotesByPatient.assign patientId formattedNotes
                                     (LongStayNotesStore.notes state);
             LongStayNotesStore.loading := false;
             LongStayNotesStore.error := LongStayNotesStore.error state |}))
    (fun e =>
       sset_notes
         (fun s => LongStayNotesStore.with_error
                     (Some (Js.message_or e "An error occurred"))
                     (LongStayNotesStore.with_loading false s))).

(** [state.notes[patientId] || []]. *)
Definition notesOf (patientId : Z) (notes : NotesByPatient.t)
  : list LongStayNote.t :=
  Js.or_empty (NotesByPatient.lookup patientId notes).

Definition addNote (patientId : Z) (content : string) : Act unit :=
  sset_notes (fun s => LongStayNotesStore.with_loading true
                         (LongStayNotesStore.with_error None s)) ;;
  stry
    (user <- sgets (fun x => currentUser (world x)) ;;
     match user with
     | None => sthrow (Js.ErrorObj "User not authenticated")
     | Some currentUser =>
         let n := {| NewLongStayNote.patient_id := patientId;
                     NewLongStayNote.content := content;
                     NewLongStayNote.created_by := User.id currentUser |} in
         e <- send (InsertLongStayNote n) ;;
         sthrow_if e ;;
         row <- sgets (insertedNote n) ;;
         smodify (fun x => with_long_stay_notes
                             (long_stay_notes x ++ [row]) x) ;;
         d <- sgets (fun x => db (world x)) ;;
         let formattedNote := formattedNote (join_note d row) in
         sset_notes
           (fun state =>
              {| LongStayNotesStore.notes :=
                   NotesByPatient.assign
                     patientId
                     (formattedNote
                        :: notesOf patientId (LongStayNotesStore.notes state))
                     (LongStayNotesStore.notes state);
                 LongStayNotesStore.loading := false;
                 LongStayNotesStore.error :=
                   LongStayNotesStore.error state |})
     end)
    (fun e =>
       sset_notes
         (fun s => LongStayNotesStore.with_error
                     (Some (Js.message_or e "An error occurred"))
                     (LongStayNotesStore.with_loading false s))).
End Actions.
End LongStayNotes.

(* ---------------------------------------------------------------- *)
(** ** The session after an accepted [fetchNotes] *)

Definition notesLoaded {rt : JsRuntime} (patientId : Z) (x : Session)
  : Session :=
  with_longStayNotesStore
    {| LongStayNotesStore.notes :=
         NotesByPatient.assign
           patientId
           (map LongStayNotes.formattedNote
                (LongStayNotes.select_notes patientId x))
           (LongStayNotesStore.notes (longStayNotesStore x));
       LongStayNotesStore.loading := false;
       LongStayNotesStore.error := None |}
    (with_world (with_script (tl (script (world x))) (world x))
       (with_sent (sent x ++ [SelectLongStayNotes patientId]) x)).

(* ---------------------------------------------------------------- *)
(** ** A sample session *)

Module Desk.

(** The columns of [patients] an update names, written to a row. *)
Definition updatedRow (updates : PatientUpdates.t) (p : PatientRow.t)
  : PatientRow.t :=
  {| PatientRow.id :=
       PatientUpdates.over (PatientUpdates.id updates) (PatientRow.id p);
     PatientRow.mrn :=
       PatientUpdates.over (PatientUpdates.mrn updates) (PatientRow.mrn p);
     PatientRow.name :=
       PatientUpdates.over (PatientUpdates.name updates) (PatientRow.name p);
     PatientRow.date_of_birth :=
       PatientUpdates.over (PatientUpdates.date_of_birth updates)
                           (PatientRow.date_of_birth p);
     PatientRow.gender :=
       PatientUpdates.over (PatientUpdates.gender updates)
                           (PatientRow.gender p) |}.

Definition tablesWith (l : list PatientRow.t) (d : Db.t) : Db.t :=
  {| Db.users := Db.users d;
     Db.patients := l;
     Db.admissions := Db.admissions d;
     Db.consultations := Db.consultations d;
     Db.medical_notes := Db.medical_notes d |}.

(** A backend that numbers new rows after the largest id in use, writes
    the columns of [patients] an update names, and deletes the row. *)
Definition backend : Backend :=
  {| new_id := fun ids => 1 + fold_right Z.max 0 ids;
     update_patient := fun id updates d =>
       tablesWith
         (map (fun p => if PatientRow.id p =? id
                        then updatedRow updates p else p)
              (Db.patients d)) d;
     delete_patient := fun id d =>
       tablesWith
         (filter (fun p => negb (PatientRow.id p =? id)) (Db.patients d))
         d |}.

(** A note on A100's long stay, written on 8 January. *)
Definition noteOn8Jan : LongStayNoteRow.t :=
  {| LongStayNoteRow.id := 1;
     LongStayNoteRow.patient_id := 1;
     LongStayNoteRow.content := "Awaiting rehabilitation bed";
     LongStayNoteRow.created_by := 3;
     LongStayNoteRow.created_at := "2024-01-08T10:00:00.000Z";
     LongStayNoteRow.updated_at := "2024-01-08T10:00:00.000Z" |}.

(** The patients page with A100 and C300 listed and A100 open, one note
    in the table and none loaded, the backend about to answer as
    [outcomes] say. *)
Definition session (user : option User.t)
           (outcomes : list (option Js.Thrown)) : Session :=
  {| world :=
       {| db := Sample.tables;
          script := outcomes;
          log := [];
          clock := Sample.morningOf10Jan;
          next_ref := 8;
          currentUser := user;
          dischargeStore :=
            {| DischargeStore.activePatients := [];
               DischargeStore.loading := false;
               DischargeStore.error := None;
               DischargeStore.selectedPatient := None |};
          patientStore :=
            {| PatientStore.patients := [Sample.viewA100; Sample.viewC300];
               PatientStore.selectedPatient := Some Sample.viewA100;
               PatientStore.loading := false;
               PatientStore.error := None |} |};
     sent := [];
     long_stay_notes := [noteOn8Jan];
     longStayNotesStore :=
       {| LongStayNotesStore.notes := [];
          LongStayNotesStore.loading := false;
          LongStayNotesStore.error := None |} |}.

(** D400, admitted this morning. *)
Definition patientD400 : PatientData.t :=
  {| PatientData.mrn := "D400";
     PatientData.name := "Dana Khoury";
     PatientData.date_of_birth := "1968-01-01";
     PatientData.gender := female;
     PatientData.admission :=
       {| AdmissionData.admitting_doctor_id := 3;
          AdmissionData.admission_date := "2024-01-10T08:30:00.000Z";
          AdmissionData.department := "Cardiology";
          AdmissionData.diagnosis := "Arrhythmia";
          AdmissionData.safety_type := Some observation;
          AdmissionData.shift_type := morning;
          AdmissionData.is_weekend := false |} |}.

(** A correction of a name. *)
Definition rename : PatientUpdates.t :=
  {| PatientUpdates.id := None;
     PatientUpdates.mrn := None;
     PatientUpdates.name := Some "Amal Nasser-Haddad";
     PatientUpdates.date_of_birth := None;
     PatientUpdates.gender := None;
     PatientUpdates.admissions := None;
     PatientUpdates.department := None;
     PatientUpdates.diagnosis := None;
     PatientUpdates.admission_date := None;
     PatientUpdates.doctor_name := None |}.

(** The data of [Sample.form] with another date and type. *)
Definition laterTransfer : DischargeData.t :=
  {| DischargeData.discharge_date := "2024-01-12";
     DischargeData.discharge_type := transfer;
     DischargeData.follow_up_required := false;
     DischargeData.follow_up_date := None;
     DischargeData.discharge_note := "stable";
     DischargeData.status := discharged |}.

End Desk.
(* ================================================================== *)
(** * Properties *)

(** ** Stay classifier *)

Section DateProperties.
Context {rt : JsRuntime}.

(** A time value is made of its day and its fields. *)
Lemma time_fields (t : Z) :
  t = JsDate.MakeDate
        (JsDate.Day t)
        (JsDate.MakeTime (JsDate.HourFromTime t) (JsDate.MinFromTime t)
                         (JsDate.SecFromTime t) (JsDate.msFromTime t))
  /\ 0 <= JsDate.HourFromTime t < 24
  /\ 0 <= JsDate.MinFromTime t < 60
  /\ 0 <= JsDate.SecFromTime t < 60
  /\ 0 <= JsDate.msFromTime t < 1000.
Proof.
  unfold JsDate.MakeDate, JsDate.MakeTime, JsDate.Day, JsDate.HourFromTime,
    JsDate.MinFromTime, JsDate.SecFromTime, JsDate.msFromTime,
    JsDate.msPerDay, JsDate.msPerHour, JsDate.msPerMinute,
    JsDate.msPerSecond.
  Z.div_mod_to_equations. lia.
Qed.

Lemma time_within_day (t : Z) :
  JsDate.TimeWithinDay t = t - JsDate.Day t * JsDate.msPerDay
  /\ 0 <= JsDate.TimeWithinDay t < JsDate.msPerDay.
Proof.
  unfold JsDate.TimeWithinDay, JsDate.Day, JsDate.msPerDay.
  Z.div_mod_to_equations. lia.
Qed.

(** Lowering the hour field by [k] takes the local time back by [k]
    hours. *)
Lemma setHours_back (k t : Z) :
  JsDate.setHours (JsDate.getHours t - k) t
  = JsDate.UTC (JsDate.LocalTime t - k * JsDate.msPerHour).
Proof.
  unfold JsDate.setHours, JsDate.getHours. f_equal.
  destruct (time_fields (JsDate.LocalTime t)) as (Ht & _).
  unfold JsDate.MakeDate, JsDate.MakeTime, JsDate.msPerDay,
    JsDate.msPerHour, JsDate.msPerMinute, JsDate.msPerSecond in *.
  lia.
Qed.

(** The order of the local fields is the order of the local times. *)
Lemma compareLocalAsc_sgn (l r : Z) :
  DateFns.compareLocalAsc l r
  = Z.sgn (JsDate.LocalTime l - JsDate.LocalTime r).
Proof.
  unfold DateFns.compareLocalAsc, JsDate.localDay, JsDate.getHours,
    JsDate.getMinutes, JsDate.getSeconds, JsDate.getMilliseconds.
  destruct (time_fields (JsDate.LocalTime l)) as (Hl & Hlh & Hlm & Hls & Hlx).
  destruct (time_fields (JsDate.LocalTime r)) as (Hr & Hrh & Hrm & Hrs & Hrx).
  revert Hl Hr. unfold JsDate.MakeDate, JsDate.MakeTime, JsDate.msPerDay,
    JsDate.msPerHour, JsDate.msPerMinute, JsDate.msPerSecond.
  generalize dependent (JsDate.Day (JsDate.LocalTime l)).
  generalize dependent (JsDate.HourFromTime (JsDate.LocalTime l)).
  generalize dependent (JsDate.MinFromTime (JsDate.LocalTime l)).
  generalize dependent (JsDate.SecFromTime (JsDate.LocalTime l)).
  generalize dependent (JsDate.msFromTime (JsDate.LocalTime l)).
  generalize dependent (JsDate.Day (JsDate.LocalTime r)).
  generalize dependent (JsDate.HourFromTime (JsDate.LocalTime r)).
  generalize dependent (JsDate.MinFromTime (JsDate.LocalTime r)).
  generalize dependent (JsDate.SecFromTime (JsDate.LocalTime r)).
  generalize dependent (JsDate.msFromTime (JsDate.LocalTime r)).
  generalize (JsDate.LocalTime l) (JsDate.LocalTime r).
  intros a b xr Hrx sr Hrs mr Hrm hr Hrh dr xl Hlx sl Hls ml Hlm hl Hlh dl
         Ha Hb.
  unfold Js.or_number.
  repeat match goal with
         | |- context [?x =? 0] =>
             let E := fresh "E" in
             destruct (x =? 0) eqn:E;
             [apply Z.eqb_eq in E|apply Z.eqb_neq in E]
         end;
    match goal with
    | |- context [?d <? 0] =>
        let E1 := fresh "E" in
        let E2 := fresh "E" in
        destruct (d <? 0) eqn:E1;
        [apply Z.ltb_lt in E1; symmetry; apply Z.sgn_neg; lia
        |apply Z.ltb_ge in E1;
         destruct (0 <? d) eqn:E2;
         [apply Z.ltb_lt in E2; symmetry; apply Z.sgn_pos; lia
         |apply Z.ltb_ge in E2;
          replace (a - b) with 0 by lia; simpl; lia]]
    end.
Qed.

(** Whole days between the local times of the two dates, truncated
    toward zero, when the clocks show the local midnights of both days
    and the time of day of the left date on the day of the right one. *)
Lemma differenceInDays_local (l r : Z) :
  let ll := JsDate.LocalTime l in
  let lr := JsDate.LocalTime r in
  JsDate.onClock (JsDate.Day ll * JsDate.msPerDay) ->
  JsDate.onClock (JsDate.Day lr * JsDate.msPerDay) ->
  JsDate.onClock (ll - (JsDate.Day ll - JsDate.Day lr) * JsDate.msPerDay) ->
  DateFns.differenceInDays l r
  = Z.quot (ll - lr) DateFns.MILLISECONDS_IN_DAY.
Proof.
  intros ll lr H1 H2 H3.
  unfold DateFns.differenceInDays.
  assert (Hcal : DateFns.differenceInCalendarDays l r
                 = JsDate.Day ll - JsDate.Day lr).
  { unfold DateFns.differenceInCalendarDays, DateFns.startOfDay,
      DateFns.getTimezoneOffsetInMilliseconds, JsDate.setHoursTo,
      JsDate.MakeDate, JsDate.MakeTime.
    fold ll lr.
    replace (JsDate.Day ll * JsDate.msPerDay
             + (0 * JsDate.msPerHour + 0 * JsDate.msPerMinute
                + 0 * JsDate.msPerSecond + 0))
      with (JsDate.Day ll * JsDate.msPerDay) by lia.
    replace (JsDate.Day lr * JsDate.msPerDay
             + (0 * JsDate.msPerHour + 0 * JsDate.msPerMinute
                + 0 * JsDate.msPerSecond + 0))
      with (JsDate.Day lr * JsDate.msPerDay) by lia.
    unfold JsDate.onClock in H1, H2.
    set (sl := JsDate.UTC (JsDate.Day ll * JsDate.msPerDay)) in *.
    set (sr := JsDate.UTC (JsDate.Day lr * JsDate.msPerDay)) in *.
    replace (sl - (sl - JsDate.LocalTime sl)
             - (sr - (sr - JsDate.LocalTime sr)))
      with ((JsDate.Day ll - JsDate.Day lr) * JsDate.msPerDay)
      by (rewrite H1, H2; lia).
    unfold Js.round_div, DateFns.MILLISECONDS_IN_DAY, JsDate.msPerDay.
    generalize (JsDate.Day ll - JsDate.Day lr). intros k.
    Z.div_mod_to_equations. lia. }
  rewrite Hcal, !compareLocalAsc_sgn. fold ll lr.
  destruct (time_within_day ll) as (Hwl & Bl).
  destruct (time_within_day lr) as (Hwr & Br).
  set (dl := JsDate.Day ll) in *. set (dr := JsDate.Day lr) in *.
  assert (Hk : Z.sgn (ll - lr) * Z.abs (dl - dr) = dl - dr).
  { unfold JsDate.msPerDay in *.
    destruct (Z.lt_trichotomy ll lr) as [H|[H|H]].
    - rewrite Z.sgn_neg by lia. assert (dl <= dr) by lia. lia.
    - replace (ll - lr) with 0 by lia. simpl. assert (dl = dr) by lia. lia.
    - rewrite Z.sgn_pos by lia. assert (dr <= dl) by lia. lia. }
  assert (Hmoved : JsDate.LocalTime
                     (JsDate.setDateBack
                        (Z.sgn (ll - lr) * Z.abs (dl - dr)) l)
                   = ll - (dl - dr) * JsDate.msPerDay).
  { unfold JsDate.setDateBack, JsDate.MakeDate. fold ll. fold dl.
    rewrite Hk.
    replace ((dl - (dl - dr)) * JsDate.msPerDay + JsDate.TimeWithinDay ll)
      with (ll - (dl - dr) * JsDate.msPerDay) by lia.
    exact H3. }
  rewrite Hmoved.
  unfold DateFns.MILLISECONDS_IN_DAY, JsDate.msPerDay in *.
  set (D := 86400000) in *.
  set (ml := JsDate.TimeWithinDay ll) in *.
  set (mr := JsDate.TimeWithinDay lr) in *.
  replace (ll - (dl - dr) * D - lr) with (ml - mr) by lia.
  destruct (Z.lt_trichotomy ll lr) as [H|[H|H]].
  - assert (Hs : Z.sgn (ll - lr) = -1) by (apply Z.sgn_neg; lia).
    assert (dl <= dr) by lia.
    rewrite Hs, (Z.abs_neq (dl - dr)) by lia.
    replace (ll - lr) with (- (lr - ll)) by lia.
    rewrite Z.quot_opp_l, Z.quot_div_nonneg by lia.
    destruct (Z.sgn (ml - mr) =? - (-1)) eqn:E.
    + apply Z.eqb_eq in E. change (- (-1)) with 1 in E.
      apply Z.sgn_pos_iff in E.
      assert ((lr - ll) / D = dr - dl - 1); [|lia].
      symmetry. apply Z.div_unique with (r := D + mr - ml); lia.
    + apply Z.eqb_neq in E. change (- (-1)) with 1 in E.
      assert (ml <= mr).
      { destruct (Z_lt_le_dec mr ml); [|assumption].
        exfalso. apply E, Z.sgn_pos_iff. lia. }
      assert ((lr - ll) / D = dr - dl); [|lia].
      symmetry. apply Z.div_unique with (r := mr - ml); lia.
  - replace (ll - lr) with 0 by lia. reflexivity.
  - assert (Hs : Z.sgn (ll - lr) = 1) by (apply Z.sgn_pos; lia).
    assert (dr <= dl) by lia.
    rewrite Hs, (Z.abs_eq (dl - dr)) by lia.
    rewrite Z.quot_div_nonneg by lia.
    destruct (Z.sgn (ml - mr) =? - (1)) eqn:E.
    + apply Z.eqb_eq, Z.sgn_neg_iff in E.
      assert ((ll - lr) / D = dl - dr - 1); [|lia].
      symmetry. apply Z.div_unique with (r := D + ml - mr); lia.
    + apply Z.eqb_neq in E.
      assert (mr <= ml).
      { destruct (Z_lt_le_dec ml mr); [|assumption].
        exfalso. apply E, Z.sgn_neg_iff. lia. }
      assert ((ll - lr) / D = dl - dr); [|lia].
      symmetry. apply Z.div_unique with (r := ml - mr); lia.
Qed.

(** In a zone with a fixed offset the clocks show every local time, and
    local times are as far apart as their instants. *)
Lemma fixedOffset_onClock (c tl : Z) :
  JsDate.fixedOffset c -> JsDate.onClock tl.
Proof.
  intros Hc. unfold JsDate.onClock, JsDate.LocalTime, JsDate.UTC.
  rewrite !Hc. lia.
Qed.

Lemma fixedOffset_LocalTime (c t : Z) :
  JsDate.fixedOffset c -> JsDate.LocalTime t = t + c.
Proof.
  intros Hc. unfold JsDate.LocalTime. now rewrite Hc.
Qed.

Lemma differenceInDays_fixed (c l r : Z) :
  JsDate.fixedOffset c ->
  DateFns.differenceInDays l r
  = Z.quot (l - r) DateFns.MILLISECONDS_IN_DAY.
Proof.
  intros Hc.
  rewrite differenceInDays_local by (apply (fixedOffset_onClock _ Hc)).
  rewrite !(fixedOffset_LocalTime _ Hc). f_equal. lia.
Qed.

Lemma differenceInDays_forward (c l r : Z) :
  JsDate.fixedOffset c ->
  r <= l ->
  DateFns.differenceInDays l r = (l - r) / DateFns.MILLISECONDS_IN_DAY.
Proof.
  intros Hc Hle. rewrite (differenceInDays_fixed l r Hc).
  apply Z.quot_div_nonneg; unfold DateFns.MILLISECONDS_IN_DAY; lia.
Qed.
End DateProperties.

Section StayProperties.
Context {rt : JsRuntime}.

(** C2.  For an admission date that parses to instant [t] and a current
    instant [now], [calculateStayDuration] returns a number [n], and
    [isLongStay] holds exactly when [n >= 6].  [n] counts whole days
    between the local times of the two instants, truncated toward zero
    (the floor when the admission is not later than [now]), provided the
    clocks show the local midnights of both days and the time of day of
    [now] on the day of admission.  In a zone with a fixed offset that
    is the time elapsed from [t] to [now] in whole days, truncated
    toward zero. *)
Theorem stay_duration_truncates (now : Z) (admissionDate : string) (t : Z) :
  getTime admissionDate = Some t ->
  let today := JsDate.Day (JsDate.LocalTime now) in
  let admitted := JsDate.Day (JsDate.LocalTime t) in
  let between := JsDate.LocalTime now - JsDate.LocalTime t in
  exists n,
    StayCalculator.calculateStayDuration now admissionDate = Some n
    /\ (StayCalculator.isLongStay now admissionDate = true <-> 6 <= n)
    /\ (JsDate.onClock (today * JsDate.msPerDay) ->
        JsDate.onClock (admitted * JsDate.msPerDay) ->
        JsDate.onClock (JsDate.LocalTime now
                        - (today - admitted) * JsDate.msPerDay) ->
        n = Z.quot between 86400000
        /\ (0 <= between -> n = between / 86400000))
    /\ (forall c,
          JsDate.fixedOffset c ->
          n = Z.quot (now - t) 86400000
          /\ (t <= now -> n = (now - t) / 86400000)).
Proof.
  intros Ht today admitted between.
  exists (DateFns.differenceInDays now t).
  unfold StayCalculator.isLongStay, StayCalculator.calculateStayDuration.
  rewrite Ht. split; [reflexivity|]. split; [|split].
  - unfold StayCalculator.LONG_STAY_THRESHOLD. apply Z.leb_le.
  - intros H1 H2 H3.
    rewrite (differenceInDays_local now t H1 H2 H3).
    fold between. unfold DateFns.MILLISECONDS_IN_DAY.
    split; [reflexivity|].
    intros Hpos. apply Z.quot_div_nonneg; lia.
  - intros c Hc. split.
    + apply (differenceInDays_fixed now t Hc).
    + intros Hle. apply (differenceInDays_forward Hc Hle).
Qed.
End StayProperties.

(** ** Running the actions *)

Section Running.
Context {rt : JsRuntime} {notes : MedicalNotesStore}.

Lemma alloc_from_length {A} (l : list A) (n : nat) :
  List.length (alloc_from n l) = List.length l.
Proof.
  revert n; induction l as [|x l IH]; intros n; simpl; [reflexivity|].
  now rewrite IH.
Qed.

Lemma alloc_from_val {A} (l : list A) (n : nat) :
  map (@val A) (alloc_from n l) = l.
Proof.
  revert n; induction l as [|x l IH]; intros n; simpl; [reflexivity|].
  now rewrite IH.
Qed.

Lemma alloc_from_ref {A} (l : list A) (n : nat) (o : Obj A) :
  In o (alloc_from n l) -> (n <= ref o < n + List.length l)%nat.
Proof.
  revert n; induction l as [|x l IH]; intros n; simpl; [tauto|].
  intros [<-|H]; simpl; [lia|].
  apply IH in H. lia.
Qed.

Lemma fetchActivePatients_ok (w : World) (s : list (option Js.Thrown)) :
  script w = None :: None :: s ->
  fetchActivePatients w = (Ok tt, refreshed w s).
Proof.
  destruct w as [d sc lg ck nr cu ds ps]; simpl; intros ->.
  unfold fetchActivePatients, refreshed, freshRoster, rosterAdmissions,
    rosterConsultations.
  unfold bind, try_catch, select, set_discharge, modify, request, gets, ret,
    throw_if, new_objects; simpl.
  rewrite <- app_assoc; simpl.
  destruct ds as [ap ld er [sel|]]; simpl.
  - destruct (Js.find _ _); reflexivity.
  - reflexivity.
Qed.
End Running.

Section Discharge.
Context {rt : JsRuntime} {notes : MedicalNotesStore}.

(** [fetchActivePatients] catches what it throws: it always resolves,
    touches no table, and its first request is the admissions query. *)
Lemma fetchActivePatients_total (w : World) :
  exists w',
    fetchActivePatients w = (Ok tt, w')
    /\ db w' = db w
    /\ currentUser w' = currentUser w
    /\ exists tail, log w' = log w ++ SelectActiveAdmissions :: tail.
Proof.
  destruct w as [d sc lg ck nr cu ds ps].
  unfold fetchActivePatients.
  unfold bind, try_catch, select, set_discharge, modify, request, gets, ret,
    throw_if, new_objects, throw; simpl.
  destruct sc as [|[e|] [|[e'|] s]]; simpl;
    try (destruct (DischargeStore.selectedPatient ds) as [sel|]; simpl;
         [destruct (Js.find _ _); simpl|]);
    eexists; (split; [reflexivity|]); simpl;
    repeat split; try reflexivity;
    try rewrite <- app_assoc; simpl; eexists; reflexivity.
Qed.
End Discharge.

Section Workflow.
Context {rt : JsRuntime} {notes : MedicalNotesStore}.

Local Arguments fetchActivePatients : simpl never.

Ltac run_workflow :=
  unfold processDischarge, addNote, write;
  unfold bind, try_catch, set_discharge, modify, request, gets, ret,
    throw_if, throw; simpl.

Ltac with_refetch :=
  match goal with
  | |- context [fetchActivePatients ?W] =>
      let w2 := fresh "w2" in
      let E := fresh "E" in
      let Hdb := fresh "Hdb" in
      let Hcu := fresh "Hcu" in
      let tail := fresh "tail" in
      let Hlog := fresh "Hlog" in
      destruct (fetchActivePatients_total W)
        as (w2 & E & Hdb & Hcu & tail & Hlog);
      rewrite E; simpl in Hdb, Hcu, Hlog; simpl
  end.

(** Once applied, the status change shows on every row it addresses. *)
Lemma status_update_changes (d : DischargeData.t)
      (selected : Obj ActivePatient.t) (user : User.t) (now : Z)
      (t : Db.t) :
  status_changed selected (status_update d selected user now t).
Proof.
  unfold status_changed, status_update.
  destruct (Js.truthy_flag (ActivePatient.isConsultation (val selected)));
    simpl.
  - intros c Hin Hid.
    apply in_map_iff in Hin. destruct Hin as (c0 & Hc & _).
    destruct (ActivePatient.consultation_id (val selected)) as [k|];
      [|discriminate].
    injection Hid as ->.
    destruct (ConsultationRow.id c0 =? ConsultationRow.id c) eqn:E.
    + subst c. reflexivity.
    + subst c0. rewrite Z.eqb_refl in E. discriminate.
  - intros a Hin Hid.
    apply in_map_iff in Hin. destruct Hin as (a0 & Ha & _).
    destruct (AdmissionRow.id a0 =? ActivePatient.id (val selected)) eqn:E.
    + subst a. reflexivity.
    + subst a0. rewrite Hid, Z.eqb_refl in E. discriminate.
Qed.

(** C5.  Run with no roster entry selected, or with no authenticated
    user, [processDischarge] fails with the precondition error ("No
    patient selected" or "No user logged in") before any request is
    sent: the request log, the tables and the pending backend outcomes
    are as they were, so no admission update, no consultation update
    and no note insert has taken place. *)
Theorem processDischarge_precondition (d : DischargeData.t) (w : World) :
  DischargeStore.selectedPatient (dischargeStore w) = None
  \/ currentUser w = None ->
  exists e w',
    processDischarge d w = (Err e, w')
    /\ (e = Js.ErrorObj "No patient selected"
        \/ e = Js.ErrorObj "No user logged in")
    /\ log w' = log w
    /\ db w' = db w
    /\ script w' = script w.
Proof.
  destruct w as [db0 sc lg ck nr cu [ap ld er sel] ps]; simpl.
  intros H. run_workflow.
  destruct sel as [sp|]; [destruct cu as [u|]|].
  - destruct H; discriminate.
  - do 2 eexists; split; [reflexivity|]; simpl; auto.
  - do 2 eexists; split; [reflexivity|]; simpl; auto.
Qed.

(** C4.  With an entry selected and a user logged in: when the backend
    rejects the status update, [processDischarge] fails with that error
    after this one request, so no note is appended, the roster is not
    re-fetched and the selection is not cleared, and the tables are
    unchanged; when the status update is accepted and the note insert
    that follows is rejected, the tables are those with the status
    change applied: the addressed admission is discharged (or the
    consultation completed), nothing is rolled back and no note has been
    added. *)
Theorem processDischarge_write_failures
        (d : DischargeData.t) (w : World)
        (selected : Obj ActivePatient.t) (user : User.t)
        (e : Js.Thrown) (s : list (option Js.Thrown)) :
  DischargeStore.selectedPatient (dischargeStore w) = Some selected ->
  currentUser w = Some user ->
  (exists r w',
      processDischarge d (with_script (Some e :: s) w) = (Err e, w')
      /\ log w' = log w ++ [r]
      /\ is_status_update r = true
      /\ db w' = db w
      /\ DischargeStore.selectedPatient (dischargeStore w')
         = Some selected)
  /\ (exists r w',
        processDischarge d (with_script (None :: Some e :: s) w) = (r, w')
        /\ db w' = status_update d selected user (clock w) (db w)
        /\ status_changed selected (db w')
        /\ Db.medical_notes (db w') = Db.medical_notes (db w)).
Proof.
  destruct w as [db0 sc lg ck nr cu [ap ld er sel] ps]; simpl.
  intros -> ->. unfold with_script; simpl. split.
  - run_workflow.
    destruct (Js.truthy_flag (ActivePatient.isConsultation (val selected)));
      simpl; do 2 eexists; (split; [reflexivity|]); simpl;
      repeat split; reflexivity.
  - assert (exists r w',
               processDischarge d
                 {| db := db0; script := None :: Some e :: s; log := lg;
                    clock := ck; next_ref := nr; currentUser := Some user;
                    dischargeStore :=
                      {| DischargeStore.activePatients := ap;
                         DischargeStore.loading := ld;
                         DischargeStore.error := er;
                         DischargeStore.selectedPatient := Some selected |};
                    patientStore := ps |} = (r, w')
               /\ db w' = status_update d selected user ck db0)
      as (r & w' & E & Hdb).
    { run_workflow. unfold status_update.
      destruct (Js.truthy_flag
                  (ActivePatient.isConsultation (val selected)));
        simpl; destruct addNote_rethrows; simpl.
      all: try (do 2 eexists; split; [reflexivity|]; reflexivity).
      all: with_refetch; do 2 eexists; (split; [reflexivity|]); simpl;
        assumption. }
    exists r, w'. repeat split; try assumption.
    + rewrite Hdb. apply status_update_changes.
    + rewrite Hdb. unfold status_update.
      destruct (Js.truthy_flag
                  (ActivePatient.isConsultation (val selected)));
        reflexivity.
Qed.

(** C9.  When the status update and the note insert both succeed,
    [processDischarge] runs [fetchActivePatients] on the world the two
    writes leave, and then sets the selected entry to null, whatever
    that re-fetch produced: the final selection is empty and the
    admissions query of the re-fetch follows the two writes in the
    request log. *)
Theorem processDischarge_refetch_then_clear
        (d : DischargeData.t) (w : World)
        (selected : Obj ActivePatient.t) (user : User.t)
        (s : list (option Js.Thrown)) :
  DischargeStore.selectedPatient (dischargeStore w) = Some selected ->
  currentUser w = Some user ->
  script w = None :: None :: s ->
  exists r1 r2 w1 w2 w',
    processDischarge d w = (Ok tt, w')
    /\ is_status_update r1 = true /\ is_note_insert r2 = true
    /\ log w1 = log w ++ [r1; r2] /\ script w1 = s
    /\ fetchActivePatients w1 = (Ok tt, w2)
    /\ w' = with_dischargeStore
              (DischargeStore.with_selectedPatient None
                 (DischargeStore.with_loading false (dischargeStore w2)))
              w2
    /\ DischargeStore.selectedPatient (dischargeStore w') = None
    /\ exists tail,
         log w' = log w ++ [r1; r2] ++ SelectActiveAdmissions :: tail.
Proof.
  destruct w as [db0 sc lg ck nr cu [ap ld er sel] ps]; simpl.
  intros -> -> ->. run_workflow.
  destruct (Js.truthy_flag (ActivePatient.isConsultation (val selected)));
    simpl.
  1: match goal with
     | |- context [fetchActivePatients ?W] =>
         destruct (fetchActivePatients_total W)
           as (w2 & E & _ & _ & rest & Hlog);
         eexists (UpdateConsultation _ _), (InsertNote _), W, w2
     end.
  2: match goal with
     | |- context [fetchActivePatients ?W] =>
         destruct (fetchActivePatients_total W)
           as (w2 & E & _ & _ & rest & Hlog);
         eexists (UpdateAdmission _ _), (InsertNote _), W, w2
     end.
  all: rewrite E; simpl; eexists; split; [reflexivity|]; simpl.
  all: repeat (split; [reflexivity|]).
  all: rewrite <- app_assoc; simpl; split; [reflexivity|].
  all: repeat (split; [first [reflexivity | assumption]|]).
  all: exists rest; simpl in Hlog; rewrite Hlog;
    rewrite <- !app_assoc; reflexivity.
Qed.
End Workflow.


Section FormProperties.
Context {rt : JsRuntime} {notes : MedicalNotesStore}.

Local Arguments fetchActivePatients : simpl never.

(** A form that passes validation with follow-up enabled carries a
    follow-up date. *)
Lemma validateForm_follow_up_date (formData : FormData.t) :
  validateForm formData = true ->
  FormData.follow_up_required formData = true ->
  Js.truthy_string (FormData.follow_up_date formData) = true.
Proof.
  unfold validateForm, validationErrors, FormErrors.no_keys; simpl.
  intros H Hreq. rewrite Hreq in H. simpl in H.
  destruct (Js.truthy_string (FormData.follow_up_date formData));
    [reflexivity|].
  destruct (negb _); [discriminate|].
  destruct (date_le _ _); simpl in H; discriminate.
Qed.

(** The update [processDischarge] sends for a validated form. *)
Lemma admissionUpdate_of_form (formData : FormData.t) (user : User.t) :
  validateForm formData = true ->
  admissionUpdate (dischargeDataOf formData) user
  = dischargeUpdateOf formData user.
Proof.
  intros H. unfold admissionUpdate, dischargeUpdateOf, dischargeDataOf; simpl.
  f_equal.
  destruct (FormData.follow_up_required formData) eqn:Hreq;
    [|reflexivity].
  unfold Js.or; simpl.
  now rewrite (validateForm_follow_up_date _ H Hreq).
Qed.

(** C1.  A discharge submitted from the form for a selected entry that
    is not a consultation, by the logged-in user: the first request is
    the update of the admission with the entry's id to status
    discharged, with the form's discharge date and type, its follow-up
    flag, the follow-up date when follow-up is required and null
    otherwise, the note, and the user's id as discharging doctor.  Once
    that update is accepted the addressed admission rows carry exactly
    these values, and the next request appends a note of kind
    "Discharge Summary" whose content is the note text (and which is in
    the notes table once accepted). *)
Theorem handleSubmit_discharges_admission
        (formData : FormData.t) (w : World)
        (selected : Obj ActivePatient.t) (user : User.t) :
  DischargeStore.selectedPatient (dischargeStore w) = Some selected ->
  Js.truthy_flag (ActivePatient.isConsultation (val selected)) = false ->
  currentUser w = Some user ->
  validateForm formData = true ->
  let id := ActivePatient.id (val selected) in
  let update := dischargeUpdateOf formData user in
  let note := dischargeSummaryOf formData (val selected) user in
  exists outcome w' tail,
    handleSubmit formData w = (outcome, w')
    /\ log w' = log w ++ UpdateAdmission id update :: tail
    /\ (hd None (script w) = None ->
        Db.admissions (db w')
        = map (fun a => if AdmissionRow.id a =? id
                        then Db.apply_admission_update update a else a)
              (Db.admissions (db w))
        /\ (exists tail', tail = InsertNote note :: tail')
        /\ (hd None (tl (script w)) = None ->
            Db.medical_notes (db w')
            = Db.medical_notes (db w) ++ [note])).
Proof.
  intros Hsel Hadm Hcu Hvalid id update note.
  unfold handleSubmit. rewrite Hcu, Hsel, Hvalid. simpl.
  destruct w as [db0 sc lg ck nr cu [ap ld er sel] ps]; simpl in *.
  subst cu sel.
  unfold processDischarge, addNote, write.
  unfold bind, try_catch, set_discharge, modify, request, gets, ret,
    throw_if, throw; simpl.
  rewrite Hadm, (admissionUpdate_of_form _ user Hvalid).
  fold id. fold update.
  change (noteOf (val selected) user "Discharge Summary"
                 (dischargeDataOf formData)) with note.
  destruct sc as [|[e|] [|[e'|] s]]; simpl;
    try destruct addNote_rethrows; simpl.
  all: try match goal with
         | |- context [fetchActivePatients ?W] =>
             destruct (fetchActivePatients_total W)
               as (w2 & E & Hdb & _ & rest & Hlog);
             rewrite E; simpl in Hdb, Hlog; simpl
         end.
  all: do 3 eexists; (split; [reflexivity|]); simpl.
  all: try rewrite Hlog; try rewrite Hdb; simpl.
  all: rewrite <- ?app_assoc; simpl.
  all: split; [reflexivity|].
  all: intros H0; try discriminate H0.
  all: split; [reflexivity|].
  all: split; [eexists; reflexivity|].
  all: intros H1; try discriminate H1; reflexivity.
Qed.
End FormProperties.

Section RosterProperties.
Context {rt : JsRuntime} {notes : MedicalNotesStore}.

Lemma find_app {A} (f : A -> bool) (l1 l2 : list A) :
  Js.find f (l1 ++ l2)
  = match Js.find f l1 with
    | Some x => Some x
    | None => Js.find f l2
    end.
Proof.
  unfold Js.find. induction l1 as [|x l1 IH]; simpl; [reflexivity|].
  destruct (f x); [reflexivity|exact IH].
Qed.

Lemma find_alloc_from {A} (f : A -> bool) (l : list A) (n : nat) :
  option_map (@val A) (Js.find (fun o => f (val o)) (alloc_from n l))
  = Js.find f l.
Proof.
  unfold Js.find. revert n; induction l as [|x l IH]; intros n; simpl;
    [reflexivity|].
  destruct (f x); [reflexivity|apply IH].
Qed.

Lemma find_some_in {A} (f : A -> bool) (l : list A) (x : A) :
  Js.find f l = Some x -> In x l /\ f x = true.
Proof. apply find_some. Qed.

Lemma find_none_iff {A} (f : A -> bool) (l : list A) :
  Js.find f l = None <-> forall x, In x l -> f x = false.
Proof.
  split; [apply find_none|].
  unfold Js.find. induction l as [|x l IH]; simpl; [reflexivity|].
  intros H. rewrite (H x (or_introl eq_refl)). apply IH.
  intros y Hy. apply H. now right.
Qed.

Lemma freshRoster_val (d : Db.t) (n : nat) :
  map (@val _) (freshRoster d n)
  = rosterAdmissions d ++ rosterConsultations d.
Proof.
  unfold freshRoster. now rewrite map_app, !alloc_from_val.
Qed.

Lemma freshRoster_ref (d : Db.t) (n : nat) (o : Obj ActivePatient.t) :
  In o (freshRoster d n) -> (n <= ref o)%nat.
Proof.
  unfold freshRoster. intros H. apply in_app_or in H.
  destruct H as [H|H]; apply alloc_from_ref in H; lia.
Qed.

Lemma rosterAdmissions_kind (d : Db.t) (p : ActivePatient.t) :
  In p (rosterAdmissions d) ->
  ActivePatient.isConsultation p = None /\ ActivePatient.status p = active.
Proof.
  unfold rosterAdmissions, Db.select_active_admissions.
  rewrite map_map. intros H. apply in_map_iff in H.
  destruct H as (r & <- & Hr). apply filter_In in Hr.
  destruct Hr as [_ Hr]. simpl. split; [reflexivity|].
  destruct (AdmissionRow.status r); simpl in Hr; congruence.
Qed.

Lemma rosterConsultations_kind (d : Db.t) (p : ActivePatient.t) :
  In p (rosterConsultations d) ->
  ActivePatient.isConsultation p = Some true
  /\ ActivePatient.status p = active
  /\ ActivePatient.shift_type p = morning
  /\ ActivePatient.is_weekend p = false.
Proof.
  unfold rosterConsultations. intros H. apply in_map_iff in H.
  destruct H as (c & <- & _). simpl. auto.
Qed.

(** C7.  After a [fetchActivePatients] whose two queries succeed, the
    roster holds the entries built from exactly the admissions with
    status active, in table order and without the consultation flag,
    followed by the entries built from exactly the consultations with
    status "active", flagged as consultations with shift [morning] and
    [is_weekend] false; nothing is re-sorted.  Every entry has status
    active, so no entry is the image of a discharged admission, and no
    admission entry carries the id of an admission that is discharged. *)
Theorem fetchActivePatients_roster (w : World)
        (s : list (option Js.Thrown)) :
  script w = None :: None :: s ->
  let roster :=
    DischargeStore.activePatients
      (dischargeStore (snd (fetchActivePatients w))) in
  map (@val _) roster
  = map admissionPatient (Db.select_active_admissions (db w))
    ++ map consultationPatient (Db.select_active_consultations (db w))
  /\ (forall a, In a (Db.select_active_admissions (db w)) <->
                exists r, In r (Db.admissions (db w))
                          /\ AdmissionRow.status r = active
                          /\ a = Db.join_admission (db w) r)
  /\ (forall c, In c (Db.select_active_consultations (db w)) <->
                In c (Db.consultations (db w))
                /\ ConsultationRow.status c = "active")
  /\ (forall a, ActivePatient.isConsultation (admissionPatient a) = None)
  /\ (forall c,
        ActivePatient.isConsultation (consultationPatient c) = Some true
        /\ ActivePatient.shift_type (consultationPatient c) = morning
        /\ ActivePatient.is_weekend (consultationPatient c) = false)
  /\ (forall p, In p roster -> ActivePatient.status (val p) = active)
  /\ (forall r, In r (Db.admissions (db w)) ->
                AdmissionRow.status r = discharged ->
                forall p, In p roster ->
                  val p <> admissionPatient (Db.join_admission (db w) r))
  /\ (forall id,
        (forall r, In r (Db.admissions (db w)) ->
                   AdmissionRow.id r = id ->
                   AdmissionRow.status r = discharged) ->
        forall p, In p roster ->
                  ActivePatient.isConsultation (val p) = None ->
                  ActivePatient.id (val p) <> id).
Proof.
  intros Hs roster.
  assert (Hroster : roster = freshRoster (db w) (next_ref w)).
  { unfold roster. now rewrite (fetchActivePatients_ok w Hs). }
  assert (Hact : forall p, In p roster ->
                           ActivePatient.status (val p) = active).
  { intros p Hp. rewrite Hroster in Hp.
    apply (in_map (@val _)) in Hp. rewrite freshRoster_val in Hp.
    apply in_app_or in Hp. destruct Hp as [Hp|Hp].
    - now apply rosterAdmissions_kind in Hp.
    - now apply rosterConsultations_kind in Hp. }
  split; [rewrite Hroster; apply freshRoster_val|].
  split.
  { intros a. unfold Db.select_active_admissions.
    rewrite in_map_iff. split.
    - intros (r & <- & Hr). apply filter_In in Hr. destruct Hr as [Hin Hr].
      exists r. repeat split; try assumption.
      destruct (AdmissionRow.status r); simpl in Hr; congruence.
    - intros (r & Hin & Hst & ->). exists r. split; [reflexivity|].
      apply filter_In. split; [assumption|]. now rewrite Hst. }
  split.
  { intros c. unfold Db.select_active_consultations.
    rewrite filter_In, String.eqb_eq. reflexivity. }
  split; [reflexivity|].
  split; [intros c; simpl; auto|].
  split; [exact Hact|].
  split.
  { intros r _ Hst p Hp Heq.
    apply Hact in Hp. rewrite Heq in Hp. simpl in Hp. congruence. }
  intros id Hdis p Hp Hkind Hid.
  rewrite Hroster in Hp.
  apply (in_map (@val _)) in Hp. rewrite freshRoster_val in Hp.
  apply in_app_or in Hp. destruct Hp as [Hp|Hp].
  - unfold rosterAdmissions, Db.select_active_admissions in Hp.
    rewrite map_map in Hp. apply in_map_iff in Hp.
    destruct Hp as (r & Hr & Hin). apply filter_In in Hin.
    destruct Hin as [Hin Hst].
    rewrite <- Hr in Hid. simpl in Hid.
    rewrite (Hdis r Hin Hid) in Hst. discriminate.
  - apply rosterConsultations_kind in Hp. destruct Hp as [Hp _].
    congruence.
Qed.

(** C10.  [fetchActivePatients] reconciles the selection by id alone.
    When the selected entry is a consultation with id [i] and the fresh
    roster has an admission entry with id [i], the selection becomes an
    admission entry (no consultation flag) with id [i]: the first match
    in the order admissions, then consultations. *)
Theorem reconciliation_ignores_kind (w : World)
        (s : list (option Js.Thrown))
        (selected : Obj ActivePatient.t) (a : ActivePatient.t) :
  script w = None :: None :: s ->
  DischargeStore.selectedPatient (dischargeStore w) = Some selected ->
  ActivePatient.isConsultation (val selected) = Some true ->
  In a (rosterAdmissions (db w)) ->
  ActivePatient.id a = ActivePatient.id (val selected) ->
  exists p,
    DischargeStore.selectedPatient
      (dischargeStore (snd (fetchActivePatients w))) = Some p
    /\ ActivePatient.isConsultation (val p) = None
    /\ ActivePatient.id (val p) = ActivePatient.id (val selected)
    /\ Js.find (fun x => ActivePatient.id x
                         =? ActivePatient.id (val selected))
               (rosterAdmissions (db w) ++ rosterConsultations (db w))
       = Some (val p).
Proof.
  intros Hs Hsel _ Hin Hid.
  rewrite (fetchActivePatients_ok w Hs). simpl. rewrite Hsel.
  set (f := fun x => ActivePatient.id x =? ActivePatient.id (val selected)).
  pose proof (find_alloc_from f (rosterAdmissions (db w)) (next_ref w))
    as Hfind.
  destruct (Js.find f (rosterAdmissions (db w))) as [x|] eqn:Hx.
  - unfold freshRoster. rewrite !find_app. unfold same_id. fold f.
    change (fun p : Obj ActivePatient.t =>
              ActivePatient.id (val p) =? ActivePatient.id (val selected))
      with (fun p : Obj ActivePatient.t => f (val p)).
    destruct (Js.find (fun p => f (val p)) (alloc_from _ _)) as [p|];
      simpl in Hfind; [|discriminate].
    injection Hfind as <-.
    destruct (find_some_in _ _ Hx) as [Hx1 Hx2].
    exists p. repeat split.
    + now apply rosterAdmissions_kind in Hx1.
    + now apply Z.eqb_eq in Hx2.
    + fold f. now rewrite Hx.
  - exfalso. rewrite find_none_iff in Hx. specialize (Hx a Hin).
    unfold f in Hx. apply Z.eqb_neq in Hx. contradiction.
Qed.
End RosterProperties.

(** ** Sorting *)

Section SortProperties.
Variable A : Type.
Variable cmp : A -> A -> option Z.
(** [R x y]: [x] may stand before [y]; [ok]: the elements on which the
    comparator is consistent with [R]. *)
Variable R : A -> A -> Prop.
Variable ok : A -> Prop.
Hypothesis R_trans : forall x y z, R x y -> R y z -> R x z.
Hypothesis after_true :
  forall x y, ok x -> ok y -> Js.after cmp x y = true -> R y x.
Hypothesis after_false :
  forall x y, ok x -> ok y -> Js.after cmp x y = false -> R x y.

Lemma insert_perm (x : A) (l : list A) :
  Permutation (Js.insert cmp x l) (x :: l).
Proof.
  induction l as [|y l IH]; simpl; [reflexivity|].
  destruct (Js.after cmp x y); [|reflexivity].
  rewrite IH. apply perm_swap.
Qed.

Lemma sort_perm (l : list A) : Permutation (Js.sort cmp l) l.
Proof.
  induction l as [|x l IH]; simpl; [reflexivity|].
  rewrite insert_perm. now constructor.
Qed.

Lemma insert_sorted (x : A) (l : list A) :
  ok x -> Forall ok l ->
  StronglySorted R l -> StronglySorted R (Js.insert cmp x l).
Proof.
  intros Hx Hl Hs. induction Hs as [|y l Hs IH Hy]; simpl.
  - repeat constructor.
  - inversion Hl as [|? ? Hoky Hokl]; subst.
    destruct (Js.after cmp x y) eqn:E.
    + constructor; [now apply IH|].
      eapply Permutation_Forall; [symmetry; apply insert_perm|].
      constructor; [now apply after_true|assumption].
    + constructor; [now constructor|].
      pose proof (after_false Hx Hoky E) as Hxy.
      constructor; [assumption|].
      eapply Forall_impl; [|exact Hy]. intros z Hz. now apply R_trans with y.
Qed.

Lemma sort_sorted (l : list A) :
  Forall ok l -> StronglySorted R (Js.sort cmp l).
Proof.
  induction l as [|x l IH]; simpl; intros H; [constructor|].
  inversion H; subst. apply insert_sorted; auto.
  eapply Permutation_Forall; [symmetry; apply sort_perm|assumption].
Qed.
End SortProperties.

Lemma StronglySorted_map {A B} (f : A -> B) (R : B -> B -> Prop)
      (l : list A) :
  StronglySorted (fun x y => R (f x) (f y)) l ->
  StronglySorted R (map f l).
Proof.
  induction 1 as [|x l Hs IH Hx]; simpl; constructor; [assumption|].
  rewrite Forall_map. exact Hx.
Qed.

Section PatientListProperties.
Context {rt : JsRuntime}.

Lemma fetchPatients_ok (includeAllDischarged : bool) (w : World)
      (s : list (option Js.Thrown)) :
  script w = None :: s ->
  fetchPatients includeAllDischarged w
  = (Ok tt, reloaded includeAllDischarged w s).
Proof.
  destruct w as [d sc lg ck nr cu ds ps]; simpl; intros ->.
  unfold fetchPatients, reloaded, freshPatients.
  unfold bind, try_catch, select, set_patient, modify, request, gets, ret,
    throw_if, new_objects; simpl.
  destruct ps as [pl [sel|] ld er]; simpl.
  - destruct (Js.find _ _); reflexivity.
  - reflexivity.
Qed.

(** A read leaves the tables as they are, whatever the backend
    answers. *)
Lemma fetchPatients_db (includeAllDischarged : bool) (w : World) :
  db (snd (fetchPatients includeAllDischarged w)) = db w.
Proof.
  destruct w as [d sc lg ck nr cu ds [pl sel ld er]].
  unfold fetchPatients.
  unfold bind, try_catch, select, set_patient, modify, request, gets, ret,
    throw_if, new_objects, throw; simpl.
  destruct sc as [|[e|] sc]; simpl; try reflexivity.
  all: destruct sel as [sel|]; simpl; try reflexivity.
  all: destruct (Js.find _ _); reflexivity.
Qed.

Lemma AdmissionStatus_eqb_eq (a b : AdmissionStatus) :
  AdmissionStatus_eqb a b = true <-> a = b.
Proof. destruct a, b; simpl; split; congruence. Qed.

(** The cutoff the query carries: the hour field lowered by 18 is the
    local time taken back by 18 hours. *)
Lemma patientsQuery_cutoff (now : Z) :
  patientsQuery false now
  = {| PatientQuery.admissions_not_null := true;
       PatientQuery.admissions_filter :=
         Some (visibleFilter (cutoffAt now)) |}.
Proof.
  unfold patientsQuery, cutoffAt. simpl. now rewrite setHours_back.
Qed.

Lemma passes_visibleFilter (now : Z) (a : AdmissionRow.t) :
  Db.passes (visibleFilter (cutoffAt now)) a = true <-> visibleAt now a.
Proof.
  unfold visibleAt, visibleFilter; simpl.
  rewrite orb_true_iff, andb_true_iff, !AdmissionStatus_eqb_eq.
  split; (intros [H|[H1 H2]]; [now left|right; split; [assumption|]]).
  - destruct (AdmissionRow.discharge_date a) as [s|]; [|discriminate].
    destruct (getTime s) as [t|] eqn:E; [|discriminate].
    exists s, t. repeat split; try assumption. now apply Z.leb_le.
  - destruct H2 as (s & t & -> & -> & H). now apply Z.leb_le.
Qed.

Lemma nonempty_exists {A} (l : list A) :
  Db.nonempty l = true <-> exists x, In x l.
Proof.
  destruct l as [|x l]; simpl; split.
  - discriminate.
  - intros [x []].
  - intros _. exists x. now left.
  - reflexivity.
Qed.

Lemma freshPatients_ids (q : PatientQuery.t) (d : Db.t) (n : nat) :
  map (fun o => Patient.id (val o)) (freshPatients q d n)
  = map PatientRow.id (filter (Db.returned q d) (Db.patients d)).
Proof.
  unfold freshPatients.
  rewrite <- (map_map (@val _) Patient.id), alloc_from_val.
  unfold Db.select_patients. rewrite !map_map. reflexivity.
Qed.

(** C8.  After a successful [fetchPatients(false)] the patients listed
    are exactly those with at least one admission that is active, or
    discharged with a discharge date not before the cutoff: the instant
    at which the local clocks showed 18 hours less than they show at the
    query time, which in a zone with a fixed offset is the query time
    less 18 hours.  A discharge date after the query time is let
    through.  [fetchPatients(true)] lists every patient.  Either way the
    tables are left as they were: rows outside the window are hidden,
    not deleted. *)
Theorem fetchPatients_window (w : World) (s : list (option Js.Thrown)) :
  script w = None :: s ->
  let listed (includeAllDischarged : bool) :=
    map (fun o => Patient.id (val o))
        (PatientStore.patients
           (patientStore (snd (fetchPatients includeAllDischarged w)))) in
  (forall id,
      In id (listed false) <->
      exists p a,
        In p (Db.patients (db w)) /\ PatientRow.id p = id
        /\ In a (Db.admissions (db w))
        /\ AdmissionRow.patient_id a = PatientRow.id p
        /\ visibleAt (clock w) a)
  /\ (forall c, JsDate.fixedOffset c ->
                cutoffAt (clock w) = clock w - 18 * HOUR)
  /\ listed true = map PatientRow.id (Db.patients (db w))
  /\ (forall includeAllDischarged,
        db (snd (fetchPatients includeAllDischarged w)) = db w).
Proof.
  intros Hs listed. split; [|split; [|split]].
  - intros id. unfold listed. rewrite (fetchPatients_ok false w Hs).
    unfold reloaded. rewrite patientsQuery_cutoff. simpl.
    rewrite freshPatients_ids, in_map_iff.
    split.
    + intros (p & Hid & Hp). apply filter_In in Hp. destruct Hp as [Hin Hret].
      unfold Db.returned in Hret. simpl in Hret.
      apply nonempty_exists in Hret. destruct Hret as (a & Ha).
      unfold Db.embedded_admissions in Ha. apply filter_In in Ha.
      destruct Ha as [Ha Hc]. apply andb_true_iff in Hc.
      destruct Hc as [Hpid Hpass]. simpl in Hpass.
      exists p, a. repeat split; try assumption.
      * now apply Z.eqb_eq.
      * now apply passes_visibleFilter.
    + intros (p & a & Hin & Hid & Ha & Hpid & Hvis).
      exists p. split; [assumption|]. apply filter_In. split; [assumption|].
      unfold Db.returned. simpl. apply nonempty_exists. exists a.
      unfold Db.embedded_admissions. apply filter_In. split; [assumption|].
      apply andb_true_iff. split; [now apply Z.eqb_eq|].
      simpl. now apply passes_visibleFilter.
  - intros c Hc. unfold cutoffAt, JsDate.UTC, JsDate.LocalTime.
    rewrite !Hc. lia.
  - unfold listed. rewrite (fetchPatients_ok true w Hs). simpl.
    rewrite freshPatients_ids. f_equal.
    unfold Db.returned. simpl.
    induction (Db.patients (db w)) as [|p l IH]; simpl; [reflexivity|].
    now rewrite IH.
  - intros f. apply fetchPatients_db.
Qed.
End PatientListProperties.

Section AggregationProperties.
Context {rt : JsRuntime} {notes : MedicalNotesStore}.

Lemma notBefore_trans (x y z : AdmissionView.t) :
  notBefore x y -> notBefore y z -> notBefore x z.
Proof.
  unfold notBefore.
  destruct (admittedAt x), (admittedAt y), (admittedAt z); try tauto.
  lia.
Qed.

Lemma byAdmissionDateDesc_order (x y : AdmissionResult.t) :
  validDate x -> validDate y ->
  (Js.after byAdmissionDateDesc x y = true ->
   notBefore (admissionView y) (admissionView x))
  /\ (Js.after byAdmissionDateDesc x y = false ->
      notBefore (admissionView x) (admissionView y)).
Proof.
  unfold validDate, Js.after, byAdmissionDateDesc, notBefore, admittedAt.
  simpl.
  destruct (getTime (AdmissionRow.admission_date (AdmissionResult.row x)));
    [|congruence].
  destruct (getTime (AdmissionRow.admission_date (AdmissionResult.row y)));
    [|congruence].
  intros _ _. split; intros H.
  - apply Z.ltb_lt in H. lia.
  - apply Z.ltb_ge in H. lia.
Qed.

Lemma patientWithDetails_admissions (patient : PatientResult.t) :
  Patient.admissions (patientWithDetails patient)
  = map admissionView
        (Js.sort byAdmissionDateDesc
                 (Js.or_empty (PatientResult.admissions patient))).
Proof. reflexivity. Qed.

(** C6.  For a patient with at least one admission, the
    aggregated admissions are those of the patient, ordered by admission
    date descending (the dates being valid), index 0 being the most
    recent.  Each derived field (admission_date, department, diagnosis,
    doctor_name) is that of the first admission with status active when
    there is one and the field is non-empty there, and otherwise that of
    the admission at index 0. *)
Theorem patientWithDetails_current (patient : PatientResult.t) :
  Js.or_empty (PatientResult.admissions patient) <> [] ->
  let v := patientWithDetails patient in
  Permutation (Patient.admissions v)
              (map admissionView
                   (Js.or_empty (PatientResult.admissions patient)))
  /\ (Forall validDate (Js.or_empty (PatientResult.admissions patient)) ->
      StronglySorted notBefore (Patient.admissions v))
  /\ exists latest,
      hd_error (Patient.admissions v) = Some latest
      /\ (forall current,
            Js.find is_active (Patient.admissions v) = Some current ->
            Patient.admission_date v
            = Some (nonEmptyOr (AdmissionView.admission_date current)
                               (AdmissionView.admission_date latest))
            /\ Patient.department v
               = Some (nonEmptyOr (AdmissionView.department current)
                                  (AdmissionView.department latest))
            /\ Patient.diagnosis v
               = Some (nonEmptyOr (AdmissionView.diagnosis current)
                                  (AdmissionView.diagnosis latest))
            /\ Patient.doctor_name v
               = if Js.truthy (doctorName (Some current))
                 then doctorName (Some current)
                 else doctorName (Some latest))
      /\ (Js.find is_active (Patient.admissions v) = None ->
          Patient.admission_date v
          = Some (AdmissionView.admission_date latest)
          /\ Patient.department v = Some (AdmissionView.department latest)
          /\ Patient.diagnosis v = Some (AdmissionView.diagnosis latest)
          /\ Patient.doctor_name v = doctorName (Some latest)).
Proof.
  intros Hne v.
  assert (Hperm : Permutation (Patient.admissions v)
                    (map admissionView
                         (Js.or_empty (PatientResult.admissions patient)))).
  { unfold v. rewrite patientWithDetails_admissions.
    apply Permutation_map, sort_perm. }
  split; [exact Hperm|]. split.
  - intros Hvalid. unfold v. rewrite patientWithDetails_admissions.
    apply StronglySorted_map.
    apply sort_sorted with (ok := validDate); try assumption.
    + intros x y z. apply notBefore_trans.
    + intros x y Hx Hy. now apply byAdmissionDateDesc_order.
    + intros x y Hx Hy. now apply byAdmissionDateDesc_order.
  - destruct (Patient.admissions v) as [|latest rest] eqn:Hadm.
    { exfalso. apply Permutation_nil in Hperm.
      apply map_eq_nil in Hperm. contradiction. }
    exists latest. split; [reflexivity|].
    unfold v in *. unfold patientWithDetails in *. simpl in *.
    rewrite Hadm. simpl. split.
    + intros current ->. simpl. unfold Js.or, nonEmptyOr. simpl.
      repeat split;
        match goal with
        | |- context [Js.truthy_string ?s] =>
            destruct (Js.truthy_string s); reflexivity
        | |- context [Js.truthy ?s] =>
            destruct (Js.truthy s); reflexivity
        end.
    + intros ->. simpl. repeat split; reflexivity.
Qed.

(** C3.  After a successful [fetchActivePatients] with an
    entry selected: when no entry of the fresh roster has the selected
    id the selection is null; otherwise it is an object of the fresh
    roster with that id, allocated by this fetch.  After a successful
    [fetchPatients] with a patient selected: when the fresh list has a
    patient with the selected id the selection is that object of the
    fresh list, allocated by this fetch; when it has none the selection
    is left as it was.  Each store is reconciled on its own selection,
    whatever the other one holds. *)
Theorem selection_reconciliation (w : World) :
  (forall (s : list (option Js.Thrown)) (selected : Obj ActivePatient.t),
      script w = None :: None :: s ->
      DischargeStore.selectedPatient (dischargeStore w) = Some selected ->
      let w' := snd (fetchActivePatients w) in
      let roster := DischargeStore.activePatients (dischargeStore w') in
      (DischargeStore.selectedPatient (dischargeStore w') = None
       /\ forall p, In p roster ->
                    ActivePatient.id (val p)
                    <> ActivePatient.id (val selected))
      \/ (exists p,
            DischargeStore.selectedPatient (dischargeStore w') = Some p
            /\ In p roster
            /\ ActivePatient.id (val p) = ActivePatient.id (val selected)
            /\ (next_ref w <= ref p)%nat))
  /\ (forall (includeAllDischarged : bool) (s : list (option Js.Thrown))
             (selectedPatient : Obj Patient.t),
        script w = None :: s ->
        PatientStore.selectedPatient (patientStore w)
        = Some selectedPatient ->
        let w' := snd (fetchPatients includeAllDischarged w) in
        let fresh := PatientStore.patients (patientStore w') in
        (PatientStore.selectedPatient (patientStore w')
         = Some selectedPatient
         /\ forall p, In p fresh ->
                      Patient.id (val p)
                      <> Patient.id (val selectedPatient))
        \/ (exists p,
              PatientStore.selectedPatient (patientStore w') = Some p
              /\ In p fresh
              /\ Patient.id (val p) = Patient.id (val selectedPatient)
              /\ (next_ref w <= ref p)%nat)).
Proof.
  split.
  - intros s selected Hs Hsel.
    rewrite (fetchActivePatients_ok w Hs). simpl. rewrite Hsel.
    destruct (Js.find (same_id selected) _) as [u|] eqn:E.
    + right. destruct (find_some_in _ _ E) as [Hu1 Hu2].
      exists u. repeat split; try assumption.
      * now apply Z.eqb_eq in Hu2.
      * now apply freshRoster_ref in Hu1.
    + left. split; [reflexivity|]. intros p Hp.
      rewrite find_none_iff in E. specialize (E p Hp).
      unfold same_id in E. now apply Z.eqb_neq in E.
  - intros includeAllDischarged s selectedPatient Hs Hpat.
    rewrite (fetchPatients_ok includeAllDischarged w Hs). simpl.
    rewrite Hpat.
    destruct (Js.find (same_patient_id selectedPatient) _) as [u|] eqn:E.
    + right. destruct (find_some_in _ _ E) as [Hu1 Hu2].
      exists u. repeat split; try assumption.
      * now apply Z.eqb_eq in Hu2.
      * unfold freshPatients in Hu1. apply alloc_from_ref in Hu1. lia.
    + left. split; [reflexivity|]. intros p Hp.
      rewrite find_none_iff in E. specialize (E p Hp).
      unfold same_patient_id in E. now apply Z.eqb_neq in E.
Qed.
End AggregationProperties.

(* ================================================================== *)
(** * The properties on the sample ward *)

Lemma stay_duration_truncates_witness :
  (let now := 1710563400000 in
   let admissionDate := "2024-03-10T05:30:00.000Z" in
   IsoRuntime.getTime admissionDate = Some 1710048600000
   /\ now - 1710048600000 < 6 * 86400000
   /\ StayCalculator.calculateStayDuration
        (rt := EasternRuntime.runtime) now admissionDate = Some 6
   /\ StayCalculator.isLongStay
        (rt := EasternRuntime.runtime) now admissionDate = true)
  /\ StayCalculator.calculateStayDuration
       (rt := IsoRuntime.runtime) Sample.morningOf10Jan
       "2024-01-01T08:00:00.000Z" = Some 9
  /\ StayCalculator.isLongStay
       (rt := IsoRuntime.runtime) Sample.morningOf10Jan
       "2024-01-01T08:00:00.000Z" = true.
Proof.
  split; [|split].
  - intros now admissionDate.
    split; [reflexivity|]. split; [reflexivity|].
    destruct (stay_duration_truncates
                (rt := EasternRuntime.runtime) now admissionDate
                (t := 1710048600000) eq_refl)
      as (n & Hn & Hlong & Hlocal & _).
    destruct (Hlocal eq_refl eq_refl eq_refl) as [Hq _].
    assert (H6 : n = 6) by (rewrite Hq; reflexivity).
    subst n. split; [exact Hn|].
    apply Hlong. discriminate.
  - destruct (stay_duration_truncates
                (rt := IsoRuntime.runtime) Sample.morningOf10Jan
                "2024-01-01T08:00:00.000Z" (t := 1704096000000) eq_refl)
      as (n & Hn & _ & _ & Hfixed).
    destruct (Hfixed 0 (fun _ _ => eq_refl)) as [Hq _].
    rewrite Hn, Hq. reflexivity.
  - destruct (stay_duration_truncates
                (rt := IsoRuntime.runtime) Sample.morningOf10Jan
                "2024-01-01T08:00:00.000Z" (t := 1704096000000) eq_refl)
      as (n & Hn & Hlong & _ & Hfixed).
    destruct (Hfixed 0 (fun _ _ => eq_refl)) as [Hq _].
    apply Hlong. rewrite Hq. vm_compute. discriminate.
Defined.

(** An admission dated twelve hours ahead of the clock: the stay is 0
    days, while the floor of the difference is -1. *)
Lemma stay_duration_not_floor :
  let now := Sample.morningOf10Jan in
  let admissionDate := "2024-01-10T21:00:00.000Z" in
  exists t,
    IsoRuntime.getTime admissionDate = Some t
    /\ StayCalculator.calculateStayDuration
         (rt := IsoRuntime.runtime) now admissionDate = Some 0
    /\ (now - t) / DateFns.MILLISECONDS_IN_DAY = -1
    /\ StayCalculator.calculateStayDuration
         (rt := IsoRuntime.runtime) now admissionDate
       <> Some ((now - t) / DateFns.MILLISECONDS_IN_DAY).
Proof.
  exists 1704920400000. repeat split; try reflexivity.
  vm_compute. discriminate.
Qed.

Lemma handleSubmit_discharges_admission_witness :
  let w := Sample.ward (Some Sample.entryAdmission10)
                       (Some Sample.drRahman) [] in
  validateForm (rt := IsoRuntime.runtime) Sample.form = true
  /\ exists outcome w' tail,
       handleSubmit (rt := IsoRuntime.runtime) (notes := Sample.notesStore)
                    Sample.form w = (outcome, w')
       /\ log w'
          = UpdateAdmission
              10 (dischargeUpdateOf Sample.form Sample.drRahman)
            :: InsertNote
                 (dischargeSummaryOf Sample.form
                    (val Sample.entryAdmission10) Sample.drRahman)
            :: tail.
Proof.
  intros w. split; [reflexivity|].
  destruct (handleSubmit_discharges_admission
              (rt := IsoRuntime.runtime) (notes := Sample.notesStore)
              Sample.form w (selected := Sample.entryAdmission10)
              (user := Sample.drRahman)
              eq_refl eq_refl eq_refl eq_refl)
    as (outcome & w' & tail & Hrun & Hlog & Hok).
  destruct (Hok eq_refl) as (_ & (tail' & ->) & _).
  exists outcome, w', tail'. split; [exact Hrun|exact Hlog].
Defined.

(** C300 is open on the patients page; the default list, refreshed,
    holds patients 1 and 2 only, and C300 stays selected. *)
Lemma fetchPatients_keeps_absent_selection :
  let w := Sample.patientsPage Sample.viewC300 in
  let w' := snd (fetchPatients (rt := IsoRuntime.runtime) false w) in
  PatientStore.selectedPatient (patientStore w) = Some Sample.viewC300
  /\ Patient.id (val Sample.viewC300) = 3
  /\ map (fun p => Patient.id (val p))
         (PatientStore.patients (patientStore w')) = [1; 2]
  /\ PatientStore.error (patientStore w') = None
  /\ PatientStore.selectedPatient (patientStore w') = Some Sample.viewC300
  /\ PatientStore.selectedPatient (patientStore w') <> None.
Proof.
  repeat split; try reflexivity.
  vm_compute. discriminate.
Qed.

Lemma selection_reconciliation_witness :
  (let w := Sample.ward (Some Sample.entryConsultation77)
                        (Some Sample.drRahman) [None; None] in
   PatientStore.selectedPatient (patientStore w) = None
   /\ DischargeStore.selectedPatient
        (dischargeStore (snd (fetchActivePatients w))) = None)
  /\ (let w := Sample.patientsPage Sample.viewA100 in
      DischargeStore.selectedPatient (dischargeStore w) = None
      /\ exists p,
           PatientStore.selectedPatient
             (patientStore (snd (fetchPatients (rt := IsoRuntime.runtime)
                                               false w))) = Some p
           /\ Patient.id (val p) = 1 /\ ref p = 8%nat).
Proof.
  split; intros w; (split; [reflexivity|]).
  - destruct (selection_reconciliation (rt := IsoRuntime.runtime) w)
      as [Hroster _].
    destruct (Hroster [] Sample.entryConsultation77 eq_refl eq_refl)
      as [[Hnone _]|(p & Hsome & _)]; [exact Hnone|].
    vm_compute in Hsome. discriminate.
  - destruct (selection_reconciliation (rt := IsoRuntime.runtime) w)
      as [_ Hpatients].
    destruct (Hpatients false [] Sample.viewA100 eq_refl eq_refl)
      as [[Hkept _]|(p & Hsome & _ & Hid & _)].
    + vm_compute in Hkept. discriminate.
    + exists p. split; [exact Hsome|]. split; [exact Hid|].
      vm_compute in Hsome. injection Hsome as <-. reflexivity.
Defined.

Lemma processDischarge_write_failures_witness :
  let w := Sample.ward (Some Sample.entryAdmission10)
                       (Some Sample.drRahman) [] in
  let d := dischargeDataOf Sample.form in
  (exists r w',
      processDischarge (rt := IsoRuntime.runtime)
                       (notes := Sample.notesStore) d
                       (with_script [Some Sample.unreachable] w)
      = (Err Sample.unreachable, w')
      /\ log w' = [r] /\ is_status_update r = true
      /\ db w' = Sample.tables)
  /\ (exists r w',
        processDischarge (rt := IsoRuntime.runtime)
                         (notes := Sample.notesStore) d
                         (with_script [None; Some Sample.unreachable] w)
        = (r, w')
        /\ map AdmissionRow.status (Db.admissions (db w'))
           = [discharged; discharged; active; discharged]
        /\ Db.medical_notes (db w') = []).
Proof.
  intros w d.
  destruct (processDischarge_write_failures
              (rt := IsoRuntime.runtime) (notes := Sample.notesStore)
              d w (selected := Sample.entryAdmission10)
              (user := Sample.drRahman) Sample.unreachable []
              eq_refl eq_refl)
    as [(r & w' & Hrun & Hlog & Hupd & Hdb & _)
        (r2 & w2 & Hrun2 & Hdb2 & _ & Hnotes)].
  split.
  - exists r, w'. repeat split; assumption.
  - exists r2, w2. split; [exact Hrun2|]. split.
    + rewrite Hdb2. reflexivity.
    + exact Hnotes.
Defined.

Lemma processDischarge_precondition_witness :
  let w := Sample.ward None (Some Sample.drRahman) [] in
  exists w',
    processDischarge (rt := IsoRuntime.runtime) (notes := Sample.notesStore)
                     (dischargeDataOf Sample.form) w
    = (Err (Js.ErrorObj "No patient selected"), w')
    /\ log w' = [] /\ db w' = Sample.tables.
Proof.
  intros w.
  destruct (processDischarge_precondition
              (rt := IsoRuntime.runtime) (notes := Sample.notesStore)
              (dischargeDataOf Sample.form) w (or_introl eq_refl))
    as (e & w' & Hrun & _ & Hlog & Hdb & _).
  exists w'. split; [|split; assumption].
  rewrite Hrun. f_equal.
  assert (H : fst (processDischarge (rt := IsoRuntime.runtime)
                     (notes := Sample.notesStore)
                     (dischargeDataOf Sample.form) w)
              = Err (Js.ErrorObj "No patient selected")) by reflexivity.
  rewrite Hrun in H. exact H.
Defined.

Lemma patientWithDetails_current_witness :
  let v := patientWithDetails (rt := IsoRuntime.runtime) Sample.resultB200 in
  map AdmissionView.id (Patient.admissions v) = [11; 12]
  /\ StronglySorted (notBefore (rt := IsoRuntime.runtime))
                    (Patient.admissions v)
  /\ Patient.admission_date v = Some "2023-12-20T10:00:00.000Z"
  /\ Patient.diagnosis v = Some "Pneumonia".
Proof.
  intros v.
  assert (Hne : Js.or_empty (PatientResult.admissions Sample.resultB200)
                <> []) by discriminate.
  destruct (patientWithDetails_current
              (rt := IsoRuntime.runtime) Sample.resultB200 Hne)
    as (_ & Hsorted & latest & Hlatest & Hcurrent & _).
  split; [reflexivity|]. split.
  - apply Hsorted. repeat constructor; vm_compute; discriminate.
  - injection Hlatest as <-.
    destruct (Hcurrent _ eq_refl) as (Hdate & _ & Hdiag & _).
    split; [exact Hdate|exact Hdiag].
Defined.

(** B200's open admission has no diagnosis on record, and the list shows
    the diagnosis of his latest, closed, admission. *)
Lemma patientWithDetails_not_from_current :
  Js.or_empty (PatientResult.admissions Sample.resultB200) <> []
  /\ ~ derivedFromCurrent
       (patientWithDetails (rt := IsoRuntime.runtime) Sample.resultB200).
Proof.
  split; [discriminate|].
  intros (current & [Hfind|[Hfind _]] & _ & _ & Hdiag & _).
  - vm_compute in Hfind. injection Hfind as <-.
    vm_compute in Hdiag. discriminate.
  - vm_compute in Hfind. discriminate.
Qed.

Lemma fetchActivePatients_roster_witness :
  let w := Sample.ward None (Some Sample.drRahman) [None; None] in
  map (fun p => (ActivePatient.id (val p),
                 ActivePatient.isConsultation (val p)))
      (DischargeStore.activePatients
         (dischargeStore (snd (fetchActivePatients w))))
  = [(10, None); (12, None); (10, Some true); (55, Some true)]
  /\ forall p,
       In p (DischargeStore.activePatients
               (dischargeStore (snd (fetchActivePatients w)))) ->
       val p <> admissionPatient
                  (Db.join_admission Sample.tables Sample.admission11).
Proof.
  intros w. split; [reflexivity|].
  destruct (fetchActivePatients_roster w (s := []) eq_refl)
    as (_ & _ & _ & _ & _ & _ & Hgone & _).
  apply (Hgone Sample.admission11).
  - simpl. auto.
  - reflexivity.
Defined.

Lemma fetchPatients_window_witness :
  let w := Sample.patientsPage Sample.viewC300 in
  map (fun o => Patient.id (val o))
      (PatientStore.patients
         (patientStore (snd (fetchPatients (rt := IsoRuntime.runtime)
                                           true w))))
  = [1; 2; 3]
  /\ In 2 (map (fun o => Patient.id (val o))
               (PatientStore.patients
                  (patientStore (snd (fetchPatients
                                        (rt := IsoRuntime.runtime)
                                        false w)))))
  /\ cutoffAt (rt := IsoRuntime.runtime) (clock w) = 1704812400000
  /\ db (snd (fetchPatients (rt := IsoRuntime.runtime) false w))
     = Sample.tables.
Proof.
  intros w.
  destruct (fetchPatients_window (rt := IsoRuntime.runtime) w (s := [])
                                 eq_refl)
    as (Hlisted & Hcutoff & Hall & Hdb).
  split; [exact Hall|]. split; [|split; [|exact (Hdb false)]].
  - apply Hlisted.
    exists Sample.patientB200, Sample.admission11.
    repeat split; simpl; auto.
    right. split; [reflexivity|].
    exists "2024-01-10", 1704844800000.
    repeat split. vm_compute. discriminate.
  - rewrite (Hcutoff 0 (fun _ _ => eq_refl)). reflexivity.
Defined.

(** E500's discharge is dated a year after the query, outside the 18
    hours that end at the query time, and the default list shows him. *)
Lemma fetchPatients_lists_future_discharge :
  let w := Ahead.patientsPage in
  let listed :=
    map (fun o => Patient.id (val o))
        (PatientStore.patients
           (patientStore (snd (fetchPatients (rt := IsoRuntime.runtime)
                                             false w)))) in
  In 5 listed
  /\ PatientStore.error
       (patientStore (snd (fetchPatients (rt := IsoRuntime.runtime)
                                         false w))) = None
  /\ forall a,
       In a (Db.admissions (db w)) ->
       AdmissionRow.patient_id a = 5 ->
       ~ inTrailingWindow (rt := IsoRuntime.runtime) (clock w) a.
Proof.
  intros w listed. split; [|split].
  - vm_compute. tauto.
  - reflexivity.
  - intros a Hin Hpid Hwin.
    simpl in Hin.
    destruct Hin as [<-|[<-|[<-|[<-|[<-|[]]]]]]; try discriminate Hpid.
    destruct Hwin as [Hactive|(_ & s & t & Hs & Ht & _ & Hle)].
    + discriminate Hactive.
    + injection Hs as <-. vm_compute in Ht. injection Ht as <-.
      vm_compute in Hle. now apply Hle.
Qed.

(** At noon of 10 March 2024 in Eastern time, nine hours after the
    clocks went forward, the cutoff is 18:00 of the day before on the
    clocks: 17 hours back. *)
Example cutoff_across_clock_change :
  let now := 1710086400000 in
  PatientQuery.admissions_filter
    (patientsQuery (rt := EasternRuntime.runtime) false now)
  = Some (visibleFilter (now - 17 * HOUR))
  /\ cutoffAt (rt := EasternRuntime.runtime) now = now - 17 * HOUR.
Proof. split; reflexivity. Qed.

Lemma processDischarge_refetch_then_clear_witness :
  let w := Sample.ward (Some Sample.entryAdmission10)
                       (Some Sample.drRahman) [None; None] in
  exists w',
    processDischarge (rt := IsoRuntime.runtime) (notes := Sample.notesStore)
                     (dischargeDataOf Sample.form) w = (Ok tt, w')
    /\ DischargeStore.selectedPatient (dischargeStore w') = None
    /\ map (fun p => (ActivePatient.id (val p),
                      ActivePatient.isConsultation (val p)))
           (DischargeStore.activePatients (dischargeStore w'))
       = [(12, None); (10, Some true); (55, Some true)].
Proof.
  intros w.
  destruct (processDischarge_refetch_then_clear
              (rt := IsoRuntime.runtime) (notes := Sample.notesStore)
              (dischargeDataOf Sample.form) w
              (selected := Sample.entryAdmission10)
              (user := Sample.drRahman) (s := [])
              eq_refl eq_refl eq_refl)
    as (r1 & r2 & w1 & w2 & w' & Hrun & _ & _ & _ & _ & _ & _ & Hsel & _).
  exists w'. split; [exact Hrun|]. split; [exact Hsel|].
  assert (H : snd (processDischarge
                     (rt := IsoRuntime.runtime) (notes := Sample.notesStore)
                     (dischargeDataOf Sample.form) w) = w')
    by (rewrite Hrun; reflexivity).
  rewrite <- H. reflexivity.
Defined.

Lemma reconciliation_ignores_kind_witness :
  let w := Sample.ward (Some Sample.entryConsultation10)
                       (Some Sample.drRahman) [None; None] in
  ActivePatient.isConsultation (val Sample.entryConsultation10) = Some true
  /\ exists p,
       DischargeStore.selectedPatient
         (dischargeStore (snd (fetchActivePatients w))) = Some p
       /\ ActivePatient.isConsultation (val p) = None
       /\ ActivePatient.id (val p) = 10.
Proof.
  intros w. split; [reflexivity|].
  destruct (reconciliation_ignores_kind
              w (val Sample.entryAdmission10)
              (s := []) (selected := Sample.entryConsultation10)
              eq_refl eq_refl eq_refl (or_introl eq_refl) eq_refl)
    as (p & Hsel & Hkind & Hid & _).
  exists p. repeat split; assumption.
Defined.

(** The discharge of A100 on 10 January, start to end: the admission is
    discharged with the form's dates, the summary is on file, A100's
    admission has left the roster and nothing is selected any more. *)
Example discharge_of_A100 :
  let w := Sample.ward (Some Sample.entryAdmission10)
                       (Some Sample.drRahman) [] in
  let run := handleSubmit (rt := IsoRuntime.runtime)
                          (notes := Sample.notesStore) Sample.form w in
  fst run = WentBack
  /\ map (fun a => (AdmissionRow.id a, AdmissionRow.status a,
                    AdmissionRow.discharge_date a,
                    AdmissionRow.follow_up_date a))
         (Db.admissions (db (snd run)))
     = [(10, discharged, Some "2024-01-10", Some "2024-01-20");
        (11, discharged, Some "2024-01-10", None);
        (12, active, None, None);
        (13, discharged, Some "2023-11-04", None)]
  /\ map (fun n => (NoteInsert.patient_id n, NoteInsert.note_type n,
                    NoteInsert.content n))
         (Db.medical_notes (db (snd run)))
     = [(1, "Discharge Summary", "stable")]
  /\ map (fun p => (ActivePatient.id (val p),
                    ActivePatient.isConsultation (val p)))
         (DischargeStore.activePatients (dischargeStore (snd run)))
     = [(12, None); (10, Some true); (55, Some true)]
  /\ DischargeStore.selectedPatient (dischargeStore (snd run)) = None
  /\ log (snd run)
     = [UpdateAdmission 10 (dischargeUpdateOf Sample.form Sample.drRahman);
        InsertNote (dischargeSummaryOf Sample.form
                      (val Sample.entryAdmission10) Sample.drRahman);
        SelectActiveAdmissions; SelectActiveConsultations].
Proof. vm_compute. repeat split. Qed.

(** Completing consultation 55: the consultation is completed at the
    clock's instant and a consultation note is on file. *)
Example completion_of_consultation_55 :
  let entry := mkObj 3 (consultationPatient Sample.consultation55) in
  let w := Sample.ward (Some entry) (Some Sample.drRahman) [] in
  let run := processDischarge (rt := IsoRuntime.runtime)
                              (notes := Sample.notesStore)
                              (dischargeDataOf Sample.form) w in
  fst run = Ok tt
  /\ map (fun c => (ConsultationRow.id c, ConsultationRow.status c,
                    ConsultationRow.completed_at c))
         (Db.consultations (db (snd run)))
     = [(10, "active", None);
        (55, "completed", Some "2024-01-10T09:00:00.000Z")]
  /\ map NoteInsert.note_type (Db.medical_notes (db (snd run)))
     = ["Consultation Note"]
  /\ map (fun p => ActivePatient.id (val p))
         (DischargeStore.activePatients (dischargeStore (snd run)))
     = [10; 12; 10].
Proof. vm_compute. repeat split. Qed.

(* ================================================================== *)
(** * Further properties of the discharge store and form *)

Section RefreshFailures.
Context {rt : JsRuntime} {notes : MedicalNotesStore}.

(** X1.  A [fetchActivePatients] whose admissions query, or whose
    consultations query, is answered with an error never throws: it
    stores the error message ("An error occurred" when the error is no
    [Error] instance) and clears the loading flag, leaves the roster and
    the selection exactly as they were and builds no object.  After a
    failed admissions query the consultations query is not sent. *)
Theorem fetchActivePatients_failure
        (w : World) (e : Js.Thrown) (s : list (option Js.Thrown)) :
  script w = Some e :: s \/ script w = None :: Some e :: s ->
  exists w',
    fetchActivePatients w = (Ok tt, w')
    /\ DischargeStore.activePatients (dischargeStore w')
       = DischargeStore.activePatients (dischargeStore w)
    /\ DischargeStore.selectedPatient (dischargeStore w')
       = DischargeStore.selectedPatient (dischargeStore w)
    /\ DischargeStore.error (dischargeStore w')
       = Some (Js.message_or e "An error occurred")
    /\ DischargeStore.loading (dischargeStore w') = false
    /\ db w' = db w
    /\ next_ref w' = next_ref w
    /\ log w'
       = log w ++ match script w with
                  | Some _ :: _ => [SelectActiveAdmissions]
                  | _ => [SelectActiveAdmissions; SelectActiveConsultations]
                  end.
Proof.
  destruct w as [d sc lg ck nr cu [ap ld er sel] ps]; simpl.
  intros [-> | ->];
    unfold fetchActivePatients;
    unfold bind, try_catch, select, set_discharge, modify, request, gets, ret,
      throw_if, new_objects, throw; simpl;
    eexists; (split; [reflexivity|]); simpl;
    repeat (split; [reflexivity|]);
    rewrite <- ?app_assoc; reflexivity.
Qed.

(** X2.  A [fetchPatients] whose query is answered with an error never
    throws: it stores the error message ("Failed to fetch patients" when
    the error is no [Error] instance), clears the loading flag and leaves
    the patient list and the selection as they were. *)
Theorem fetchPatients_failure
        (includeAllDischarged : bool) (w : World) (e : Js.Thrown)
        (s : list (option Js.Thrown)) :
  script w = Some e :: s ->
  exists w',
    fetchPatients includeAllDischarged w = (Ok tt, w')
    /\ PatientStore.patients (patientStore w')
       = PatientStore.patients (patientStore w)
    /\ PatientStore.selectedPatient (patientStore w')
       = PatientStore.selectedPatient (patientStore w)
    /\ PatientStore.error (patientStore w')
       = Some (Js.message_or e "Failed to fetch patients")
    /\ PatientStore.loading (patientStore w') = false
    /\ db w' = db w
    /\ next_ref w' = next_ref w.
Proof.
  destruct w as [d sc lg ck nr cu ds [pl sel ld er]]; simpl.
  intros ->.
  unfold fetchPatients.
  unfold bind, try_catch, select, set_patient, modify, request, gets, ret,
    throw_if, new_objects, throw; simpl.
  eexists; (split; [reflexivity|]); simpl.
  repeat split; reflexivity.
Qed.

Lemma find_freshRoster (f : ActivePatient.t -> bool) (d : Db.t) (n : nat) :
  option_map (@val _) (Js.find (fun o => f (val o)) (freshRoster d n))
  = Js.find f (rosterAdmissions d ++ rosterConsultations d).
Proof.
  unfold freshRoster. rewrite !find_app.
  pose proof (find_alloc_from f (rosterAdmissions d) n) as H1.
  pose proof (find_alloc_from f (rosterConsultations d)
                (n + List.length (rosterAdmissions d))) as H2.
  destruct (Js.find (fun o => f (val o)) (alloc_from n _)) as [x|];
    simpl in H1; rewrite <- H1; [reflexivity|].
  exact H2.
Qed.

(** X3.  The handler of a change notification is [fetchActivePatients].  Run
    twice in a row on unchanged tables (all four queries succeeding), it
    leaves the roster and the selection equal in value to what the first
    run left; only the objects are new. *)
Theorem fetchActivePatients_idempotent
        (w : World) (s : list (option Js.Thrown)) :
  script w = None :: None :: None :: None :: s ->
  let w1 := snd (fetchActivePatients w) in
  let w2 := snd (fetchActivePatients w1) in
  map (@val _) (DischargeStore.activePatients (dischargeStore w2))
  = map (@val _) (DischargeStore.activePatients (dischargeStore w1))
  /\ option_map (@val _) (DischargeStore.selectedPatient (dischargeStore w2))
     = option_map (@val _)
                  (DischargeStore.selectedPatient (dischargeStore w1))
  /\ (forall p, In p (DischargeStore.activePatients (dischargeStore w2)) ->
                (next_ref w1 <= ref p)%nat).
Proof.
  intros Hs w1 w2.
  assert (E1 : w1 = refreshed w (None :: None :: s)).
  { unfold w1. now rewrite (fetchActivePatients_ok w Hs). }
  assert (E2 : w2 = refreshed w1 s).
  { unfold w2. rewrite (fetchActivePatients_ok w1 (s := s)); [reflexivity|].
    rewrite E1. reflexivity. }
  rewrite E2. simpl.
  assert (Hdb : db w1 = db w) by (rewrite E1; reflexivity).
  rewrite Hdb.
  split; [|split].
  - rewrite E1. simpl. now rewrite !freshRoster_val.
  - rewrite E1. simpl.
    destruct (DischargeStore.selectedPatient (dischargeStore w))
      as [selected|]; [|reflexivity].
    destruct (Js.find (same_id selected)
                      (freshRoster (db w) (next_ref w))) as [u|] eqn:Hu;
      [|reflexivity].
    unfold same_id in *.
    pose proof (find_freshRoster
                  (fun x => ActivePatient.id x =? ActivePatient.id (val u))
                  (db w)
                  (next_ref w + List.length (rosterAdmissions (db w))
                   + List.length (rosterConsultations (db w)))) as H2.
    pose proof (find_freshRoster
                  (fun x => ActivePatient.id x
                            =? ActivePatient.id (val selected))
                  (db w) (next_ref w)) as H1.
    simpl in H1, H2. rewrite Hu in H1. simpl in H1.
    destruct (find_some_in _ _ Hu) as [_ Hid]. apply Z.eqb_eq in Hid.
    rewrite <- Hid in H1. rewrite <- H1 in H2.
    exact H2.
  - intros p Hp. now apply freshRoster_ref in Hp.
Qed.
End RefreshFailures.

Section WorkflowRuns.
Context {rt : JsRuntime} {notes : MedicalNotesStore}.

Local Arguments fetchActivePatients : simpl never.

Ltac run_discharge :=
  unfold processDischarge, addNote, write;
  unfold bind, try_catch, set_discharge, modify, request, gets, ret,
    throw_if, throw; simpl.

(** The run of [processDischarge] when both writes are accepted. *)
Lemma processDischarge_ok (d : DischargeData.t) (w : World)
      (selected : Obj ActivePatient.t) (user : User.t)
      (s : list (option Js.Thrown)) :
  DischargeStore.selectedPatient (dischargeStore w) = Some selected ->
  currentUser w = Some user ->
  script w = None :: None :: s ->
  processDischarge d w
  = (Ok tt,
     cleared (snd (fetchActivePatients (afterWrites d selected user w s)))).
Proof.
  destruct w as [db0 sc lg ck nr cu [ap ld er sel] ps]; simpl.
  intros -> -> ->. run_discharge.
  unfold afterWrites, statusRequest, noteFor, status_update; simpl.
  destruct (Js.truthy_flag (ActivePatient.isConsultation (val selected)));
    simpl.
  all: match goal with
       | |- context [fetchActivePatients ?W] =>
           destruct (fetchActivePatients_total W) as (w2 & E & _)
       end.
  all: rewrite E; simpl.
  all: rewrite <- app_assoc in E; simpl in E.
  all: unfold with_db, with_script, with_log, with_dischargeStore in E;
    simpl in E; rewrite E; reflexivity.
Qed.

(** X4.  Completing a consultation: for a selected consultation entry the
    first request sets status "completed", the note as completion note,
    the user as [completed_by] and the clock's instant as [completed_at]
    on the consultation the entry names.  Once accepted, the consultation
    rows carry these values, no admission is touched, and the next request
    appends a note of kind "Consultation Note" with the note text. *)
Theorem processDischarge_completes_consultation
        (d : DischargeData.t) (w : World)
        (selected : Obj ActivePatient.t) (user : User.t)
        (s : list (option Js.Thrown)) :
  DischargeStore.selectedPatient (dischargeStore w) = Some selected ->
  Js.truthy_flag (ActivePatient.isConsultation (val selected)) = true ->
  currentUser w = Some user ->
  script w = None :: s ->
  let id := ActivePatient.consultation_id (val selected) in
  let update :=
    {| ConsultationUpdate.status := "completed";
       ConsultationUpdate.completion_note := DischargeData.discharge_note d;
       ConsultationUpdate.completed_by := User.id user;
       ConsultationUpdate.completed_at := toISOString (clock w) |} in
  let note :=
    {| NoteInsert.patient_id := ActivePatient.patient_id (val selected);
       NoteInsert.doctor_id := User.id user;
       NoteInsert.note_type := "Consultation Note";
       NoteInsert.content := DischargeData.discharge_note d |} in
  exists r w' tail,
    processDischarge d w = (r, w')
    /\ log w' = log w ++ UpdateConsultation id update
                      :: InsertNote note :: tail
    /\ Db.consultations (db w')
       = map (fun c => match id with
                       | Some k =>
                           if ConsultationRow.id c =? k
                           then Db.apply_consultation_update update c else c
                       | None => c
                       end)
             (Db.consultations (db w))
    /\ Db.admissions (db w') = Db.admissions (db w).
Proof.
  destruct w as [db0 sc lg ck nr cu [ap ld er sel] ps]; simpl.
  intros -> Hkind -> ->. run_discharge. rewrite Hkind. simpl.
  destruct s as [|[e|] s]; simpl; try destruct addNote_rethrows; simpl.
  all: try match goal with
         | |- context [fetchActivePatients ?W] =>
             destruct (fetchActivePatients_total W)
               as (w2 & E & Hdb & _ & rest & Hlog);
             rewrite E; simpl in Hdb, Hlog; simpl
         end.
  all: do 3 eexists; (split; [reflexivity|]); simpl.
  all: try rewrite Hlog; try rewrite Hdb; simpl.
  all: rewrite <- ?app_assoc; simpl.
  all: repeat split; reflexivity.
Qed.

(** X5.  For a consultation entry nothing of the form but the note reaches
    the backend: two submissions that differ in the date, the discharge
    type or the follow-up fields run identically.  (The completion time
    stored is the clock's, not the date entered.) *)
Theorem processDischarge_consultation_uses_note_only
        (d1 d2 : DischargeData.t) (w : World)
        (selected : Obj ActivePatient.t) :
  DischargeStore.selectedPatient (dischargeStore w) = Some selected ->
  Js.truthy_flag (ActivePatient.isConsultation (val selected)) = true ->
  DischargeData.discharge_note d1 = DischargeData.discharge_note d2 ->
  processDischarge d1 w = processDischarge d2 w.
Proof.
  destruct w as [db0 sc lg ck nr cu [ap ld er sel] ps]; simpl.
  intros -> Hkind Hnote. run_discharge. rewrite Hkind.
  unfold consultationUpdate, noteOf. rewrite Hnote. reflexivity.
Qed.

Lemma in_freshRoster (d : Db.t) (n : nat) (p : Obj ActivePatient.t) :
  In p (freshRoster d n) ->
  (exists r, In r (Db.admissions d) /\ AdmissionRow.status r = active
             /\ val p = admissionPatient (Db.join_admission d r))
  \/ (exists c, In c (Db.consultations d)
                /\ ConsultationRow.status c = "active"
                /\ val p = consultationPatient c).
Proof.
  intros Hp. apply (in_map (@val _)) in Hp. rewrite freshRoster_val in Hp.
  apply in_app_or in Hp. destruct Hp as [Hp|Hp].
  - left. unfold rosterAdmissions, Db.select_active_admissions in Hp.
    rewrite map_map in Hp. apply in_map_iff in Hp.
    destruct Hp as (r & Hr & Hin). apply filter_In in Hin.
    destruct Hin as [Hin Hst]. exists r. repeat split; auto.
    destruct (AdmissionRow.status r); simpl in Hst; congruence.
  - right. unfold rosterConsultations, Db.select_active_consultations in Hp.
    apply in_map_iff in Hp. destruct Hp as (c & Hc & Hin).
    apply filter_In in Hin. destruct Hin as [Hin Hst].
    exists c. repeat split; auto. now apply String.eqb_eq.
Qed.

(** X6.  A processed entry is gone from the roster: when the status update,
    the note insert and the two queries of the re-fetch all succeed, the
    roster [processDischarge] leaves has no admission entry with the id of
    the admission just discharged, respectively no consultation entry
    with the id of the consultation just completed. *)
Theorem processDischarge_entry_leaves_roster
        (d : DischargeData.t) (w : World)
        (selected : Obj ActivePatient.t) (user : User.t)
        (s : list (option Js.Thrown)) :
  DischargeStore.selectedPatient (dischargeStore w) = Some selected ->
  currentUser w = Some user ->
  script w = None :: None :: None :: None :: s ->
  fst (processDischarge d w) = Ok tt
  /\ forall p,
       In p (DischargeStore.activePatients
               (dischargeStore (snd (processDischarge d w)))) ->
       if Js.truthy_flag (ActivePatient.isConsultation (val selected))
       then ActivePatient.isConsultation (val p) = Some true ->
            ActivePatient.consultation_id (val selected)
            <> Some (ActivePatient.id (val p))
       else ActivePatient.isConsultation (val p) = None ->
            ActivePatient.id (val p) <> ActivePatient.id (val selected).
Proof.
  intros Hsel Hcu Hs.
  rewrite (processDischarge_ok d w Hsel Hcu Hs). simpl.
  split; [reflexivity|].
  rewrite (fetchActivePatients_ok
             (afterWrites d selected user w (None :: None :: s))
             (s := s) eq_refl).
  simpl. intros p Hp.
  apply in_freshRoster in Hp. unfold status_update in Hp.
  destruct (Js.truthy_flag (ActivePatient.isConsultation (val selected)))
    eqn:Hkind; simpl in Hp.
  - intros Hflag Hid.
    destruct Hp as [(r & _ & _ & Hv)|(c & Hin & Hst & Hv)].
    + rewrite Hv in Hflag. discriminate.
    + apply in_map_iff in Hin. destruct Hin as (c0 & Hc & _).
      rewrite Hv in Hid. simpl in Hid. rewrite Hid in Hc.
      destruct (ConsultationRow.id c0 =? ConsultationRow.id c) eqn:E.
      * subst c. discriminate.
      * subst c0. rewrite Z.eqb_refl in E. discriminate.
  - intros Hflag Hid.
    destruct Hp as [(r & Hin & Hst & Hv)|(c & _ & _ & Hv)].
    + apply in_map_iff in Hin. destruct Hin as (r0 & Hr & _).
      rewrite Hv in Hid. simpl in Hid.
      destruct (AdmissionRow.id r0 =? ActivePatient.id (val selected)) eqn:E.
      * subst r. discriminate.
      * subst r0. rewrite Hid, Z.eqb_refl in E. discriminate.
    + rewrite Hv in Hflag. discriminate.
Qed.
End WorkflowRuns.

Section FormRejections.
Context {rt : JsRuntime} {notes : MedicalNotesStore}.

(** X7.  A submission without a logged-in user, without a selected entry, or
    with a form that does not validate stops in the form: it reports at
    least one field error and leaves the world untouched (no request is
    sent and no store field changes). *)
Theorem handleSubmit_rejects (formData : FormData.t) (w : World) :
  currentUser w = None
  \/ DischargeStore.selectedPatient (dischargeStore w) = None
  \/ validateForm formData = false ->
  exists errors,
    handleSubmit formData w = (NotSubmitted errors, w)
    /\ FormErrors.no_keys errors = false.
Proof.
  intros H. unfold handleSubmit.
  destruct (currentUser w) as [u|].
  - destruct (DischargeStore.selectedPatient (dischargeStore w)) as [sp|].
    + destruct H as [H|[H|H]]; try discriminate.
      rewrite H. simpl. eexists. split; [reflexivity|exact H].
    + eexists. split; reflexivity.
  - eexists. split; reflexivity.
Qed.

(** X8.  What [validateForm] accepts: a discharge date, a note that is not
    blank and, when follow-up is required, a follow-up date that is not
    on or before the discharge date; without follow-up the follow-up date
    is not looked at.  When both dates are valid, an accepted follow-up
    date is strictly after the discharge date. *)
Theorem validateForm_accepts (formData : FormData.t) :
  (validateForm formData = true <->
   Js.truthy_string (FormData.discharge_date formData) = true
   /\ Js.truthy_string (trim (FormData.discharge_note formData)) = true
   /\ (FormData.follow_up_required formData = true ->
       Js.truthy_string (FormData.follow_up_date formData) = true
       /\ date_le (FormData.follow_up_date formData)
                  (FormData.discharge_date formData) = false))
  /\ (validateForm formData = true ->
      FormData.follow_up_required formData = true ->
      forall followUp discharge,
        getTime (FormData.follow_up_date formData) = Some followUp ->
        getTime (FormData.discharge_date formData) = Some discharge ->
        discharge < followUp).
Proof.
  assert (Hiff :
    validateForm formData = true <->
    Js.truthy_string (FormData.discharge_date formData) = true
    /\ Js.truthy_string (trim (FormData.discharge_note formData)) = true
    /\ (FormData.follow_up_required formData = true ->
        Js.truthy_string (FormData.follow_up_date formData) = true
        /\ date_le (FormData.follow_up_date formData)
                   (FormData.discharge_date formData) = false)).
  { unfold validateForm, validationErrors, FormErrors.no_keys; simpl.
    destruct (Js.truthy_string (FormData.discharge_date formData));
      destruct (Js.truthy_string (trim (FormData.discharge_note formData)));
      destruct (FormData.follow_up_required formData);
      destruct (Js.truthy_string (FormData.follow_up_date formData));
      destruct (date_le _ _); simpl; split;
      try discriminate; try tauto;
      try (intros (H1 & H2 & H3); try discriminate;
           destruct (H3 eq_refl); discriminate).
    all: intros _; repeat split; try discriminate; auto. }
  split; [exact Hiff|].
  intros Hv Hreq followUp discharge Hf Hd.
  apply Hiff in Hv. destruct Hv as (_ & _ & Hv).
  destruct (Hv Hreq) as [_ Hle].
  unfold date_le in Hle. rewrite Hf, Hd in Hle.
  apply Z.leb_gt in Hle. exact Hle.
Qed.
End FormRejections.

(* ================================================================== *)
(** * Further properties of the stay classifier and the reports *)

Section StayThreshold.
Context {rt : JsRuntime}.

Lemma quot_ge_iff (x n : Z) :
  0 < n ->
  (6 <= Z.quot x n <-> 6 * n <= x).
Proof.
  intros Hn. destruct (Z_le_gt_dec 0 x) as [Hx|Hx].
  - rewrite Z.quot_div_nonneg by lia. split; intros H.
    + pose proof (Z.mul_div_le x n Hn). nia.
    + apply Z.div_le_lower_bound; lia.
  - split; intros H; [|lia].
    assert (Z.quot x n <= 0); [|lia].
    replace x with (- (- x)) by lia.
    rewrite Z.quot_opp_l by lia.
    assert (0 <= Z.quot (- x) n) by (apply Z.quot_pos; lia). lia.
Qed.

(** X9.  In a zone with a fixed offset from UTC a patient becomes a
    long-stay patient exactly six times 24 hours after the admission
    instant, and stays one from then on: for a valid admission date at
    instant [t], [isLongStay] holds at [now] if and only if [now - t] is
    at least 6 * 86400000 ms.  For an invalid date it never holds. *)
Theorem isLongStay_threshold (c now : Z) (admissionDate : string) :
  JsDate.fixedOffset c ->
  match getTime admissionDate with
  | Some t =>
      (StayCalculator.isLongStay now admissionDate = true <->
       6 * DateFns.MILLISECONDS_IN_DAY <= now - t)
      /\ (forall later, now <= later ->
            StayCalculator.isLongStay now admissionDate = true ->
            StayCalculator.isLongStay later admissionDate = true)
  | None => StayCalculator.isLongStay now admissionDate = false
  end.
Proof.
  intros Hc.
  unfold StayCalculator.isLongStay, StayCalculator.calculateStayDuration.
  destruct (getTime admissionDate) as [t|]; [|reflexivity].
  assert (Hiff : forall n,
            (StayCalculator.LONG_STAY_THRESHOLD
             <=? DateFns.differenceInDays n t) = true
            <-> 6 * DateFns.MILLISECONDS_IN_DAY <= n - t).
  { intros n. rewrite (differenceInDays_fixed n t Hc), Z.leb_le.
    apply quot_ge_iff. unfold DateFns.MILLISECONDS_IN_DAY. lia. }
  split; [apply Hiff|].
  intros later Hle H. apply Hiff. apply Hiff in H. lia.
Qed.

(** X10.  In a zone with a fixed offset from UTC, for an admission that
    is not in the future, the stay duration is the number [n >= 0] of
    whole 24-hour periods elapsed: [n] days <= [now - t] < [n + 1] days.
    It is 0 throughout the first 24 hours. *)
Theorem calculateStayDuration_bounds
        (c now : Z) (admissionDate : string) (t : Z) :
  JsDate.fixedOffset c ->
  getTime admissionDate = Some t ->
  t <= now ->
  exists n,
    StayCalculator.calculateStayDuration now admissionDate = Some n
    /\ 0 <= n
    /\ n * DateFns.MILLISECONDS_IN_DAY <= now - t
       < (n + 1) * DateFns.MILLISECONDS_IN_DAY
    /\ (n = 0 <-> now - t < DateFns.MILLISECONDS_IN_DAY).
Proof.
  intros Hc Ht Hle. unfold StayCalculator.calculateStayDuration. rewrite Ht.
  rewrite (differenceInDays_forward Hc Hle).
  set (D := DateFns.MILLISECONDS_IN_DAY).
  assert (HD : 0 < D) by (unfold D, DateFns.MILLISECONDS_IN_DAY; lia).
  exists ((now - t) / D). split; [reflexivity|].
  pose proof (Z.div_mod (now - t) D ltac:(lia)) as Hdm.
  pose proof (Z.mod_pos_bound (now - t) D HD) as Hb.
  assert (H0 : 0 <= (now - t) / D) by (apply Z.div_pos; lia).
  repeat split; try nia.
  all: intros Hlt; apply Z.div_small; lia.
Qed.

(** X11.  The PDF export computes the stay with [Math.ceil] of the
    elapsed time where the screen truncates: in a zone with a fixed
    offset from UTC, for an admission that is not in the future, the
    exported duration equals the displayed one when the elapsed time is
    a whole number of days, and is one day more otherwise. *)
Theorem export_duration_is_rounded_up
        (c now : Z) (admissionDate : string) (t : Z) :
  JsDate.fixedOffset c ->
  getTime admissionDate = Some t ->
  t <= now ->
  exists shown,
    StayCalculator.calculateStayDuration now admissionDate = Some shown
    /\ ReportExport.stayDuration now admissionDate
       = Some (if (now - t) mod DateFns.MILLISECONDS_IN_DAY =? 0
               then shown else shown + 1).
Proof.
  intros Hc Ht Hle.
  unfold StayCalculator.calculateStayDuration, ReportExport.stayDuration.
  rewrite Ht, (differenceInDays_forward Hc Hle).
  eexists. split; [reflexivity|]. f_equal.
  unfold ReportExport.ceil_div, DateFns.MILLISECONDS_IN_DAY.
  change (1000 * 60 * 60 * 24) with 86400000.
  set (D := 86400000). set (x := now - t).
  assert (HD : 0 < D) by (unfold D; lia).
  pose proof (Z.div_mod x D ltac:(lia)) as Hdm.
  pose proof (Z.mod_pos_bound x D HD) as Hb.
  destruct (x mod D =? 0) eqn:E.
  - apply Z.eqb_eq in E.
    assert (- x / D = - (x / D)); [|lia].
    symmetry. apply Z.div_unique with (r := 0); lia.
  - apply Z.eqb_neq in E.
    assert (- x / D = - (x / D) - 1); [|lia].
    symmetry. apply Z.div_unique with (r := D - x mod D); lia.
Qed.
End StayThreshold.

Section LongStayReportProperties.
Context {rt : JsRuntime} {str : JsStrings}.

Lemma ge_number_true (a : option Z) (b : Z) :
  LongStayReports.ge_number a b = true <-> exists n, a = Some n /\ b <= n.
Proof.
  unfold LongStayReports.ge_number. destruct a as [x|]; split.
  - intros H. exists x. split; [reflexivity|now apply Z.leb_le].
  - intros (n & Hn & Hle). injection Hn as <-. now apply Z.leb_le.
  - discriminate.
  - intros (n & Hn & _). discriminate.
Qed.

Lemma keeps_true (now : Z) (filters : LongStayFilters.t)
      (patient : Patient.t) :
  LongStayReports.keeps now filters patient = true <->
  exists admission n,
    hd_error (Patient.admissions patient) = Some admission
    /\ StayCalculator.calculateStayDuration
         now (AdmissionView.admission_date admission) = Some n
    /\ LongStayFilters.minDuration filters <= n
    /\ (LongStayFilters.specialty filters = "All Specialties"
        \/ AdmissionView.department admission
           = LongStayFilters.specialty filters)
    /\ LongStayReports.matchesSearch
         (LongStayFilters.searchQuery filters) patient = true.
Proof.
  unfold LongStayReports.keeps.
  destruct (hd_error (Patient.admissions patient)) as [a|]; split.
  - intros H. apply andb_true_iff in H. destruct H as [H Hs].
    apply andb_true_iff in H. destruct H as [Hsp Hd].
    apply ge_number_true in Hd. destruct Hd as (n & Hn & Hle).
    exists a, n. repeat split; try assumption.
    apply orb_true_iff in Hsp. destruct Hsp as [Hsp|Hsp];
      apply String.eqb_eq in Hsp; auto.
  - intros (a' & n & Ha & Hn & Hle & Hsp & Hs). injection Ha as <-.
    rewrite !andb_true_iff. repeat split; try assumption.
    + apply orb_true_iff. destruct Hsp as [Hsp|Hsp];
        [left|right]; now apply String.eqb_eq.
    + apply ge_number_true. exists n. split; assumption.
  - discriminate.
  - intros (a & n & Ha & _). discriminate.
Qed.

Lemma longStayPatients_in
      (now : Z) (filters : LongStayFilters.t) (patients : list Patient.t)
      (patient : Patient.t) :
  In patient (LongStayReports.longStayPatients now filters patients) <->
  In patient patients /\ LongStayReports.keeps now filters patient = true.
Proof.
  rewrite <- filter_In.
  split; apply Permutation_in; [|symmetry]; apply sort_perm.
Qed.

(** X12.  What the long-stay report lists: the patients of the store whose
    first admission (index 0) has a stay duration that is a number and at
    least [minDuration], matches the specialty filter ("All Specialties"
    or the admission's department) and the search box; each of them
    once per occurrence, none other. *)
Theorem longStayPatients_listed
        (now : Z) (filters : LongStayFilters.t) (patients : list Patient.t) :
  Permutation (LongStayReports.longStayPatients now filters patients)
              (filter (LongStayReports.keeps now filters) patients)
  /\ forall patient,
       In patient (LongStayReports.longStayPatients now filters patients) <->
       In patient patients
       /\ exists admission n,
            hd_error (Patient.admissions patient) = Some admission
            /\ StayCalculator.calculateStayDuration
                 now (AdmissionView.admission_date admission) = Some n
            /\ LongStayFilters.minDuration filters <= n
            /\ (LongStayFilters.specialty filters = "All Specialties"
                \/ AdmissionView.department admission
                   = LongStayFilters.specialty filters)
            /\ LongStayReports.matchesSearch
                 (LongStayFilters.searchQuery filters) patient = true.
Proof.
  assert (Hperm : Permutation
                    (LongStayReports.longStayPatients now filters patients)
                    (filter (LongStayReports.keeps now filters) patients))
    by apply sort_perm.
  split; [exact Hperm|].
  intros patient. rewrite <- keeps_true. apply longStayPatients_in.
Qed.

Lemma notSmaller_trans (f : Patient.t -> option Z) (x y z : Patient.t) :
  LongStayReports.notSmaller f x y ->
  LongStayReports.notSmaller f y z ->
  LongStayReports.notSmaller f x z.
Proof.
  unfold LongStayReports.notSmaller.
  destruct (f x), (f y), (f z); try tauto. lia.
Qed.

Lemma kept_has_stay (now : Z) (filters : LongStayFilters.t)
      (patient : Patient.t) :
  LongStayReports.keeps now filters patient = true ->
  exists admission n t,
    hd_error (Patient.admissions patient) = Some admission
    /\ getTime (AdmissionView.admission_date admission) = Some t
    /\ StayCalculator.calculateStayDuration
         now (AdmissionView.admission_date admission) = Some n
    /\ n = DateFns.differenceInDays now t.
Proof.
  intros H. apply keeps_true in H.
  destruct H as (a & n & Ha & Hn & _).
  unfold StayCalculator.calculateStayDuration in *.
  destruct (getTime (AdmissionView.admission_date a)) as [t|] eqn:Ht;
    [|discriminate].
  exists a, n, t. repeat split; try assumption.
  - now rewrite Ht.
  - congruence.
Qed.

(** X13.  The report is in order whatever the store holds: the filter lets
    through only patients whose first admission has a valid date, so the
    comparator never meets [NaN].  Sorted by duration, no patient stands
    before one with a longer stay; sorted by date, none stands before one
    admitted more recently. *)
Theorem longStayPatients_sorted
        (now : Z) (filters : LongStayFilters.t) (patients : list Patient.t) :
  match LongStayFilters.sortBy filters with
  | by_duration =>
      StronglySorted
        (LongStayReports.notSmaller (LongStayReports.stayOf now))
        (LongStayReports.longStayPatients now filters patients)
  | by_date =>
      StronglySorted
        (LongStayReports.notSmaller LongStayReports.admittedOf)
        (LongStayReports.longStayPatients now filters patients)
  end.
Proof.
  assert (Hok : Forall (fun p => LongStayReports.keeps now filters p = true)
                       (filter (LongStayReports.keeps now filters) patients)).
  { apply Forall_forall. intros p Hp. now apply filter_In in Hp. }
  unfold LongStayReports.longStayPatients.
  destruct (LongStayFilters.sortBy filters) eqn:Hsort.
  - apply sort_sorted
      with (ok := fun p => LongStayReports.keeps now filters p = true);
      [apply notSmaller_trans| | |exact Hok].
    + intros x y Hx Hy.
      destruct (kept_has_stay _ _ _ Hx) as (ax & nx & tx & Hax & _ & Hnx & _).
      destruct (kept_has_stay _ _ _ Hy) as (ay & ny & ty & Hay & _ & Hny & _).
      unfold Js.after, LongStayReports.comparePatients,
        LongStayReports.notSmaller, LongStayReports.stayOf.
      rewrite Hax, Hay, Hsort, Hnx, Hny. simpl.
      intros H. apply Z.ltb_lt in H. lia.
    + intros x y Hx Hy.
      destruct (kept_has_stay _ _ _ Hx) as (ax & nx & tx & Hax & _ & Hnx & _).
      destruct (kept_has_stay _ _ _ Hy) as (ay & ny & ty & Hay & _ & Hny & _).
      unfold Js.after, LongStayReports.comparePatients,
        LongStayReports.notSmaller, LongStayReports.stayOf.
      rewrite Hax, Hay, Hsort, Hnx, Hny. simpl.
      intros H. apply Z.ltb_ge in H. lia.
  - apply sort_sorted
      with (ok := fun p => LongStayReports.keeps now filters p = true);
      [apply notSmaller_trans| | |exact Hok].
    + intros x y Hx Hy.
      destruct (kept_has_stay _ _ _ Hx) as (ax & nx & tx & Hax & Htx & _).
      destruct (kept_has_stay _ _ _ Hy) as (ay & ny & ty & Hay & Hty & _).
      unfold Js.after, LongStayReports.comparePatients,
        LongStayReports.notSmaller, LongStayReports.admittedOf.
      rewrite Hax, Hay, Hsort, Htx, Hty. simpl.
      intros H. apply Z.ltb_lt in H. lia.
    + intros x y Hx Hy.
      destruct (kept_has_stay _ _ _ Hx) as (ax & nx & tx & Hax & Htx & _).
      destruct (kept_has_stay _ _ _ Hy) as (ay & ny & ty & Hay & Hty & _).
      unfold Js.after, LongStayReports.comparePatients,
        LongStayReports.notSmaller, LongStayReports.admittedOf.
      rewrite Hax, Hay, Hsort, Htx, Hty. simpl.
      intros H. apply Z.ltb_ge in H. lia.
Qed.

(** X14.  With the filters as they are when the page opens, the report lists
    exactly the patients of the store that carry the long-stay badge on
    their first admission: those for which [isLongStay] holds of the
    admission date at index 0. *)
Theorem default_report_is_long_stay
        (now : Z) (patients : list Patient.t) (patient : Patient.t) :
  In patient (LongStayReports.longStayPatients
                now LongStayReports.initialFilters patients) <->
  In patient patients
  /\ exists admission,
       hd_error (Patient.admissions patient) = Some admission
       /\ StayCalculator.isLongStay
            now (AdmissionView.admission_date admission) = true.
Proof.
  rewrite longStayPatients_in, keeps_true. simpl.
  unfold StayCalculator.isLongStay.
  split; intros [Hin Hex]; (split; [exact Hin|]).
  - destruct Hex as (a & n & Ha & Hn & Hle & _).
    exists a. split; [exact Ha|]. rewrite Hn. now apply Z.leb_le.
  - destruct Hex as (a & Ha & Hl).
    destruct (StayCalculator.calculateStayDuration
                now (AdmissionView.admission_date a)) as [n|] eqn:Hn;
      [|discriminate].
    exists a, n. repeat split; auto. now apply Z.leb_le.
Qed.
End LongStayReportProperties.

(* ================================================================== *)
(** * Properties of the dashboard counters and the specialty cards *)

Section DashboardProperties.

Lemma fold_countShift (patients : list Patient.t) (counts : ShiftCounts.t)
      (shift : ShiftType) :
  fold_left DashboardStats.countShift patients counts shift
  = counts shift
    + Z.of_nat (List.length
                  (filter (DashboardStats.onShift shift) patients)).
Proof.
  revert counts. induction patients as [|p ps IH]; intros counts; simpl.
  - lia.
  - rewrite IH. unfold DashboardStats.countShift, DashboardStats.onShift,
      DashboardStats.activeShift.
    destruct (Js.find is_active (Patient.admissions p)) as [a|] eqn:Hf;
      simpl; [|lia].
    destruct (find_some _ _ Hf) as [_ Ha]. rewrite Ha.
    unfold ShiftCounts.increment.
    destruct (ShiftType_eqb (AdmissionView.shift_type a) shift); simpl; lia.
Qed.

Lemma count_le {A} (f g : A -> bool) (l : list A) :
  (forall x, f x = true -> g x = true) ->
  (List.length (filter f l) <= List.length (filter g l))%nat.
Proof.
  intros H. induction l as [|x l IH]; simpl; [lia|].
  destruct (f x) eqn:Hf.
  - rewrite (H x Hf). simpl. lia.
  - destruct (g x); simpl; lia.
Qed.

Lemma hasActive_find (p : Patient.t) :
  DashboardStats.hasActive p = true <->
  exists a, Js.find is_active (Patient.admissions p) = Some a.
Proof.
  unfold DashboardStats.hasActive, Js.find.
  induction (Patient.admissions p) as [|a l IH]; simpl.
  - split; [discriminate|intros [a H]; discriminate].
  - destruct (is_active a); simpl.
    + split; [intros _; now exists a|reflexivity].
    + exact IH.
Qed.

Lemma shifts_partition (patients : list Patient.t) :
  Z.of_nat (List.length (filter (DashboardStats.onShift morning) patients))
  + Z.of_nat (List.length (filter (DashboardStats.onShift evening) patients))
  + Z.of_nat (List.length (filter (DashboardStats.onShift night) patients))
  + Z.of_nat (List.length
                (filter (DashboardStats.onShift weekend_morning) patients))
  + Z.of_nat (List.length
                (filter (DashboardStats.onShift weekend_night) patients))
  = Z.of_nat (List.length (filter DashboardStats.hasActive patients)).
Proof.
  induction patients as [|p ps IH]; [reflexivity|].
  assert (Hon : forall s,
             DashboardStats.onShift s p
             = match Js.find is_active (Patient.admissions p) with
               | Some a => ShiftType_eqb (AdmissionView.shift_type a) s
               | None => false
               end).
  { intros s. unfold DashboardStats.onShift, DashboardStats.activeShift.
    destruct (Js.find is_active (Patient.admissions p)); reflexivity. }
  cbn [filter]. rewrite !Hon.
  destruct (Js.find is_active (Patient.admissions p)) as [a|] eqn:Hf.
  - assert (Hp : DashboardStats.hasActive p = true)
      by (apply hasActive_find; now exists a).
    rewrite Hp.
    destruct (AdmissionView.shift_type a); cbn [ShiftType_eqb List.length];
      rewrite !Nat2Z.inj_succ; lia.
  - destruct (DashboardStats.hasActive p) eqn:Hp; [|exact IH].
    apply hasActive_find in Hp. destruct Hp as (a & Ha). congruence.
Qed.

(** X15.  The dashboard counters.  Each shift counter is the number of
    patients whose first active admission is on that shift, so the five
    counters add up to the number of patients with an active admission.
    "Active Patients" counts only the patients whose admission at index 0
    is active; it is never more than the sum of the shift counters, which
    is never more than "Total Patients". *)
Theorem dashboard_counters (patients : list Patient.t) :
  (forall shift,
      DashboardStats.getShiftCounts patients shift
      = Z.of_nat (List.length
                    (filter (DashboardStats.onShift shift) patients)))
  /\ ShiftCounts.total (DashboardStats.getShiftCounts patients)
     = Z.of_nat (List.length (filter DashboardStats.hasActive patients))
  /\ 0 <= DashboardStats.activePatients patients
     <= ShiftCounts.total (DashboardStats.getShiftCounts patients)
  /\ ShiftCounts.total (DashboardStats.getShiftCounts patients)
     <= DashboardStats.totalPatients patients.
Proof.
  assert (Hc : forall shift,
             DashboardStats.getShiftCounts patients shift
             = Z.of_nat (List.length
                           (filter (DashboardStats.onShift shift) patients))).
  { intros shift. unfold DashboardStats.getShiftCounts.
    rewrite fold_countShift. reflexivity. }
  assert (Ht : ShiftCounts.total (DashboardStats.getShiftCounts patients)
               = Z.of_nat (List.length
                             (filter DashboardStats.hasActive patients))).
  { unfold ShiftCounts.total. rewrite !Hc. apply shifts_partition. }
  split; [exact Hc|]. split; [exact Ht|].
  rewrite Ht. unfold DashboardStats.activePatients,
                DashboardStats.totalPatients.
  split; [split; [lia|]|].
  - apply inj_le. apply count_le. intros p.
    unfold DashboardStats.firstIsActive, DashboardStats.hasActive.
    destruct (Patient.admissions p) as [|a l]; simpl; [discriminate|].
    intros ->. reflexivity.
  - apply inj_le. apply filter_length_le.
Qed.
End DashboardProperties.

Section SpecialtyProperties.

(** X16.  The specialty cards do not overlap on consistent data: a patient
    whose active admissions all lie in one department is listed under at
    most one specialty, and a consultation under at most one.  A patient
    is listed under a specialty only through an active admission in it,
    so a patient without an active admission is on no card. *)
Theorem specialty_cards_disjoint
        (patients : list Patient.t) (consultations : list ConsultationRow.t)
        (s1 s2 : string) :
  (forall patient,
      In patient (fst (Specialties.getSpecialtyData
                         patients consultations s1)) ->
      exists admission,
        In admission (Patient.admissions patient)
        /\ AdmissionView.department admission = s1
        /\ AdmissionView.status admission = active)
  /\ (forall patient,
        (forall a b, In a (Patient.admissions patient) ->
                     In b (Patient.admissions patient) ->
                     AdmissionView.status a = active ->
                     AdmissionView.status b = active ->
                     AdmissionView.department a
                     = AdmissionView.department b) ->
        In patient (fst (Specialties.getSpecialtyData
                           patients consultations s1)) ->
        In patient (fst (Specialties.getSpecialtyData
                           patients consultations s2)) ->
        s1 = s2)
  /\ (forall consultation,
        In consultation (snd (Specialties.getSpecialtyData
                                patients consultations s1)) ->
        In consultation (snd (Specialties.getSpecialtyData
                                patients consultations s2)) ->
        s1 = s2).
Proof.
  assert (Hin : forall s patient,
             In patient (fst (Specialties.getSpecialtyData
                                patients consultations s)) ->
             exists admission,
               In admission (Patient.admissions patient)
               /\ AdmissionView.department admission = s
               /\ AdmissionView.status admission = active).
  { intros s patient H. simpl in H. apply filter_In in H.
    destruct H as [_ H]. apply existsb_exists in H.
    destruct H as (a & Ha & Hact). unfold Specialties.activeIn in Hact.
    apply andb_true_iff in Hact. destruct Hact as [Hd Hs].
    exists a. repeat split; [assumption|now apply String.eqb_eq|].
    unfold is_active in Hs.
    destruct (AdmissionView.status a); simpl in Hs; congruence. }
  split; [apply Hin|]. split.
  - intros patient Hone H1 H2.
    destruct (Hin _ _ H1) as (a & Ha & <- & Hsa).
    destruct (Hin _ _ H2) as (b & Hb & <- & Hsb).
    now apply Hone.
  - intros c H1 H2. simpl in H1, H2.
    apply filter_In in H1. apply filter_In in H2.
    destruct H1 as [_ H1]. destruct H2 as [_ H2].
    apply andb_true_iff in H1. apply andb_true_iff in H2.
    destruct H1 as [H1 _]. destruct H2 as [H2 _].
    apply String.eqb_eq in H1. apply String.eqb_eq in H2. congruence.
Qed.
End SpecialtyProperties.

(* ================================================================== *)
(** * Properties of the patient store's mutations *)

Section MutationProperties.
Context {rt : JsRuntime} {be : Backend}.

Local Arguments fetchPatients : simpl never.

Ltac run_session :=
  unfold sbind, stry, sset_patient, lift, set_patient, modify, smodify_db,
    smodify, send, sgets, sret, sthrow_if, sthrow; simpl.

(** X17.  When the backend rejects the insert of the patient row, [addPatient]
    fails with that error after this one request: no admission insert is
    sent, the patient list is not re-fetched, and no table changes.  The
    store keeps its list and records the error message ("Failed to add
    patient" when the error is no [Error] instance). *)
Theorem addPatient_patient_rejected
        (patientData : PatientData.t) (x : Session) (e : Js.Thrown)
        (s : list (option Js.Thrown)) :
  script (world x) = Some e :: s ->
  exists x',
    addPatient patientData x = (Err e, x')
    /\ sent x' = sent x ++ [InsertPatient (newPatientOf patientData)]
    /\ log (world x') = log (world x)
    /\ db (world x') = db (world x)
    /\ PatientStore.patients (patientStore (world x'))
       = PatientStore.patients (patientStore (world x))
    /\ PatientStore.error (patientStore (world x'))
       = Some (Js.message_or e "Failed to add patient")
    /\ PatientStore.loading (patientStore (world x')) = false.
Proof.
  destruct x as [[d sc lg ck nr cu ds [pl sel ld er]] st tbl ns]; simpl.
  intros ->. unfold addPatient, insert_patient. run_session.
  eexists. split; [reflexivity|]. simpl. repeat split; reflexivity.
Qed.

(** X18.  When the patient row is inserted and the backend then rejects the
    admission row, [addPatient] fails with that error and undoes nothing:
    the new patient row stays in the table without any admission, and the
    patient list is not re-fetched. *)
Theorem addPatient_admission_rejected
        (patientData : PatientData.t) (x : Session) (e : Js.Thrown)
        (s : list (option Js.Thrown)) :
  script (world x) = None :: Some e :: s ->
  let row := insertedPatient (newPatientOf patientData) (db (world x)) in
  exists x',
    addPatient patientData x = (Err e, x')
    /\ sent x' = sent x ++ [InsertPatient (newPatientOf patientData);
                            InsertAdmission
                              (newAdmissionOf patientData row)]
    /\ log (world x') = log (world x)
    /\ Db.patients (db (world x')) = Db.patients (db (world x)) ++ [row]
    /\ Db.admissions (db (world x')) = Db.admissions (db (world x))
    /\ PatientStore.patients (patientStore (world x'))
       = PatientStore.patients (patientStore (world x)).
Proof.
  destruct x as [[d sc lg ck nr cu ds [pl sel ld er]] st tbl ns]; simpl.
  intros ->. unfold addPatient, insert_patient, insert_admission.
  run_session.
  eexists. split; [reflexivity|]. simpl.
  rewrite <- app_assoc. repeat split; reflexivity.
Qed.

Lemma alloc_from_in {A} (l : list A) (n : nat) (v : A) :
  In v l -> exists o, In o (alloc_from n l) /\ val o = v.
Proof.
  intros H. rewrite <- (alloc_from_val l n) in H.
  apply in_map_iff in H. destruct H as (o & Ho & Hin). now exists o.
Qed.

Lemma select_patients_lists (q : PatientQuery.t) (d : Db.t)
      (p : PatientRow.t) (a : AdmissionRow.t) :
  In p (Db.patients d) ->
  In a (Db.admissions d) ->
  AdmissionRow.patient_id a = PatientRow.id p ->
  Db.passes_opt (PatientQuery.admissions_filter q) a = true ->
  In a (Db.embedded_admissions q d p)
  /\ In {| PatientResult.row := p;
           PatientResult.admissions :=
             Some (map (Db.join_admission d)
                       (Db.embedded_admissions q d p)) |}
        (Db.select_patients q d).
Proof.
  intros Hp Ha Hid Hpass.
  assert (Hemb : In a (Db.embedded_admissions q d p)).
  { unfold Db.embedded_admissions. apply filter_In. split; [assumption|].
    apply andb_true_iff. split; [now apply Z.eqb_eq|assumption]. }
  split; [exact Hemb|].
  unfold Db.select_patients.
  apply (in_map (fun p0 =>
                   {| PatientResult.row := p0;
                      PatientResult.admissions :=
                        Some (map (Db.join_admission d)
                                  (Db.embedded_admissions q d p0)) |})).
  apply filter_In. split; [assumption|].
  unfold Db.returned. apply orb_true_iff. right.
  destruct (Db.embedded_admissions q d p); [contradiction|reflexivity].
Qed.

(** X19.  A newly admitted patient shows at once: when both inserts and the
    query of the re-fetch succeed, the tables hold the new patient row and
    one new admission for it, with status active and visit number 1, and
    the patient list [addPatient] leaves (the default list, with its
    18-hour window) contains the new patient with that admission. *)
Theorem addPatient_lists_new_patient
        (patientData : PatientData.t) (x : Session)
        (s : list (option Js.Thrown)) :
  script (world x) = None :: None :: None :: s ->
  let d := db (world x) in
  let row := insertedPatient (newPatientOf patientData) d in
  let admission := insertedAdmission (newAdmissionOf patientData row) d in
  exists x',
    addPatient patientData x = (Ok tt, x')
    /\ Db.patients (db (world x')) = Db.patients d ++ [row]
    /\ Db.admissions (db (world x')) = Db.admissions d ++ [admission]
    /\ AdmissionRow.status admission = active
    /\ AdmissionRow.visit_number admission = 1
    /\ AdmissionRow.patient_id admission = PatientRow.id row
    /\ PatientStore.loading (patientStore (world x')) = false
    /\ exists p,
         In p (PatientStore.patients (patientStore (world x')))
         /\ Patient.id (val p) = PatientRow.id row
         /\ Patient.mrn (val p) = PatientData.mrn patientData
         /\ Patient.name (val p) = PatientData.name patientData
         /\ In (admissionView
                  (Db.join_admission (db (world x')) admission))
               (Patient.admissions (val p)).
Proof.
  destruct x as [[d sc lg ck nr cu ds [pl sel ld er]] st tbl ns]; simpl.
  intros ->. unfold addPatient, insert_patient, insert_admission.
  run_session.
  match goal with
  | |- context [fetchPatients false ?W] =>
      rewrite (fetchPatients_ok false W (s := s) eq_refl)
  end.
  simpl. eexists. split; [reflexivity|]. simpl.
  repeat (split; [reflexivity|]).
  set (row := insertedPatient (newPatientOf patientData) d).
  set (admission := insertedAdmission (newAdmissionOf patientData row) d).
  set (d' := Db.with_admissions (Db.admissions d ++ [admission])
               (with_patients (Db.patients d ++ [row]) d)).
  set (q := patientsQuery false ck).
  destruct (select_patients_lists q d' row admission) as [Hemb Hlisted].
  { simpl. apply in_or_app. right. now left. }
  { simpl. apply in_or_app. right. now left. }
  { reflexivity. }
  { reflexivity. }
  apply (in_map patientWithDetails) in Hlisted.
  destruct (alloc_from_in _ nr _ Hlisted) as (p & Hp & Hv).
  exists p. split; [exact Hp|]. rewrite Hv. simpl.
  repeat (split; [reflexivity|]).
  apply in_map.
  eapply Permutation_in; [symmetry; apply sort_perm|].
  simpl. apply in_map. exact Hemb.
Qed.

Lemma patchAll_spec (id : Z) (updates : PatientUpdates.t)
      (patients : list (Obj Patient.t)) (n : nat) :
  map (@val _) (fst (patchAll id updates n patients))
  = map (fun p => if Patient.id p =? id
                  then PatientUpdates.patch updates p else p)
        (map (@val _) patients)
  /\ (forall p, In p patients -> Patient.id (val p) <> id ->
                In p (fst (patchAll id updates n patients)))
  /\ (forall p, In p (fst (patchAll id updates n patients)) ->
                In p patients \/ (n <= ref p)%nat)
  /\ (n <= snd (patchAll id updates n patients))%nat.
Proof.
  revert n. induction patients as [|p ps IH]; intros n; simpl.
  - repeat split; auto; intros p0 H; contradiction.
  - destruct (Patient.id (val p) =? id) eqn:E.
    + specialize (IH (S n)).
      destruct (patchAll id updates (S n) ps) as [rest n'].
      simpl in *. destruct IH as (IH1 & IH2 & IH3 & IH4).
      repeat split.
      * now rewrite IH1.
      * intros p0 [<-|H] Hne; [apply Z.eqb_eq in E; contradiction|].
        right. now apply IH2.
      * intros p0 [<-|H]; [right; simpl; lia|].
        destruct (IH3 _ H); [left; now right|right; lia].
      * lia.
    + specialize (IH n).
      destruct (patchAll id updates n ps) as [rest n'].
      simpl in *. destruct IH as (IH1 & IH2 & IH3 & IH4).
      repeat split.
      * now rewrite IH1.
      * intros p0 [<-|H] Hne; [now left|right; now apply IH2].
      * intros p0 [<-|H]; [left; now left|].
        destruct (IH3 _ H); [left; now right|now right].
      * lia.
Qed.

(** X20.  An accepted [updatePatient] patches the store in place and asks the
    backend nothing more: every listed patient with the given id is
    replaced by a new object with the updates spread over it, every other
    patient stays the very object it was, in the same position; the
    selection is patched the same way when it has that id and left alone
    otherwise.  The list is not re-fetched. *)
Theorem updatePatient_patches
        (id : Z) (updates : PatientUpdates.t) (x : Session)
        (s : list (option Js.Thrown)) :
  script (world x) = None :: s ->
  let patched p :=
    if Patient.id p =? id then PatientUpdates.patch updates p else p in
  let old := patientStore (world x) in
  exists x',
    updatePatient id updates x = (Ok tt, x')
    /\ map (@val _) (PatientStore.patients (patientStore (world x')))
       = map patched (map (@val _) (PatientStore.patients old))
    /\ (forall p, In p (PatientStore.patients old) ->
                  Patient.id (val p) <> id ->
                  In p (PatientStore.patients (patientStore (world x'))))
    /\ option_map (@val _)
                  (PatientStore.selectedPatient (patientStore (world x')))
       = option_map patched
                    (option_map (@val _) (PatientStore.selectedPatient old))
    /\ sent x' = sent x ++ [UpdatePatient id updates]
    /\ log (world x') = log (world x)
    /\ db (world x') = update_patient id updates (db (world x)).
Proof.
  destruct x as [[d sc lg ck nr cu ds [pl sel ld er]] st tbl ns]; simpl.
  intros ->. unfold updatePatient. run_session.
  destruct (patchAll_spec id updates pl nr) as (H1 & H2 & _ & _).
  destruct (patchAll id updates nr pl) as [patients n]. simpl in *.
  destruct sel as [selected|]; simpl.
  - destruct (Patient.id (val selected) =? id) eqn:E; simpl;
      eexists; (split; [reflexivity|]); simpl; rewrite ?E;
      repeat split; auto.
  - eexists. split; [reflexivity|]. simpl. repeat split; auto.
Qed.

(** X21.  An accepted [deletePatient] drops from the store every patient with
    the given id, keeps the others as they are and in order, and clears
    the selection exactly when the selected patient has that id. *)
Theorem deletePatient_removes
        (id : Z) (x : Session) (s : list (option Js.Thrown)) :
  script (world x) = None :: s ->
  let old := patientStore (world x) in
  exists x',
    deletePatient id x = (Ok tt, x')
    /\ PatientStore.patients (patientStore (world x'))
       = filter (fun p => negb (Patient.id (val p) =? id))
                (PatientStore.patients old)
    /\ (forall p, In p (PatientStore.patients (patientStore (world x'))) ->
                  Patient.id (val p) <> id)
    /\ PatientStore.selectedPatient (patientStore (world x'))
       = match PatientStore.selectedPatient old with
         | Some selected =>
             if Patient.id (val selected) =? id then None else Some selected
         | None => None
         end
    /\ sent x' = sent x ++ [DeletePatient id]
    /\ log (world x') = log (world x).
Proof.
  destruct x as [[d sc lg ck nr cu ds [pl sel ld er]] st tbl ns]; simpl.
  intros ->. unfold deletePatient. run_session.
  eexists. split; [reflexivity|]. simpl.
  repeat split; auto.
  intros p Hp. apply filter_In in Hp. destruct Hp as [_ Hp].
  apply negb_true_iff, Z.eqb_neq in Hp. exact Hp.
Qed.

(** X22.  A rejected [updatePatient] or [deletePatient] throws the backend's
    error on to the caller and changes nothing but the flags: the patient
    list, the selection and the tables are as they were. *)
Theorem patient_mutation_rejected
        (id : Z) (updates : PatientUpdates.t) (x : Session)
        (e : Js.Thrown) (s : list (option Js.Thrown)) :
  script (world x) = Some e :: s ->
  (exists x',
      updatePatient id updates x = (Err e, x')
      /\ PatientStore.patients (patientStore (world x'))
         = PatientStore.patients (patientStore (world x))
      /\ PatientStore.selectedPatient (patientStore (world x'))
         = PatientStore.selectedPatient (patientStore (world x))
      /\ PatientStore.error (patientStore (world x'))
         = Some (Js.message_or e "Failed to update patient")
      /\ db (world x') = db (world x))
  /\ (exists x',
        deletePatient id x = (Err e, x')
        /\ PatientStore.patients (patientStore (world x'))
           = PatientStore.patients (patientStore (world x))
        /\ PatientStore.selectedPatient (patientStore (world x'))
           = PatientStore.selectedPatient (patientStore (world x))
        /\ PatientStore.error (patientStore (world x'))
           = Some (Js.message_or e "Failed to delete patient")
        /\ db (world x') = db (world x)).
Proof.
  destruct x as [[d sc lg ck nr cu ds [pl sel ld er]] st tbl ns]; simpl.
  intros ->. split.
  - unfold updatePatient. run_session.
    eexists. split; [reflexivity|]. simpl. repeat split; reflexivity.
  - unfold deletePatient. run_session.
    eexists. split; [reflexivity|]. simpl. repeat split; reflexivity.
Qed.
End MutationProperties.

(* ================================================================== *)
(** * Properties of the long-stay notes store *)

Section LongStayNotesProperties.
Context {rt : JsRuntime} {be : Backend}.

Ltac run_notes :=
  unfold LongStayNotes.fetchNotes, LongStayNotes.addNote,
    LongStayNotes.sset_notes;
  unfold sbind, stry, smodify, send, sgets, sret, sthrow_if, sthrow; simpl.

Lemma lookup_assign_same (k : Z) (v : list LongStayNote.t)
      (m : NotesByPatient.t) :
  NotesByPatient.lookup k (NotesByPatient.assign k v m) = Some v.
Proof.
  induction m as [|[k0 v0] m IH]; simpl.
  - now rewrite Z.eqb_refl.
  - destruct (k0 =? k) eqn:E; simpl; rewrite E; [reflexivity|exact IH].
Qed.

Lemma lookup_assign_other (k k' : Z) (v : list LongStayNote.t)
      (m : NotesByPatient.t) :
  k' <> k ->
  NotesByPatient.lookup k' (NotesByPatient.assign k v m)
  = NotesByPatient.lookup k' m.
Proof.
  intros Hne. induction m as [|[k0 v0] m IH]; simpl.
  - destruct (k =? k') eqn:E; [apply Z.eqb_eq in E; congruence|reflexivity].
  - destruct (k0 =? k) eqn:E; simpl.
    + apply Z.eqb_eq in E. subst k0.
      destruct (k =? k') eqn:E'; [apply Z.eqb_eq in E'; congruence|].
      reflexivity.
    + destruct (k0 =? k'); [reflexivity|exact IH].
Qed.

(** X23.  Without a logged-in user [addNote] sends nothing: it stores the
    error "User not authenticated", clears the loading flag, and returns
    normally (the error is not thrown on); the notes held and the table
    are untouched. *)
Theorem addNote_unauthenticated
        (patientId : Z) (content : string) (x : Session) :
  currentUser (world x) = None ->
  exists x',
    LongStayNotes.addNote patientId content x = (Ok tt, x')
    /\ sent x' = sent x
    /\ world x' = world x
    /\ long_stay_notes x' = long_stay_notes x
    /\ LongStayNotesStore.notes (longStayNotesStore x')
       = LongStayNotesStore.notes (longStayNotesStore x)
    /\ LongStayNotesStore.error (longStayNotesStore x')
       = Some "User not authenticated"
    /\ LongStayNotesStore.loading (longStayNotesStore x') = false.
Proof.
  destruct x as [[d sc lg ck nr cu ds ps] st tbl [ns ld er]]; simpl.
  intros ->. run_notes.
  eexists. split; [reflexivity|]. simpl. repeat split; reflexivity.
Qed.

(** X24.  An accepted [addNote] puts the new note first in the list of its
    patient and leaves the lists of all other patients alone.  The note
    carries the given content and patient id, and as author the name of
    the logged-in user's row ("Unknown" when there is none or the name is
    empty); its row is appended to the table. *)
Theorem addNote_prepends
        (patientId : Z) (content : string) (x : Session) (user : User.t)
        (s : list (option Js.Thrown)) :
  currentUser (world x) = Some user ->
  script (world x) = None :: s ->
  let old := LongStayNotesStore.notes (longStayNotesStore x) in
  exists x' note row,
    LongStayNotes.addNote patientId content x = (Ok tt, x')
    /\ NotesByPatient.lookup
         patientId (LongStayNotesStore.notes (longStayNotesStore x'))
       = Some (note :: LongStayNotes.notesOf patientId old)
    /\ (forall other, other <> patientId ->
          NotesByPatient.lookup
            other (LongStayNotesStore.notes (longStayNotesStore x'))
          = NotesByPatient.lookup other old)
    /\ LongStayNote.content note = content
    /\ LongStayNote.patient_id note = patientId
    /\ Author.name (LongStayNote.created_by note)
       = Js.or_default
           (option_map User.name
              (hd_error (filter (fun u => User.id u =? User.id user)
                                (Db.users (db (world x))))))
           "Unknown"
    /\ long_stay_notes x' = long_stay_notes x ++ [row]
    /\ LongStayNoteRow.id row = LongStayNote.id note
    /\ LongStayNoteRow.content row = content
    /\ LongStayNoteRow.patient_id row = patientId
    /\ LongStayNoteRow.created_by row = User.id user.
Proof.
  destruct x as [[d sc lg ck nr cu ds ps] st tbl [ns ld er]]; simpl.
  intros -> ->. run_notes.
  do 3 eexists. split; [reflexivity|]. simpl.
  split; [apply lookup_assign_same|].
  split; [intros other Hne; now apply lookup_assign_other|].
  repeat split; try reflexivity.
  unfold LongStayNotes.formattedNote, LongStayNotes.join_note,
    LongStayNotes.insertedNote; simpl.
  destruct (filter (fun u => User.id u =? User.id user) (Db.users d));
    reflexivity.
Qed.

Lemma select_notes_in (patientId : Z) (x : Session)
      (r : LongStayNoteResult.t) :
  In r (LongStayNotes.select_notes patientId x) <->
  exists row, In row (long_stay_notes x)
              /\ LongStayNoteRow.patient_id row = patientId
              /\ r = LongStayNotes.join_note (db (world x)) row.
Proof.
  unfold LongStayNotes.select_notes. rewrite in_map_iff. split.
  - intros (row & <- & Hin).
    eapply Permutation_in in Hin; [|apply sort_perm].
    apply filter_In in Hin. destruct Hin as [Hin Hp].
    exists row. repeat split; auto. now apply Z.eqb_eq.
  - intros (row & Hin & Hp & ->). exists row. split; [reflexivity|].
    eapply Permutation_in; [symmetry; apply sort_perm|].
    apply filter_In. split; [assumption|now apply Z.eqb_eq].
Qed.

Lemma fetchNotes_ok (patientId : Z) (x : Session)
      (s : list (option Js.Thrown)) :
  script (world x) = None :: s ->
  LongStayNotes.fetchNotes patientId x = (Ok tt, notesLoaded patientId x).
Proof.
  destruct x as [[d sc lg ck nr cu ds ps] st tbl [ns ld er]]; simpl.
  intros ->. run_notes. reflexivity.
Qed.

Lemma formatted_notes_in (patientId : Z) (x : Session)
      (note : LongStayNote.t) :
  In note (map LongStayNotes.formattedNote
               (LongStayNotes.select_notes patientId x)) <->
  exists row, In row (long_stay_notes x)
              /\ LongStayNoteRow.patient_id row = patientId
              /\ note = LongStayNotes.formattedNote
                          (LongStayNotes.join_note (db (world x)) row).
Proof.
  rewrite in_map_iff. split.
  - intros (r & <- & Hr). apply select_notes_in in Hr.
    destruct Hr as (row & H1 & H2 & ->). now exists row.
  - intros (row & H1 & H2 & ->). eexists. split; [reflexivity|].
    apply select_notes_in. now exists row.
Qed.

(** X25.  An accepted [fetchNotes] replaces the list held for its patient by
    the notes of exactly that patient's rows (every note in the list is a
    row of the patient, every row of the patient is in the list) and
    leaves the lists of the other patients and the table alone. *)
Theorem fetchNotes_loads
        (patientId : Z) (x : Session) (s : list (option Js.Thrown)) :
  script (world x) = None :: s ->
  exists x' loaded,
    LongStayNotes.fetchNotes patientId x = (Ok tt, x')
    /\ NotesByPatient.lookup
         patientId (LongStayNotesStore.notes (longStayNotesStore x'))
       = Some loaded
    /\ (forall note,
          In note loaded <->
          exists row, In row (long_stay_notes x)
                      /\ LongStayNoteRow.patient_id row = patientId
                      /\ note = LongStayNotes.formattedNote
                                  (LongStayNotes.join_note
                                     (db (world x)) row))
    /\ (forall note, In note loaded ->
                     LongStayNote.patient_id note = patientId)
    /\ (forall other, other <> patientId ->
          NotesByPatient.lookup
            other (LongStayNotesStore.notes (longStayNotesStore x'))
          = NotesByPatient.lookup
              other (LongStayNotesStore.notes (longStayNotesStore x)))
    /\ long_stay_notes x' = long_stay_notes x.
Proof.
  intros Hs. exists (notesLoaded patientId x).
  exists (map LongStayNotes.formattedNote
              (LongStayNotes.select_notes patientId x)).
  split; [now apply fetchNotes_ok with s|].
  simpl. split; [apply lookup_assign_same|].
  split; [apply formatted_notes_in|]. split.
  - intros note Hn. apply formatted_notes_in in Hn.
    destruct Hn as (row & _ & Hp & ->). exact Hp.
  - split; [|reflexivity]. intros other Hne. now apply lookup_assign_other.
Qed.

(** X26.  The notes store never throws: when the backend rejects the query of
    [fetchNotes] or the insert of [addNote], the action returns normally
    with the error message stored, and the notes held and the table are
    as they were. *)
Theorem notes_store_keeps_errors
        (patientId : Z) (content : string) (x : Session) (user : User.t)
        (e : Js.Thrown) (s : list (option Js.Thrown)) :
  currentUser (world x) = Some user ->
  script (world x) = Some e :: s ->
  (exists x',
      LongStayNotes.fetchNotes patientId x = (Ok tt, x')
      /\ LongStayNotesStore.notes (longStayNotesStore x')
         = LongStayNotesStore.notes (longStayNotesStore x)
      /\ LongStayNotesStore.error (longStayNotesStore x')
         = Some (Js.message_or e "An error occurred")
      /\ long_stay_notes x' = long_stay_notes x)
  /\ (exists x',
        LongStayNotes.addNote patientId content x = (Ok tt, x')
        /\ LongStayNotesStore.notes (longStayNotesStore x')
           = LongStayNotesStore.notes (longStayNotesStore x)
        /\ LongStayNotesStore.error (longStayNotesStore x')
           = Some (Js.message_or e "An error occurred")
        /\ long_stay_notes x' = long_stay_notes x).
Proof.
  destruct x as [[d sc lg ck nr cu ds ps] st tbl [ns ld er]]; simpl.
  intros -> ->. split; run_notes;
    (eexists; split; [reflexivity|]; simpl; repeat split; reflexivity).
Qed.

(** X27.  A note added is a note found: after an accepted [addNote] and an
    accepted [fetchNotes] for the same patient, the list held for the
    patient contains a note with the content that was added. *)
Theorem addNote_then_fetchNotes
        (patientId : Z) (content : string) (x : Session) (user : User.t)
        (s : list (option Js.Thrown)) :
  currentUser (world x) = Some user ->
  script (world x) = None :: None :: s ->
  let x1 := snd (LongStayNotes.addNote patientId content x) in
  let x2 := snd (LongStayNotes.fetchNotes patientId x1) in
  exists note,
    In note (LongStayNotes.notesOf
               patientId
               (LongStayNotesStore.notes (longStayNotesStore x2)))
    /\ LongStayNote.content note = content
    /\ LongStayNote.patient_id note = patientId.
Proof.
  intros Hu Hs x1 x2.
  set (n := {| NewLongStayNote.patient_id := patientId;
               NewLongStayNote.content := content;
               NewLongStayNote.created_by := User.id user |}).
  assert (H1 : long_stay_notes x1
               = long_stay_notes x ++ [LongStayNotes.insertedNote n x]
               /\ script (world x1) = None :: s).
  { unfold x1.
    destruct x as [[d sc lg ck nr cu ds ps] st tbl [ns ld er]].
    simpl in Hu, Hs. subst cu sc. run_notes. split; reflexivity. }
  destruct H1 as [Htbl Hs1].
  unfold x2. rewrite (fetchNotes_ok patientId x1 Hs1). simpl.
  unfold LongStayNotes.notesOf. rewrite lookup_assign_same. simpl.
  eexists. split.
  - apply formatted_notes_in. exists (LongStayNotes.insertedNote n x).
    split; [|split; reflexivity].
    rewrite Htbl. apply in_or_app. right. now left.
  - split; reflexivity.
Qed.
End LongStayNotesProperties.

(* ================================================================== *)
(** * The properties at work on the sample ward *)

Lemma fetchActivePatients_failure_witness :
  let w := Sample.ward (Some Sample.entryAdmission10) (Some Sample.drRahman)
                       [None; Some Sample.unreachable] in
  exists w',
    fetchActivePatients w = (Ok tt, w')
    /\ DischargeStore.activePatients (dischargeStore w') = Sample.roster
    /\ DischargeStore.selectedPatient (dischargeStore w')
       = Some Sample.entryAdmission10
    /\ DischargeStore.error (dischargeStore w') = Some "An error occurred"
    /\ log w' = [SelectActiveAdmissions; SelectActiveConsultations].
Proof.
  intros w.
  destruct (fetchActivePatients_failure
              w (e := Sample.unreachable) (s := []) (or_intror eq_refl))
    as (w' & Hrun & Hroster & Hsel & Herr & _ & _ & _ & Hlog).
  exists w'. repeat split; assumption.
Defined.

Lemma fetchPatients_failure_witness :
  let w := with_script [Some (Js.ErrorObj "timeout")]
                       (Sample.patientsPage Sample.viewC300) in
  exists w',
    fetchPatients (rt := IsoRuntime.runtime) false w = (Ok tt, w')
    /\ PatientStore.selectedPatient (patientStore w') = Some Sample.viewC300
    /\ PatientStore.error (patientStore w') = Some "timeout".
Proof.
  intros w.
  destruct (fetchPatients_failure
              (rt := IsoRuntime.runtime) false w
              (e := Js.ErrorObj "timeout") (s := []) eq_refl)
    as (w' & Hrun & _ & Hsel & Herr & _).
  exists w'. repeat split; assumption.
Defined.

Lemma fetchActivePatients_idempotent_witness :
  let w := Sample.ward (Some Sample.entryAdmission10)
                       (Some Sample.drRahman) [None; None; None; None] in
  let w1 := snd (fetchActivePatients w) in
  let w2 := snd (fetchActivePatients w1) in
  map (@val _) (DischargeStore.activePatients (dischargeStore w2))
  = map (@val _) (DischargeStore.activePatients (dischargeStore w1))
  /\ option_map (@val _) (DischargeStore.selectedPatient (dischargeStore w2))
     = Some (val Sample.entryAdmission10).
Proof.
  intros w w1 w2.
  destruct (fetchActivePatients_idempotent w (s := []) eq_refl)
    as (Hroster & Hsel & _).
  split; [exact Hroster|]. fold w1 w2 in Hsel. rewrite Hsel. reflexivity.
Defined.

Lemma processDischarge_completes_consultation_witness :
  let w := Sample.ward (Some Sample.entryConsultation10)
                       (Some Sample.drRahman) [None] in
  exists r w',
    processDischarge (rt := IsoRuntime.runtime) (notes := Sample.notesStore)
                     (dischargeDataOf Sample.form) w = (r, w')
    /\ map ConsultationRow.status (Db.consultations (db w'))
       = ["completed"; "active"]
    /\ Db.admissions (db w') = Db.admissions Sample.tables.
Proof.
  intros w.
  destruct (processDischarge_completes_consultation
              (rt := IsoRuntime.runtime) (notes := Sample.notesStore)
              (dischargeDataOf Sample.form) w
              (selected := Sample.entryConsultation10)
              (user := Sample.drRahman) (s := [])
              eq_refl eq_refl eq_refl eq_refl)
    as (r & w' & tail & Hrun & _ & Hcons & Hadm).
  exists r, w'. split; [exact Hrun|]. split; [|exact Hadm].
  rewrite Hcons. reflexivity.
Defined.

Lemma processDischarge_consultation_uses_note_only_witness :
  let w := Sample.ward (Some Sample.entryConsultation10)
                       (Some Sample.drRahman) [] in
  processDischarge (rt := IsoRuntime.runtime) (notes := Sample.notesStore)
                   (dischargeDataOf Sample.form) w
  = processDischarge (rt := IsoRuntime.runtime) (notes := Sample.notesStore)
                     Desk.laterTransfer w.
Proof.
  intros w.
  exact (processDischarge_consultation_uses_note_only
           (rt := IsoRuntime.runtime) (notes := Sample.notesStore)
           (dischargeDataOf Sample.form) Desk.laterTransfer w
           (selected := Sample.entryConsultation10)
           eq_refl eq_refl eq_refl).
Defined.

Lemma processDischarge_entry_leaves_roster_witness :
  let w := Sample.ward (Some Sample.entryAdmission10)
                       (Some Sample.drRahman) [None; None; None; None] in
  let run := processDischarge (rt := IsoRuntime.runtime)
                              (notes := Sample.notesStore)
                              (dischargeDataOf Sample.form) w in
  fst run = Ok tt
  /\ forall p,
       In p (DischargeStore.activePatients (dischargeStore (snd run))) ->
       ActivePatient.isConsultation (val p) = None ->
       ActivePatient.id (val p) <> 10.
Proof.
  intros w run.
  destruct (processDischarge_entry_leaves_roster
              (rt := IsoRuntime.runtime) (notes := Sample.notesStore)
              (dischargeDataOf Sample.form) w
              (selected := Sample.entryAdmission10)
              (user := Sample.drRahman) (s := [])
              eq_refl eq_refl eq_refl) as [Hok Hall].
  split; [exact Hok|]. intros p Hp. exact (Hall p Hp).
Defined.

Lemma handleSubmit_rejects_witness :
  let w := Sample.ward (Some Sample.entryAdmission10) None [] in
  exists errors,
    handleSubmit (rt := IsoRuntime.runtime) (notes := Sample.notesStore)
                 Sample.form w = (NotSubmitted errors, w).
Proof.
  intros w.
  destruct (handleSubmit_rejects
              (rt := IsoRuntime.runtime) (notes := Sample.notesStore)
              Sample.form w (or_introl eq_refl)) as (errors & Hrun & _).
  exists errors. exact Hrun.
Defined.

Lemma isLongStay_threshold_witness :
  StayCalculator.isLongStay
    (rt := IsoRuntime.runtime) Sample.morningOf10Jan
    "2024-01-01T08:00:00.000Z" = true
  /\ StayCalculator.isLongStay
       (rt := IsoRuntime.runtime) Sample.morningOf10Jan
       "2024-01-05T08:00:00.000Z" = false
  /\ StayCalculator.isLongStay
       (rt := IsoRuntime.runtime) Sample.morningOf10Jan "soon" = false.
Proof.
  split; [|split].
  - pose proof (isLongStay_threshold
                  (rt := IsoRuntime.runtime) (c := 0) Sample.morningOf10Jan
                  "2024-01-01T08:00:00.000Z" (fun _ _ => eq_refl)) as H.
    change (getTime (JsRuntime := IsoRuntime.runtime)
                    "2024-01-01T08:00:00.000Z")
      with (Some 1704096000000) in H.
    cbv beta iota in H. destruct H as [H _].
    apply H. vm_compute. discriminate.
  - pose proof (isLongStay_threshold
                  (rt := IsoRuntime.runtime) (c := 0) Sample.morningOf10Jan
                  "2024-01-05T08:00:00.000Z" (fun _ _ => eq_refl)) as H.
    change (getTime (JsRuntime := IsoRuntime.runtime)
                    "2024-01-05T08:00:00.000Z")
      with (Some 1704441600000) in H.
    cbv beta iota in H. destruct H as [H _].
    apply not_true_is_false. intros Hlong. apply H in Hlong.
    vm_compute in Hlong. now apply Hlong.
  - exact (isLongStay_threshold
             (rt := IsoRuntime.runtime) (c := 0) Sample.morningOf10Jan
             "soon" (fun _ _ => eq_refl)).
Defined.

Lemma calculateStayDuration_bounds_witness :
  exists n,
    StayCalculator.calculateStayDuration
      (rt := IsoRuntime.runtime) Sample.morningOf10Jan
      "2024-01-01T08:00:00.000Z" = Some n
    /\ 0 <= n /\ n <> 0.
Proof.
  assert (Hle : 1704096000000 <= Sample.morningOf10Jan)
    by (vm_compute; discriminate).
  destruct (calculateStayDuration_bounds
              (rt := IsoRuntime.runtime) (c := 0)
              (now := Sample.morningOf10Jan)
              "2024-01-01T08:00:00.000Z"
              (t := 1704096000000) (fun _ _ => eq_refl) eq_refl Hle)
    as (n & Hn & Hpos & _ & Hzero).
  exists n. split; [exact Hn|]. split; [exact Hpos|].
  intros H0. apply Hzero in H0. vm_compute in H0. discriminate.
Defined.

Lemma export_duration_is_rounded_up_witness :
  exists shown,
    StayCalculator.calculateStayDuration
      (rt := IsoRuntime.runtime) Sample.morningOf10Jan
      "2024-01-01T08:00:00.000Z" = Some shown
    /\ ReportExport.stayDuration
         (rt := IsoRuntime.runtime) Sample.morningOf10Jan
         "2024-01-01T08:00:00.000Z" = Some (shown + 1).
Proof.
  assert (Hle : 1704096000000 <= Sample.morningOf10Jan)
    by (vm_compute; discriminate).
  destruct (export_duration_is_rounded_up
              (rt := IsoRuntime.runtime) (c := 0)
              (now := Sample.morningOf10Jan)
              "2024-01-01T08:00:00.000Z"
              (t := 1704096000000) (fun _ _ => eq_refl) eq_refl Hle)
    as (shown & Hshown & Hexport).
  exists shown. split; [exact Hshown|exact Hexport].
Defined.

Lemma addPatient_patient_rejected_witness :
  let x := Desk.session (Some Sample.drRahman) [Some Sample.unreachable] in
  exists x',
    addPatient (rt := IsoRuntime.runtime) (be := Desk.backend)
               Desk.patientD400 x = (Err Sample.unreachable, x')
    /\ db (world x') = Sample.tables
    /\ PatientStore.error (patientStore (world x'))
       = Some "Failed to add patient".
Proof.
  intros x.
  destruct (addPatient_patient_rejected
              (rt := IsoRuntime.runtime) (be := Desk.backend)
              Desk.patientD400 x (e := Sample.unreachable) (s := [])
              eq_refl)
    as (x' & Hrun & _ & _ & Hdb & _ & Herr & _).
  exists x'. repeat split; assumption.
Defined.

Lemma addPatient_admission_rejected_witness :
  let x := Desk.session (Some Sample.drRahman)
                        [None; Some Sample.unreachable] in
  exists x',
    addPatient (rt := IsoRuntime.runtime) (be := Desk.backend)
               Desk.patientD400 x = (Err Sample.unreachable, x')
    /\ map PatientRow.mrn (Db.patients (db (world x')))
       = ["A100"; "B200"; "C300"; "D400"]
    /\ Db.admissions (db (world x')) = Db.admissions Sample.tables.
Proof.
  intros x.
  destruct (addPatient_admission_rejected
              (rt := IsoRuntime.runtime) (be := Desk.backend)
              Desk.patientD400 x (e := Sample.unreachable) (s := [])
              eq_refl)
    as (x' & Hrun & _ & _ & Hpat & Hadm & _).
  exists x'. split; [exact Hrun|]. split; [|exact Hadm].
  rewrite Hpat. reflexivity.
Defined.

Lemma addPatient_lists_new_patient_witness :
  let x := Desk.session (Some Sample.drRahman) [None; None; None] in
  exists x' p,
    addPatient (rt := IsoRuntime.runtime) (be := Desk.backend)
               Desk.patientD400 x = (Ok tt, x')
    /\ In p (PatientStore.patients (patientStore (world x')))
    /\ Patient.id (val p) = 4
    /\ Patient.mrn (val p) = "D400".
Proof.
  intros x.
  destruct (addPatient_lists_new_patient
              (rt := IsoRuntime.runtime) (be := Desk.backend)
              Desk.patientD400 x (s := []) eq_refl)
    as (x' & Hrun & _ & _ & _ & _ & _ & _ & p & Hin & Hid & Hmrn & _).
  exists x', p. repeat split; assumption.
Defined.

Lemma updatePatient_patches_witness :
  let x := Desk.session (Some Sample.drRahman) [None] in
  exists x',
    updatePatient (be := Desk.backend) 1 Desk.rename x = (Ok tt, x')
    /\ map (fun p => Patient.name (val p))
           (PatientStore.patients (patientStore (world x')))
       = ["Amal Nasser-Haddad"; "Carla Mansour"]
    /\ map PatientRow.name (Db.patients (db (world x')))
       = ["Amal Nasser-Haddad"; "Basil Haddad"; "Carla Mansour"].
Proof.
  intros x.
  destruct (updatePatient_patches
              (be := Desk.backend) 1 Desk.rename x (s := []) eq_refl)
    as (x' & Hrun & Hmap & _ & _ & _ & _ & Hdb).
  exists x'. split; [exact Hrun|]. split.
  - rewrite <- (map_map (@val _) Patient.name), Hmap. reflexivity.
  - rewrite Hdb. reflexivity.
Defined.

Lemma deletePatient_removes_witness :
  let x := Desk.session (Some Sample.drRahman) [None] in
  exists x',
    deletePatient (be := Desk.backend) 1 x = (Ok tt, x')
    /\ PatientStore.patients (patientStore (world x')) = [Sample.viewC300]
    /\ PatientStore.selectedPatient (patientStore (world x')) = None.
Proof.
  intros x.
  destruct (deletePatient_removes
              (be := Desk.backend) 1 x (s := []) eq_refl)
    as (x' & Hrun & Hlist & _ & Hsel & _).
  exists x'. repeat split; assumption.
Defined.

Lemma patient_mutation_rejected_witness :
  let x := Desk.session (Some Sample.drRahman) [Some Sample.unreachable] in
  fst (updatePatient (be := Desk.backend) 1 Desk.rename x)
  = Err Sample.unreachable
  /\ fst (deletePatient (be := Desk.backend) 1 x) = Err Sample.unreachable.
Proof.
  intros x.
  destruct (patient_mutation_rejected
              (be := Desk.backend) 1 Desk.rename x
              (e := Sample.unreachable) (s := []) eq_refl)
    as [(x1 & Hupdate & _) (x2 & Hdelete & _)].
  rewrite Hupdate, Hdelete. split; reflexivity.
Defined.

Lemma addNote_unauthenticated_witness :
  let x := Desk.session None [] in
  exists x',
    LongStayNotes.addNote (rt := IsoRuntime.runtime) (be := Desk.backend)
                          1 "Family meeting held" x = (Ok tt, x')
    /\ sent x' = []
    /\ long_stay_notes x' = [Desk.noteOn8Jan].
Proof.
  intros x.
  destruct (addNote_unauthenticated
              (rt := IsoRuntime.runtime) (be := Desk.backend)
              1 "Family meeting held" x eq_refl)
    as (x' & Hrun & Hsent & _ & Htable & _).
  exists x'. repeat split; assumption.
Defined.

Lemma addNote_prepends_witness :
  let x := Desk.session (Some Sample.drRahman) [None] in
  exists x' note,
    LongStayNotes.addNote (rt := IsoRuntime.runtime) (be := Desk.backend)
                          1 "Family meeting held" x = (Ok tt, x')
    /\ NotesByPatient.lookup
         1 (LongStayNotesStore.notes (longStayNotesStore x')) = Some [note]
    /\ LongStayNote.content note = "Family meeting held"
    /\ Author.name (LongStayNote.created_by note) = "Dr. Rahman".
Proof.
  intros x.
  destruct (addNote_prepends
              (rt := IsoRuntime.runtime) (be := Desk.backend)
              1 "Family meeting held" x
              (user := Sample.drRahman) (s := []) eq_refl eq_refl)
    as (x' & note & row & Hrun & Hlist & _ & Hcontent & _ & Hauthor & _).
  exists x', note. repeat split; assumption.
Defined.

Lemma fetchNotes_loads_witness :
  let x := Desk.session (Some Sample.drRahman) [None] in
  exists x' loaded,
    LongStayNotes.fetchNotes (rt := IsoRuntime.runtime) 1 x = (Ok tt, x')
    /\ NotesByPatient.lookup
         1 (LongStayNotesStore.notes (longStayNotesStore x')) = Some loaded
    /\ exists note, In note loaded
                    /\ LongStayNote.content note
                       = "Awaiting rehabilitation bed".
Proof.
  intros x.
  destruct (fetchNotes_loads
              (rt := IsoRuntime.runtime) 1 x (s := []) eq_refl)
    as (x' & loaded & Hrun & Hlist & Hin & _).
  exists x', loaded. split; [exact Hrun|]. split; [exact Hlist|].
  eexists. split.
  - apply Hin. exists Desk.noteOn8Jan.
    split; [now left|]. split; reflexivity.
  - reflexivity.
Defined.

Lemma notes_store_keeps_errors_witness :
  let x := Desk.session (Some Sample.drRahman) [Some Sample.unreachable] in
  fst (LongStayNotes.fetchNotes (rt := IsoRuntime.runtime) 1 x) = Ok tt
  /\ fst (LongStayNotes.addNote
            (rt := IsoRuntime.runtime) (be := Desk.backend)
            1 "Family meeting held" x) = Ok tt.
Proof.
  intros x.
  destruct (notes_store_keeps_errors
              (rt := IsoRuntime.runtime) (be := Desk.backend)
              1 "Family meeting held" x
              (user := Sample.drRahman) (e := Sample.unreachable) (s := [])
              eq_refl eq_refl)
    as [(x1 & Hfetch & _) (x2 & Hadd & _)].
  rewrite Hfetch, Hadd. split; reflexivity.
Defined.

Lemma addNote_then_fetchNotes_witness :
  let x := Desk.session (Some Sample.drRahman) [None; None] in
  let x1 := snd (LongStayNotes.addNote
                   (rt := IsoRuntime.runtime) (be := Desk.backend)
                   1 "Family meeting held" x) in
  let x2 := snd (LongStayNotes.fetchNotes (rt := IsoRuntime.runtime) 1 x1) in
  exists note,
    In note (LongStayNotes.notesOf
               1 (LongStayNotesStore.notes (longStayNotesStore x2)))
    /\ LongStayNote.content note = "Family meeting held".
Proof.
  intros x x1 x2.
  destruct (addNote_then_fetchNotes
              (rt := IsoRuntime.runtime) (be := Desk.backend)
              1 "Family meeting held" x
              (user := Sample.drRahman) (s := []) eq_refl eq_refl)
    as (note & Hin & Hcontent & _).
  exists note. split; assumption.
Defined.
